(** * voice2voice_changer: the streaming core of [RVCr2]

    A shallow embedding of [src/RVC/RVCr2.py],
    [src/RVC/pipeline/PipelineGenerator.py] and [src/mods/log_control.py].

    - Python [int] is [Z]; [//] and [%] by a positive constant are [Z.div]
      and [Z.modulo] (both round towards minus infinity, as Python does).
    - Python [float] is IEEE binary64, which is what Rocq's primitive
      [float] is: [/], [*], [sqrt] and the comparisons are the primitive
      operations, so that the rounding of every scalar computation of the
      source ([outSize], the rate conversions) is the one Python performs.
    - a one-dimensional ndarray is a [list float], the two-dimensional
      feature array a list of rows; slicing follows Python's rules for
      negative and out-of-range bounds ([Py.slice]).
    - [self] and the process-wide singletons it reaches are one record
      threaded through a state-and-exception monad: a Python exception
      leaves the mutations made before it in place.
    - pipeline objects live in a store and [self.pipeline] holds an address,
      so that replacing the handle and mutating it in place are told apart. *)

From Stdlib Require Import String.
From Stdlib Require Import ZArith List Lia Bool RelationClasses DecimalString.
From Stdlib Require Import Floats.PrimFloat Floats.SpecFloat Floats.FloatOps.
Import ListNotations.
Open Scope string_scope.
Open Scope list_scope.
Open Scope Z_scope.

(** ** Python values and exceptions *)

Inductive exn : Type :=
| PipelineCreateException (msg : string)
| PipelineNotInitializedException
| DeviceCannotSupportHalfPrecisionException
| ValueError
| OverflowError
| ZeroDivisionError
| TypeError
| AttributeError
| OtherException (name : string).

(** The values a setting can hold: [int | float | str]. *)
Inductive pyval : Type :=
| PInt (z : Z)
| PFloat (f : float)
| PStr (s : string).

Module Py.

(** [float(z)] for an integer: the nearest binary64, ties to even. *)
Definition float_of_Z (z : Z) : float :=
  SF2Prim (binary_normalize prec emax z 0 false).

(** [int(f)]: truncation towards zero; [ValueError] on a NaN and
    [OverflowError] on an infinity. *)
Definition int_of_float (f : float) : exn + Z :=
  match Prim2SF f with
  | S754_zero _ => inr 0
  | S754_finite s m e =>
      let a := if 0 <=? e then Z.pos m * 2 ^ e else Z.pos m / 2 ^ (- e) in
      inr (if s then - a else a)
  | S754_infinity _ => inl OverflowError
  | S754_nan => inl ValueError
  end.

(** [a / b] on two integers (true division). *)
Definition truediv (a b : Z) : exn + float :=
  if b =? 0 then inl ZeroDivisionError
  else inr (float_of_Z a / float_of_Z b)%float.

(** [max(a, b)]: the first argument unless the second is greater. *)
Definition max (a b : float) : float :=
  if (a <? b)%float then b else a.

(** [round(f)] to an integer: nearest, ties to even. Not used by the
    source; it is the rounding the specification's formula for [outSize]
    names. *)
Definition round_half_even (f : float) : exn + Z :=
  match Prim2SF f with
  | S754_zero _ => inr 0
  | S754_finite s m e =>
      let a :=
        if 0 <=? e then Z.pos m * 2 ^ e
        else
          let d := 2 ^ (- e) in
          let q := Z.pos m / d in
          let r := Z.pos m mod d in
          match 2 * r ?= d with
          | Lt => q
          | Gt => q + 1
          | Eq => if Z.even q then q else q + 1
          end in
      inr (if s then - a else a)
  | S754_infinity _ => inl OverflowError
  | S754_nan => inl ValueError
  end.

(** A slice bound [i] of a sequence of length [len]: a negative bound
    counts from the end, and every bound is clamped to [0, len]. *)
Definition bound (len i : Z) : Z :=
  if i <? 0 then Z.max (i + len) 0 else Z.min i len.

(** [l[start:stop]]; [None] is an omitted bound. *)
Definition slice {A : Type} (l : list A) (start stop : option Z) : list A :=
  let len := Z.of_nat (length l) in
  let lo := match start with Some i => bound len i | None => 0 end in
  let hi := match stop with Some j => bound len j | None => len end in
  firstn (Z.to_nat (hi - lo)) (skipn (Z.to_nat lo) l).

End Py.

(** ** The numpy operations the source uses *)

Module np.

(** [np.zeros(n)] and [np.zeros([n])]; a negative dimension is a
    [ValueError]. *)
Definition zeros (n : Z) : exn + list float :=
  if n <? 0 then inl ValueError else inr (repeat 0%float (Z.to_nat n)).

(** [np.zeros([n, c])]. *)
Definition zeros2 (n c : Z) : exn + list (list float) :=
  if (n <? 0) || (c <? 0) then inl ValueError
  else inr (repeat (repeat 0%float (Z.to_nat c)) (Z.to_nat n)).

(** [x.astype(np.float32)] on one element: the nearest binary32, kept in
    a binary64. *)
Definition float32 (f : float) : float :=
  match Prim2SF f with
  | S754_finite s m e =>
      match binary_normalize 24 128 (if s then Z.neg m else Z.pos m) e s with
      | S754_finite s' m' e' => SF2Prim (S754_finite s' m' e')
      | S754_infinity s' => if s' then neg_infinity else infinity
      | S754_zero s' => if s' then neg_zero else zero
      | S754_nan => nan
      end
  | _ => f
  end.

Definition square (l : list float) : list float :=
  map (fun x => (x * x)%float) l.

Definition sum (l : list float) : float :=
  fold_left (fun acc x => (acc + x)%float) l 0%float.

(** [a.mean()]: the mean of the empty array is [0/0], a NaN. numpy adds
    pairwise where this adds left to right; the two agree up to rounding
    and exactly on arrays of zeros. *)
Definition mean (l : list float) : float :=
  (sum l / Py.float_of_Z (Z.of_nat (length l)))%float.

Definition sqrt (f : float) : float := PrimFloat.sqrt f.

(** [a * c] for an array and a scalar. *)
Definition scale (l : list float) (c : float) : list float :=
  map (fun x => (x * c)%float) l.

End np.

Module Setting.

(** [v / n] for a setting [v] and an integer [n]. *)
Definition truediv (v : pyval) (n : Z) : exn + float :=
  match v with
  | PInt a => Py.truediv a n
  | PFloat a =>
      if n =? 0 then inl ZeroDivisionError
      else inr (a / Py.float_of_Z n)%float
  | PStr _ => inl TypeError
  end.

(** [x < v] for a float [x] and a setting [v]. *)
Definition lt (x : float) (v : pyval) : exn + bool :=
  match v with
  | PInt a => inr (x <? Py.float_of_Z a)%float
  | PFloat a => inr (x <? a)%float
  | PStr _ => inl TypeError
  end.

(** The truth value of a setting, as in [1 if v else 0]. *)
Definition truthy (v : pyval) : bool :=
  match v with
  | PInt a => negb (a =? 0)
  | PFloat a => negb (a =? 0)%float
  | PStr s => negb (String.eqb s "")
  end.

End Setting.

(** ** The objects of the program *)

(** Modelled from the spec: [utils/ModelSlot.py] is not among the sources;
    these are the fields of the model-slot metadata that [RVCr2] and
    [createPipeline] read. *)
Record RVCModelSlot : Type := {
  slotIndex : Z;
  modelFile : string;
  indexFile : string;
  modelType : string;
  version : string;
  embedder : string;
  f0 : bool;
  embChannels : Z;
  samplingRate : Z;
  embOutputLayer : Z;
  useFinalProj : bool;
  defaultTune : pyval;
  defaultIndexRatio : pyval;
  defaultProtect : pyval
}.

(** The heavy resources a pipeline is assembled from. The source only
    passes them around. *)
Class Components : Type := {
  Device : Type;
  Inferencer : Type;
  Embedder : Type;
  PitchExtractor : Type;
  FaissIndex : Type
}.

(** Modelled from the spec: [RVC/pipeline/Pipeline.py] is not among the
    sources. A handle owns the embedder, the inferencer, the pitch
    extractor, the similarity index, the target sampling rate, the compute
    device and the precision flag: the seven arguments [createPipeline]
    passes to the constructor. *)
Record Pipeline `{Components} : Type := {
  p_embedder : Embedder;
  p_inferencer : Inferencer;
  p_pitchExtractor : PitchExtractor;
  p_index : option FaissIndex;
  p_targetSR : Z;
  p_device : Device;
  p_isHalf : bool
}.

(** Modelled from the spec: [Pipeline.setPitchExtractor] is not among the
    sources. It is a setter: the pitch extractor of the object it is called
    on is overwritten, and the object stays the one it was. *)
Definition setPitchExtractor `{Components} (pe : PitchExtractor) (p : Pipeline) : Pipeline :=
  {| p_embedder := p_embedder p;
     p_inferencer := p_inferencer p;
     p_pitchExtractor := pe;
     p_index := p_index p;
     p_targetSR := p_targetSR p;
     p_device := p_device p;
     p_isHalf := p_isHalf p |}.

(** The thirteen arguments of [Pipeline.exec], in the order of the call. *)
Record ExecArgs : Type := {
  a_sid : pyval;
  a_audio : list float;
  a_pitchf : option (list float);
  a_feature : list (list float);
  a_f0_up_key : pyval;
  a_index_rate : pyval;
  a_if_f0 : Z;
  a_extra_seconds : float;
  a_embOutputLayer : Z;
  a_useFinalProj : bool;
  a_repeat : Z;
  a_protect : pyval;
  a_outSize : Z
}.

(** What the program calls and does not define: the device, inferencer,
    embedder and pitch-extractor managers, the file system, faiss, resampy,
    the conversions of Python's [int], [float] and [str] on text, [str]
    on an exception and on a device, and [Pipeline.exec]. A call the source wraps in [try] may raise; the
    others are taken to return. The first argument of [getDevice] and of
    [halfPrecisionAvailable] is the [forceTensor] flag of the device
    manager singleton, set by [setForceTensor]. [model_path dir i file] is
    [os.path.join(dir, str(i), os.path.basename(file))]. *)
Class Collaborators `{Components} : Type := {
  getDevice : bool -> pyval -> Device;
  halfPrecisionAvailable : bool -> pyval -> bool;
  getInferencer : string -> string -> pyval -> string -> exn + Inferencer;
  getEmbedder : string -> bool -> Device -> exn + Embedder;
  getPitchExtractor : pyval -> pyval -> PitchExtractor;
  model_path : string -> Z -> string -> string;
  path_exists : string -> bool;
  path_isfile : string -> bool;
  read_index : string -> exn + FaissIndex;
  resample : list float -> Z -> Z -> list float;
  exec : Pipeline -> ExecArgs ->
         exn + (list float * option (list float) * list (list float));
  int_of_string : string -> exn + Z;
  float_of_string : string -> exn + float;
  string_of_int : Z -> string;
  string_of_float : float -> string;
  str_of_exception : exn -> string;
  str_of_device : Device -> string
}.

(** ** The state of an [RVCr2] instance *)

(** The attributes of [self], with the two pieces of process state the
    methods reach: the [forceTensor] flag of the device manager singleton
    and the lines printed or logged. [settings] maps an attribute name of
    the [RVCSettings] object to its value. [pipeline] is [None] or the
    address in [store] of the current handle. The sampling rates are
    unset until [setSamplingRate] is called. *)
Record RVCr2 `{Components} : Type := {
  forceTensor : bool;
  settings : string -> pyval;
  model_dir : string;
  slotInfo : RVCModelSlot;
  pipeline : option nat;
  store : list Pipeline;
  audio_buffer : option (list float);
  pitchf_buffer : option (list float);
  feature_buffer : option (list (list float));
  prevVol : float;
  inputSampleRate : option Z;
  outputSampleRate : option Z;
  log : list string
}.

Section Machine.

Context `{CO : Components} `{CL : @Collaborators CO}.

(** [setattr(obj, key, v)] on the settings object. *)
Definition setattr (s : string -> pyval) (key : string) (v : pyval) : string -> pyval :=
  fun k => if String.eqb k key then v else s k.

(** *** Field updates *)

Definition with_forceTensor (b : bool) (r : RVCr2) : RVCr2 :=
  {| forceTensor := b; settings := settings r; model_dir := model_dir r;
     slotInfo := slotInfo r; pipeline := pipeline r; store := store r;
     audio_buffer := audio_buffer r; pitchf_buffer := pitchf_buffer r;
     feature_buffer := feature_buffer r; prevVol := prevVol r;
     inputSampleRate := inputSampleRate r;
     outputSampleRate := outputSampleRate r; log := log r |}.

Definition with_settings (s : string -> pyval) (r : RVCr2) : RVCr2 :=
  {| forceTensor := forceTensor r; settings := s; model_dir := model_dir r;
     slotInfo := slotInfo r; pipeline := pipeline r; store := store r;
     audio_buffer := audio_buffer r; pitchf_buffer := pitchf_buffer r;
     feature_buffer := feature_buffer r; prevVol := prevVol r;
     inputSampleRate := inputSampleRate r;
     outputSampleRate := outputSampleRate r; log := log r |}.

Definition with_pipeline (p : option nat) (st : list Pipeline) (r : RVCr2) : RVCr2 :=
  {| forceTensor := forceTensor r; settings := settings r;
     model_dir := model_dir r; slotInfo := slotInfo r; pipeline := p;
     store := st; audio_buffer := audio_buffer r;
     pitchf_buffer := pitchf_buffer r; feature_buffer := feature_buffer r;
     prevVol := prevVol r; inputSampleRate := inputSampleRate r;
     outputSampleRate := outputSampleRate r; log := log r |}.

Definition with_audio_buffer (a : option (list float)) (r : RVCr2) : RVCr2 :=
  {| forceTensor := forceTensor r; settings := settings r;
     model_dir := model_dir r; slotInfo := slotInfo r;
     pipeline := pipeline r; store := store r; audio_buffer := a;
     pitchf_buffer := pitchf_buffer r; feature_buffer := feature_buffer r;
     prevVol := prevVol r; inputSampleRate := inputSampleRate r;
     outputSampleRate := outputSampleRate r; log := log r |}.

Definition with_pitchf_buffer (a : option (list float)) (r : RVCr2) : RVCr2 :=
  {| forceTensor := forceTensor r; settings := settings r;
     model_dir := model_dir r; slotInfo := slotInfo r;
     pipeline := pipeline r; store := store r;
     audio_buffer := audio_buffer r; pitchf_buffer := a;
     feature_buffer := feature_buffer r; prevVol := prevVol r;
     inputSampleRate := inputSampleRate r;
     outputSampleRate := outputSampleRate r; log := log r |}.

Definition with_feature_buffer (a : option (list (list float))) (r : RVCr2) : RVCr2 :=
  {| forceTensor := forceTensor r; settings := settings r;
     model_dir := model_dir r; slotInfo := slotInfo r;
     pipeline := pipeline r; store := store r;
     audio_buffer := audio_buffer r; pitchf_buffer := pitchf_buffer r;
     feature_buffer := a; prevVol := prevVol r;
     inputSampleRate := inputSampleRate r;
     outputSampleRate := outputSampleRate r; log := log r |}.

Definition with_prevVol (v : float) (r : RVCr2) : RVCr2 :=
  {| forceTensor := forceTensor r; settings := settings r;
     model_dir := model_dir r; slotInfo := slotInfo r;
     pipeline := pipeline r; store := store r;
     audio_buffer := audio_buffer r; pitchf_buffer := pitchf_buffer r;
     feature_buffer := feature_buffer r; prevVol := v;
     inputSampleRate := inputSampleRate r;
     outputSampleRate := outputSampleRate r; log := log r |}.

Definition with_rates (i o : option Z) (r : RVCr2) : RVCr2 :=
  {| forceTensor := forceTensor r; settings := settings r;
     model_dir := model_dir r; slotInfo := slotInfo r;
     pipeline := pipeline r; store := store r;
     audio_buffer := audio_buffer r; pitchf_buffer := pitchf_buffer r;
     feature_buffer := feature_buffer r; prevVol := prevVol r;
     inputSampleRate := i; outputSampleRate := o; log := log r |}.

Definition with_log (l : list string) (r : RVCr2) : RVCr2 :=
  {| forceTensor := forceTensor r; settings := settings r;
     model_dir := model_dir r; slotInfo := slotInfo r;
     pipeline := pipeline r; store := store r;
     audio_buffer := audio_buffer r; pitchf_buffer := pitchf_buffer r;
     feature_buffer := feature_buffer r; prevVol := prevVol r;
     inputSampleRate := inputSampleRate r;
     outputSampleRate := outputSampleRate r; log := l |}.

(** *** The monad of a method: state and exceptions *)

Definition M (A : Type) : Type := RVCr2 -> (exn + A) * RVCr2.

Definition ret {A : Type} (a : A) : M A := fun r => (inr a, r).

Definition bind {A B : Type} (m : M A) (k : A -> M B) : M B :=
  fun r => match m r with
           | (inr a, r') => k a r'
           | (inl e, r') => (inl e, r')
           end.

Definition raise {A : Type} (e : exn) : M A := fun r => (inl e, r).

(** A pure computation that may raise. *)
Definition lift {A : Type} (x : exn + A) : M A := fun r => (x, r).

Definition gets {A : Type} (f : RVCr2 -> A) : M A := fun r => (inr (f r), r).

Definition modify (f : RVCr2 -> RVCr2) : M unit := fun r => (inr tt, f r).

(** [print] and the logger: one line is appended. *)
Definition emit (line : string) : M unit :=
  modify (fun r => with_log (log r ++ [line]) r).

(** Reading an attribute that holds an array; [None] where an array is
    needed is an error of numpy. *)
Definition array {A : Type} (o : option A) : M A :=
  match o with
  | Some a => ret a
  | None => raise ValueError
  end.

End Machine.

Declare Scope rvc_scope.
Delimit Scope rvc_scope with rvc.
Notation "x <- m ;; k" := (bind m (fun x => k))
  (at level 100, m at next level, right associativity) : rvc_scope.
Notation "m ;; k" := (bind m (fun _ => k))
  (at level 100, right associativity) : rvc_scope.
Open Scope rvc_scope.

(** ** [RVCr2.generate_input] *)

Section GenerateInput.

Context `{CO : Components} `{CL : @Collaborators CO}.

(** Lines 150-155: the sum of the four lengths, moved up to a multiple of
    the hop size when it is not one. *)
Definition convertSize_of (inputSize crossfadeSize solaSearchFrame extra_frame : Z) : Z :=
  let convertSize := inputSize + crossfadeSize + solaSearchFrame + extra_frame in
  if negb (convertSize mod 160 =? 0)
  then convertSize + (160 - convertSize mod 160)
  else convertSize.

(** Lines 156-158:
    [int(((convertSize - extra_frame) / 16000) * samplingRate)]. *)
Definition outSize_of (convertSize extra_frame rate : Z) : exn + Z :=
  match Py.truediv (convertSize - extra_frame) 16000 with
  | inr q => Py.int_of_float (q * Py.float_of_Z rate)
  | inl e => inl e
  end.

(** Lines 128-148: link the new samples to the past data, or start the
    three buffers. Rows are appended whatever their width; numpy asks for
    equal widths, which the rows of zeros made here have. *)
Definition link_past (newData : list float) (newFeatureLength : Z) : M unit :=
  slot <- gets slotInfo ;;
  ab <- gets audio_buffer ;;
  match ab with
  | Some a =>
      modify (with_audio_buffer (Some (a ++ newData))) ;;
      (if f0 slot then
         pb <- gets pitchf_buffer ;;
         z <- lift (np.zeros newFeatureLength) ;;
         p <- array pb ;;
         modify (with_pitchf_buffer (Some (p ++ z)))
       else ret tt) ;;
      fb <- gets feature_buffer ;;
      z <- lift (np.zeros2 newFeatureLength (embChannels slot)) ;;
      ft <- array fb ;;
      modify (with_feature_buffer (Some (ft ++ z)))
  | None =>
      modify (with_audio_buffer (Some newData)) ;;
      (if f0 slot then
         z <- lift (np.zeros newFeatureLength) ;;
         modify (with_pitchf_buffer (Some z))
       else ret tt) ;;
      z <- lift (np.zeros2 newFeatureLength (embChannels slot)) ;;
      modify (with_feature_buffer (Some z))
  end.

(** Lines 160-174: if the buffer is not full, [convertSize] zeros go in
    front of the audio and [convertSize // 160] zero rows in front of the
    other two. *)
Definition fill_zero (convertSize : Z) : M unit :=
  slot <- gets slotInfo ;;
  a <- (ab <- gets audio_buffer ;; array ab) ;;
  if Z.of_nat (length a) <? convertSize then
    z <- lift (np.zeros convertSize) ;;
    modify (with_audio_buffer (Some (z ++ a))) ;;
    (if f0 slot then
       z <- lift (np.zeros (convertSize / 160)) ;;
       p <- (pb <- gets pitchf_buffer ;; array pb) ;;
       modify (with_pitchf_buffer (Some (z ++ p)))
     else ret tt) ;;
    z <- lift (np.zeros2 (convertSize / 160) (embChannels slot)) ;;
    ft <- (fb <- gets feature_buffer ;; array fb) ;;
    modify (with_feature_buffer (Some (z ++ ft)))
  else ret tt.

(** Lines 176-184: keep the part to be converted. *)
Definition trim (convertSize : Z) : M unit :=
  slot <- gets slotInfo ;;
  let convertOffset := -1 * convertSize in
  let featureOffset := convertOffset / 160 in
  a <- (ab <- gets audio_buffer ;; array ab) ;;
  modify (with_audio_buffer (Some (Py.slice a (Some convertOffset) None))) ;;
  (if f0 slot then
     p <- (pb <- gets pitchf_buffer ;; array pb) ;;
     modify (with_pitchf_buffer (Some (Py.slice p (Some featureOffset) None)))
   else ret tt) ;;
  ft <- (fb <- gets feature_buffer ;; array fb) ;;
  modify (with_feature_buffer (Some (Py.slice ft (Some featureOffset) None))).

(** Line 187-189: the part of the audio window whose volume is checked. *)
Definition crop_of (audio : list float) (inputSize crossfadeSize : Z) : list float :=
  let cropOffset := -1 * (inputSize + crossfadeSize) in
  let cropEnd := -1 * crossfadeSize in
  Py.slice audio (Some cropOffset) (Some cropEnd).

(** Lines 186-192. *)
Definition check_volume (inputSize crossfadeSize : Z) : M float :=
  a <- (ab <- gets audio_buffer ;; array ab) ;;
  let crop := crop_of a inputSize crossfadeSize in
  let vol := np.sqrt (np.mean (np.square crop)) in
  pv <- gets prevVol ;;
  let vol := Py.max vol (pv * 0)%float in
  modify (with_prevVol vol) ;;
  ret vol.

(** Lines 116-201. [newData] arrives at 16 kHz; each sample is cast to
    float32 and divided by 32768. *)
Definition generate_input (newData : list float)
    (crossfadeSize solaSearchFrame extra_frame : Z)
  : M (list float * option (list float) * list (list float) * Z * float * Z) :=
  let inputSize := Z.of_nat (length newData) in
  let newData := map (fun x => (np.float32 x / 32768)%float) newData in
  let newFeatureLength := inputSize / 160 in
  link_past newData newFeatureLength ;;
  let convertSize :=
    convertSize_of inputSize crossfadeSize solaSearchFrame extra_frame in
  slot <- gets slotInfo ;;
  outSize <- lift (outSize_of convertSize extra_frame (samplingRate slot)) ;;
  fill_zero convertSize ;;
  trim convertSize ;;
  vol <- check_volume inputSize crossfadeSize ;;
  a <- (ab <- gets audio_buffer ;; array ab) ;;
  pb <- gets pitchf_buffer ;;
  ft <- (fb <- gets feature_buffer ;; array fb) ;;
  ret (a, pb, ft, convertSize, vol, outSize).

End GenerateInput.

(** ** [PipelineGenerator]: [_loadIndex] and [createPipeline] *)

Section PipelineGenerator.

Context `{CO : Components} `{CL : @Collaborators CO}.

(** [try: ... except ...]: the outcome of [m] as a value. The mutations
    [m] made before raising stay. *)
Definition attempt {A : Type} (m : M A) : M (exn + A) :=
  fun r => let (x, r') := m r in (inr x, r').

Definition index_not_found : string := "[Voice Changer] Index file is not found".
Definition index_load_failed : string := "[Voice Changer] load index failed. Use no index.".

(** Lines 61-77. The bare [except:] takes every exception. *)
Definition _loadIndex (indexPath : string) : M (option FaissIndex) :=
  emit "[Voice Changer] Loading index..." ;;
  if negb (path_exists indexPath) || negb (path_isfile indexPath) then
    emit index_not_found ;;
    ret None
  else
    emit ("Try loading... " ++ indexPath)%string ;;
    match read_index indexPath with
    | inr index => ret (Some index)
    | inl _ =>
        emit index_load_failed ;;
        ret None
    end.

(** The constructor call [Pipeline(...)]: a new object in the store. *)
Definition new_Pipeline (p : Pipeline) : M nat :=
  fun r => (inr (length (store r)),
            with_pipeline (pipeline r) (store r ++ [p]) r).

Definition inferencer_failed : string := "[Voice Changer] exception! loading inferencer".
Definition embedder_failed : string := "[Voice Changer] exception! loading embedder".

(** Lines 15-58. Both [except Exception] clauses print and raise
    [PipelineCreateException]: [print] writes its arguments with a space
    between them, the message first, then the exception caught and, for
    the embedder, the device. The traceback on stderr is not recorded. *)
Definition createPipeline (modelSlot : RVCModelSlot) (gpu f0Detector : pyval) : M nat :=
  force <- gets forceTensor ;;
  dir <- gets model_dir ;;
  let dev := getDevice force gpu in
  let half := halfPrecisionAvailable force gpu in
  let modelPath := model_path dir (slotIndex modelSlot) (modelFile modelSlot) in
  match getInferencer (modelType modelSlot) modelPath gpu (version modelSlot) with
  | inl e =>
      emit (inferencer_failed ++ " " ++ str_of_exception e)%string ;;
      raise (PipelineCreateException inferencer_failed)
  | inr inferencer =>
      match getEmbedder (embedder modelSlot) half dev with
      | inl e =>
          emit (embedder_failed ++ " " ++ str_of_exception e
                ++ " " ++ str_of_device dev)%string ;;
          raise (PipelineCreateException embedder_failed)
      | inr emb =>
          let pitchExtractor := getPitchExtractor f0Detector gpu in
          let indexPath := model_path dir (slotIndex modelSlot) (indexFile modelSlot) in
          index <- _loadIndex indexPath ;;
          new_Pipeline
            {| p_embedder := emb;
               p_inferencer := inferencer;
               p_pitchExtractor := pitchExtractor;
               p_index := index;
               p_targetSR := samplingRate modelSlot;
               p_device := dev;
               p_isHalf := half |}
      end
  end.

End PipelineGenerator.

(** ** [RVCr2]: [initialize], [setSamplingRate], [update_settings] *)

(** Modelled from the spec: [RVC/RVCSettings.py] is not among the sources.
    The three tables name the recognized keys by the type their value is
    converted to; they are taken as parameters. *)
Class SettingsSchema : Type := {
  intData : list string;
  floatData : list string;
  strData : list string
}.

Section Settings.

Context `{CO : Components} `{CL : @Collaborators CO} `{SC : SettingsSchema}.

Definition create_failed : string :=
  "[Voice Changer] pipeline create failed. check your model is valid.".

(** Lines 55-77. Only [PipelineCreateException] is caught: the failure is
    logged and the method returns, leaving [self.pipeline] and the
    settings as they were. *)
Definition initialize : M unit :=
  emit "[Voice Changer][RVCr2] Initializing... " ;;
  slot <- gets slotInfo ;;
  s <- gets settings ;;
  created <- attempt (
    p <- createPipeline slot (s "gpu") (s "f0Detector") ;;
    modify (fun r => with_pipeline (Some p) (store r) r) ;;
    emit "pipeline created in RVCr2") ;;
  match created with
  | inl (PipelineCreateException _) => emit create_failed
  | inl e => raise e
  | inr _ =>
      modify (fun r => with_settings (setattr (settings r) "tran" (defaultTune slot)) r) ;;
      modify (fun r => with_settings (setattr (settings r) "indexRatio" (defaultIndexRatio slot)) r) ;;
      modify (fun r => with_settings (setattr (settings r) "protect" (defaultProtect slot)) r) ;;
      emit "[Voice Changer] [RVC] Initializing... done"
  end.

(** Lines 79-81. *)
Definition setSamplingRate (inputRate outputRate : Z) : M unit :=
  modify (with_rates (Some inputRate) (Some outputRate)).

(** [int(val)], [float(val)] and [str(val)] on a setting value. *)
Definition py_int (val : pyval) : exn + Z :=
  match val with
  | PInt z => inr z
  | PFloat f => Py.int_of_float f
  | PStr s => int_of_string s
  end.

Definition py_float (val : pyval) : exn + float :=
  match val with
  | PInt z =>
      let f := Py.float_of_Z z in
      if is_infinity f then inl OverflowError else inr f
  | PFloat f => inr f
  | PStr s => float_of_string s
  end.

Definition py_str (val : pyval) : string :=
  match val with
  | PInt z => string_of_int z
  | PFloat f => string_of_float f
  | PStr s => s
  end.

Definition key_in (key : string) (table : list string) : bool :=
  existsb (String.eqb key) table.

(** [self.pipeline.setPitchExtractor(pe)]: the object at the address is
    changed, the address stays. *)
Fixpoint store_set (l : list Pipeline) (a : nat) (p : Pipeline) : list Pipeline :=
  match l, a with
  | [], _ => []
  | _ :: t, O => p :: t
  | h :: t, S a' => h :: store_set t a' p
  end.

(** Lines 84-102. *)
Definition update_settings (key : string) (val : pyval) : M bool :=
  emit ("[Voice Changer][RVC]: update_settings " ++ key ++ ":" ++ py_str val)%string ;;
  if key_in key intData then
    v <- lift (py_int val) ;;
    modify (fun r => with_settings (setattr (settings r) key (PInt v)) r) ;;
    (if String.eqb key "gpu" then
       modify (with_forceTensor false) ;;
       initialize
     else ret tt) ;;
    ret true
  else if key_in key floatData then
    v <- lift (py_float val) ;;
    modify (fun r => with_settings (setattr (settings r) key (PFloat v)) r) ;;
    ret true
  else if key_in key strData then
    modify (fun r => with_settings (setattr (settings r) key (PStr (py_str val))) r) ;;
    cur <- gets pipeline ;;
    (if String.eqb key "f0Detector" then
       match cur with
       | Some a =>
           s <- gets settings ;;
           let pitchExtractor := getPitchExtractor (s "f0Detector") (s "gpu") in
           modify (fun r =>
             match nth_error (store r) a with
             | Some p =>
                 with_pipeline (pipeline r)
                   (store_set (store r) a (setPitchExtractor pitchExtractor p)) r
             | None => r
             end)
       | None => ret tt
       end
     else ret tt) ;;
    ret true
  else ret false.

End Settings.

(** ** [RVCr2.inference] *)

Section Inference.

Context `{CO : Components} `{CL : @Collaborators CO} `{SC : SettingsSchema}.

(** Reading a sampling rate before [setSamplingRate] set it. *)
Definition rate (o : option Z) : M Z :=
  match o with
  | Some z => ret z
  | None => raise AttributeError
  end.

(** [int((n / inputSampleRate) * 16000)], lines 222-228. *)
Definition to_16k (q : exn + float) : exn + Z :=
  match q with
  | inr x => Py.int_of_float (x * 16000)
  | inl e => inl e
  end.

Definition half_precision_warning : string :=
  "[Device Manager] Device cannot support half precision. Fallback to float....".

(** Lines 203-302. The result is [Some chunk], or [None] when the method
    ends on the bare [return]. [np.zeros(convertSize).astype(np.int16)]
    is an array of [convertSize] zeros, and its product with the scalar
    is the float array [np.scale] gives. *)
Definition inference (receivedData : list float)
    (crossfade_frame sola_search_frame : Z) : M (option (list float)) :=
  cur <- gets pipeline ;;
  match cur with
  | None =>
      emit "[Voice Changer] Pipeline is not initialized." ;;
      raise PipelineNotInitializedException
  | Some addr =>
      inRate <- (i <- gets inputSampleRate ;; rate i) ;;
      let receivedData := resample receivedData inRate 16000 in
      crossfade_frame <- lift (to_16k (Py.truediv crossfade_frame inRate)) ;;
      sola_search_frame <- lift (to_16k (Py.truediv sola_search_frame inRate)) ;;
      s <- gets settings ;;
      extra_frame <- lift (to_16k (Setting.truediv (s "extraConvertSize") inRate)) ;;
      data <- generate_input receivedData crossfade_frame sola_search_frame extra_frame ;;
      let '(audio, pitchf, feature, convertSize, vol, outSize) := data in
      silent <- lift (Setting.lt vol (s "silentThreshold")) ;;
      if (silent : bool) then
        z <- lift (np.zeros convertSize) ;;
        ret (Some (np.scale z (np.sqrt vol)))
      else
        st <- gets store ;;
        match nth_error st addr with
        | None => raise AttributeError
        | Some pipe =>
            slot <- gets slotInfo ;;
            let repeat := if Setting.truthy (s "rvcQuality") then 1 else 0 in
            let sid := s "dstId" in
            let f0_up_key := s "tran" in
            let index_rate := s "indexRatio" in
            let protect := s "protect" in
            let if_f0 := if f0 slot then 1 else 0 in
            outcome <- attempt (
              seconds <- lift (if Setting.truthy (s "silenceFront")
                               then Setting.truediv (s "extraConvertSize") inRate
                               else inr 0%float) ;;
              out <- lift (exec pipe
                {| a_sid := sid;
                   a_audio := audio;
                   a_pitchf := pitchf;
                   a_feature := feature;
                   a_f0_up_key := f0_up_key;
                   a_index_rate := index_rate;
                   a_if_f0 := if_f0;
                   a_extra_seconds := seconds;
                   a_embOutputLayer := embOutputLayer slot;
                   a_useFinalProj := useFinalProj slot;
                   a_repeat := repeat;
                   a_protect := protect;
                   a_outSize := outSize |}) ;;
              let '(audio_out, pitchf', feature') := out in
              modify (with_pitchf_buffer pitchf') ;;
              modify (with_feature_buffer (Some feature')) ;;
              let result :=
                np.scale (Py.slice audio_out (Some (- outSize)) None) (np.sqrt vol) in
              outRate <- (o <- gets outputSampleRate ;; rate o) ;;
              ret (resample result (samplingRate slot) outRate)) ;;
            match outcome with
            | inr result => ret (Some result)
            | inl DeviceCannotSupportHalfPrecisionException =>
                emit half_precision_warning ;;
                modify (with_forceTensor true) ;;
                initialize ;;
                ret None
            | inl e => raise e
            end
        end
  end.

End Inference.

(** * Properties *)

(** ** Vocabulary of the properties *)

Definition zlen {A : Type} (l : list A) : Z := Z.of_nat (length l).

(** The length of a buffer that may still be [None]. *)
Definition olen {A : Type} (o : option (list A)) : option Z := option_map zlen o.

(** One call of [generate_input]: the chunk and the three lengths. *)
Record Call : Type := {
  c_newData : list float;
  c_crossfadeSize : Z;
  c_solaSearchFrame : Z;
  c_extra_frame : Z
}.

Definition c_convertSize (c : Call) : Z :=
  convertSize_of (zlen (c_newData c)) (c_crossfadeSize c)
                 (c_solaSearchFrame c) (c_extra_frame c).

Section Vocabulary.

Context `{CO : Components} `{CL : @Collaborators CO}.

(** The audio buffer holds [la] samples and the feature buffer [lf] rows,
    as does the pitch buffer when the model uses pitch. *)
Definition holds (r : RVCr2) (la lf : Z) : Prop :=
  olen (audio_buffer r) = Some la
  /\ olen (feature_buffer r) = Some lf
  /\ (f0 (slotInfo r) = true -> olen (pitchf_buffer r) = Some lf).

(** The index alignment for a window of [convertSize] samples. *)
Definition aligned (r : RVCr2) (convertSize : Z) : Prop :=
  holds r convertSize (convertSize / 160).

(** The buffers as [__init__] leaves them, or aligned for some window. *)
Definition buffers_ok (r : RVCr2) : Prop :=
  audio_buffer r = None \/ exists k, 0 <= k /\ holds r (160 * k) k.

(** Everything but the three buffers and [prevVol] is the same in the
    two states. *)
Definition frame (r r' : RVCr2) : Prop :=
  forceTensor r' = forceTensor r
  /\ settings r' = settings r
  /\ model_dir r' = model_dir r
  /\ slotInfo r' = slotInfo r
  /\ pipeline r' = pipeline r
  /\ store r' = store r
  /\ inputSampleRate r' = inputSampleRate r
  /\ outputSampleRate r' = outputSampleRate r
  /\ log r' = log r.

(** [prevVol] is the same in the two states. *)
Definition same_prevVol (r r' : RVCr2) : Prop := prevVol r' = prevVol r.

(** The buffers, [prevVol], the rates, the model slot and the model
    directory are the same in the two states. *)
Definition same_session (r r' : RVCr2) : Prop :=
  audio_buffer r' = audio_buffer r
  /\ pitchf_buffer r' = pitchf_buffer r
  /\ feature_buffer r' = feature_buffer r
  /\ prevVol r' = prevVol r
  /\ inputSampleRate r' = inputSampleRate r
  /\ outputSampleRate r' = outputSampleRate r
  /\ slotInfo r' = slotInfo r
  /\ model_dir r' = model_dir r.

(** The precision flag of the device manager is the same. *)
Definition same_forceTensor (r r' : RVCr2) : Prop :=
  forceTensor r' = forceTensor r.

(** The handle, the store of pipeline objects and the settings are the
    same. *)
Definition same_handle (r r' : RVCr2) : Prop :=
  pipeline r' = pipeline r /\ store r' = store r /\ settings r' = settings r.

(** The index file at [path] is missing, or is not a regular file. *)
Definition index_missing (path : string) : bool :=
  negb (path_exists path) || negb (path_isfile path).

(** The handle [createPipeline] builds once the inferencer and the
    embedder are loaded. *)
Definition assembled (r : RVCr2) (slot : RVCModelSlot) (gpu f0Detector : pyval)
    (inferencer : Inferencer) (emb : Embedder) : Pipeline :=
  let indexPath := model_path (model_dir r) (slotIndex slot) (indexFile slot) in
  {| p_embedder := emb;
     p_inferencer := inferencer;
     p_pitchExtractor := getPitchExtractor f0Detector gpu;
     p_index := if index_missing indexPath then None
                else match read_index indexPath with
                     | inr index => Some index
                     | inl _ => None
                     end;
     p_targetSR := samplingRate slot;
     p_device := getDevice (forceTensor r) gpu;
     p_isHalf := halfPrecisionAvailable (forceTensor r) gpu |}.

(** The settings after a successful [initialize]: the three slot
    defaults are written over the current values. *)
Definition reset_to_defaults (s : string -> pyval) (slot : RVCModelSlot) : string -> pyval :=
  setattr (setattr (setattr s "tran" (defaultTune slot))
                   "indexRatio" (defaultIndexRatio slot))
          "protect" (defaultProtect slot).

(** What [generate_input] hands back. *)
Definition InputData : Type :=
  (list float * option (list float) * list (list float) * Z * float * Z)%type.

(** [inference] got as far as the silence gate: there is a handle at
    [addr], the input rate is [inRate], the three lengths convert to
    16 kHz units, and [generate_input] returned [data], leaving the
    state [r1]. *)
Definition at_gate (r : RVCr2) (receivedData : list float)
    (crossfade_frame sola_search_frame : Z) (addr : nat) (inRate : Z)
    (data : InputData) (r1 : RVCr2) : Prop :=
  pipeline r = Some addr
  /\ inputSampleRate r = Some inRate
  /\ exists cf16 sola16 extra16,
       to_16k (Py.truediv crossfade_frame inRate) = inr cf16
       /\ to_16k (Py.truediv sola_search_frame inRate) = inr sola16
       /\ to_16k (Setting.truediv (settings r "extraConvertSize") inRate) = inr extra16
       /\ generate_input (resample receivedData inRate 16000) cf16 sola16 extra16 r
          = (inr data, r1).

(** The extra-context duration passed to [exec]. *)
Definition extra_seconds (r : RVCr2) (inRate : Z) : exn + float :=
  if Setting.truthy (settings r "silenceFront")
  then Setting.truediv (settings r "extraConvertSize") inRate
  else inr 0%float.

(** The arguments [inference] calls [exec] with. *)
Definition exec_args (r : RVCr2) (data : InputData) (seconds : float) : ExecArgs :=
  let '(audio, pitchf, feature, convertSize, vol, outSize) := data in
  {| a_sid := settings r "dstId";
     a_audio := audio;
     a_pitchf := pitchf;
     a_feature := feature;
     a_f0_up_key := settings r "tran";
     a_index_rate := settings r "indexRatio";
     a_if_f0 := if f0 (slotInfo r) then 1 else 0;
     a_extra_seconds := seconds;
     a_embOutputLayer := embOutputLayer (slotInfo r);
     a_useFinalProj := useFinalProj (slotInfo r);
     a_repeat := if Setting.truthy (settings r "rvcQuality") then 1 else 0;
     a_protect := settings r "protect";
     a_outSize := outSize |}.

(** The components of [data]. *)
Definition data_audio (data : InputData) : list float :=
  let '(audio, _, _, _, _, _) := data in audio.

Definition data_pitchf (data : InputData) : option (list float) :=
  let '(_, pitchf, _, _, _, _) := data in pitchf.

Definition data_feature (data : InputData) : list (list float) :=
  let '(_, _, feature, _, _, _) := data in feature.

Definition data_vol (data : InputData) : float :=
  let '(_, _, _, _, vol, _) := data in vol.

Definition data_convertSize (data : InputData) : Z :=
  let '(_, _, _, convertSize, _, _) := data in convertSize.

Definition data_outSize (data : InputData) : Z :=
  let '(_, _, _, _, _, outSize) := data in outSize.

(** The state once the call is logged. *)
Definition logged (key : string) (val : pyval) (r : RVCr2) : RVCr2 :=
  with_log (log r ++ [("[Voice Changer][RVC]: update_settings " ++ key ++ ":"
                        ++ py_str val)%string]) r.

(** The log has only grown. *)
Definition log_grows (r r' : RVCr2) : Prop :=
  exists lines, log r' = log r ++ lines.

(** Every run of [m], returning or raising, relates the state before to
    the state after by [R]. *)
Definition preserves {A : Type} (R : RVCr2 -> RVCr2 -> Prop) (m : M A) : Prop :=
  forall r x r', m r = (x, r') -> R r r'.

(** The window the specification gives the energy gate: the last
    [chunkLen + crossfadeLen] samples of the audio window. *)
Definition spec_window (audio : list float) (inputSize crossfadeSize : Z) : list float :=
  Py.slice audio (Some (- (inputSize + crossfadeSize))) None.

(** The window the source cuts when the crossfade is not empty: the
    [inputSize] samples that end [crossfadeSize] samples before the end. *)
Definition lagging_window (audio : list float) (inputSize crossfadeSize : Z) : list float :=
  firstn (Z.to_nat inputSize)
         (skipn (Z.to_nat (zlen audio - (inputSize + crossfadeSize))) audio).

(** [np.sqrt(np.square(w).mean())]. *)
Definition rms (w : list float) : float := np.sqrt (np.mean (np.square w)).

(** The formula the specification gives for [outSize]:
    [round((convertSize - extraContextLen) / 16000 * modelOutputSampleRate)]. *)
Definition spec_outSize (convertSize extra_frame rate : Z) : exn + Z :=
  match Py.truediv (convertSize - extra_frame) 16000 with
  | inr q => Py.round_half_even (q * Py.float_of_Z rate)
  | inl e => inl e
  end.

(** The lengths are not negative and the float product of [outSize] is
    finite, so that [int] converts it. *)
Definition call_ok (slot : RVCModelSlot) (c : Call) : Prop :=
  0 <= c_crossfadeSize c /\ 0 <= c_solaSearchFrame c /\ 0 <= c_extra_frame c
  /\ exists o, outSize_of (c_convertSize c) (c_extra_frame c) (samplingRate slot) = inr o.

(** [generate_input] on each call in turn. *)
Fixpoint feed (calls : list Call) : M unit :=
  match calls with
  | [] => ret tt
  | c :: rest =>
      generate_input (c_newData c) (c_crossfadeSize c)
                     (c_solaSearchFrame c) (c_extra_frame c) ;;
      feed rest
  end.

End Vocabulary.

(** ** A concrete environment, for the examples

    Every collaborator is a small total function. The switches say
    whether the inferencer and the embedder load, whether the index file
    is there and readable, and what [Pipeline.exec] answers. Resampling
    is the identity, as it is between equal rates. *)

Module Sample.

#[export] Instance components : Components := {|
  Device := string;
  Inferencer := string;
  Embedder := string;
  PitchExtractor := pyval;
  FaissIndex := string
|}.

Definition ExecResult : Type :=
  exn + (list float * option (list float) * list (list float)).

Definition collaborators
    (inferencer_loads embedder_loads index_exists index_reads : bool)
    (exec_result : ExecResult) : Collaborators := {|
  getDevice force gpu := if force then "cpu" else "cuda";
  halfPrecisionAvailable force gpu := negb force;
  getInferencer type path gpu ver :=
    if inferencer_loads then inr path else inl (OtherException "RuntimeError");
  getEmbedder name half dev :=
    if embedder_loads then inr name else inl (OtherException "RuntimeError");
  getPitchExtractor f0Detector gpu := f0Detector;
  model_path dir index file := (dir ++ "/" ++ file)%string;
  path_exists path := index_exists;
  path_isfile path := index_exists;
  read_index path :=
    if index_reads then inr path else inl (OtherException "RuntimeError");
  resample data from to := data;
  exec pipe args := exec_result;
  int_of_string s :=
    match NilEmpty.int_of_string s with
    | Some i => inr (Z.of_int i)
    | None => inl ValueError
    end;
  float_of_string s :=
    match NilEmpty.int_of_string s with
    | Some i => inr (Py.float_of_Z (Z.of_int i))
    | None => inl ValueError
    end;
  string_of_int z := NilEmpty.string_of_int (Z.to_int z);
  string_of_float f := "float";
  str_of_exception e :=
    match e with
    | PipelineCreateException msg => msg
    | OtherException name => name
    | _ => ""
    end;
  str_of_device dev := dev
|}.

(** Modelled from the spec: the recognized keys of section 6, under the
    attribute names [RVCr2] reads them by. *)
#[export] Instance schema : SettingsSchema := {|
  intData := ["gpu"; "tran"; "rvcQuality"];
  floatData := ["indexRatio"; "protect"; "silentThreshold"; "extraConvertSize"];
  strData := ["f0Detector"]
|}.

(** A model with pitch and 4 embedding channels, at the given rate. *)
Definition slot_at (rate : Z) : RVCModelSlot := {|
  slotIndex := 0;
  modelFile := "model.pth";
  indexFile := "model.index";
  modelType := "pyTorchRVCv2";
  version := "v2";
  embedder := "hubert_base";
  f0 := true;
  embChannels := 4;
  samplingRate := rate;
  embOutputLayer := 12;
  useFinalProj := false;
  defaultTune := PInt 0;
  defaultIndexRatio := PFloat 0;
  defaultProtect := PFloat 0.5
|}.

Definition slot : RVCModelSlot := slot_at 16000.

Definition settings0 (extraConvertSize : Z) : string -> pyval :=
  fun key =>
    if String.eqb key "gpu" then PInt 0
    else if String.eqb key "dstId" then PInt 0
    else if String.eqb key "f0Detector" then PStr "rmvpe"
    else if String.eqb key "tran" then PInt 12
    else if String.eqb key "silentThreshold" then PFloat 0.0078125
    else if String.eqb key "extraConvertSize" then PInt extraConvertSize
    else if String.eqb key "indexRatio" then PFloat 0
    else if String.eqb key "protect" then PFloat 0.5
    else if String.eqb key "rvcQuality" then PInt 0
    else if String.eqb key "silenceFront" then PInt 1
    else PInt 0.

(** The instance as [__init__] leaves it, for the model slot [sl]. *)
Definition created (sl : RVCModelSlot) (extraConvertSize : Z) : RVCr2 := {|
  forceTensor := false;
  settings := settings0 extraConvertSize;
  model_dir := "model_dir";
  slotInfo := sl;
  pipeline := None;
  store := [];
  audio_buffer := None;
  pitchf_buffer := None;
  feature_buffer := None;
  prevVol := 0;
  inputSampleRate := None;
  outputSampleRate := None;
  log := []
|}.

(** A handle assembled at half precision, and the instance that holds
    it at address 0 with both rates set to 16 kHz. *)
Definition handle : Pipeline := {|
  p_embedder := "hubert_base";
  p_inferencer := "model_dir/model.pth";
  p_pitchExtractor := PStr "rmvpe";
  p_index := None;
  p_targetSR := 16000;
  p_device := "cuda";
  p_isHalf := true
|}.

Definition ready (sl : RVCModelSlot) (extraConvertSize : Z) : RVCr2 :=
  with_rates (Some 16000) (Some 16000)
    (with_pipeline (Some 0%nat) [handle] (created sl extraConvertSize)).

Definition silence (n : nat) : list float := repeat 0%float n.

(** [n] samples at half of full scale. *)
Definition loud (n : nat) : list float := repeat 16384%float n.

(** The outcome of [generate_input] on [chunk] with a crossfade of 160
    samples, from the [ready] instance. *)
Definition gate_run (chunk : list float) (extraConvertSize : Z)
  : (exn + InputData) * RVCr2 :=
  generate_input chunk 160 0 extraConvertSize (ready slot extraConvertSize).

Definition gate_data (chunk : list float) (extraConvertSize : Z) : InputData :=
  match fst (gate_run chunk extraConvertSize) with
  | inr data => data
  | inl _ => ([], None, [], 0, 0%float, 0)
  end.

Definition call (chunk : list float) (cf sola extra : Z) : Call :=
  {| c_newData := chunk; c_crossfadeSize := cf;
     c_solaSearchFrame := sola; c_extra_frame := extra |}.

End Sample.

(** ** The other methods of [RVCr2] *)

(** Modelled from the spec: the model slot's [isONNX] attribute and the
    exporter [RVC/onnxExporter/export2onnx.py] are not among the sources.
    [isONNX slot] is the attribute read on the slot, and [export2onnx_file]
    is the call [export2onnx(gpu, modelSlot)], which returns the name of
    the file it wrote. *)
Class Exporter : Type := {
  isONNX : RVCModelSlot -> bool;
  export2onnx_file : pyval -> RVCModelSlot -> string
}.

Section OtherMethods.

Context `{CO : Components} `{CL : @Collaborators CO} `{EX : Exporter}.

(** Lines 37-53: the instance [__init__] builds. [defaults] is the
    [RVCSettings()] object; the precision flag and the log are those of
    the process. *)
Definition __init__ (force : bool) (lines : list string) (defaults : string -> pyval)
    (dir : string) (slot : RVCModelSlot) : RVCr2 :=
  {| forceTensor := force;
     settings := defaults;
     model_dir := dir;
     slotInfo := slot;
     pipeline := None;
     store := [];
     audio_buffer := None;
     pitchf_buffer := None;
     feature_buffer := None;
     prevVol := 0;
     inputSampleRate := None;
     outputSampleRate := None;
     log := lines ++ ["[Voice Changer] [RVCr2] Creating instance "] |}.

(** Lines 113-114. *)
Definition get_processing_sampling_rate : M Z :=
  slot <- gets slotInfo ;;
  ret (samplingRate slot).

(** Lines 345-359: a list of three [{"key": ..., "val": ...}] entries. *)
Definition get_model_current : M (list (string * pyval)) :=
  s <- gets settings ;;
  ret [("defaultTune", s "tran");
       ("defaultIndexRatio", s "indexRatio");
       ("defaultProtect", s "protect")].

Definition no_pytorch_file : string := "[Voice Changer] export2onnx, No pyTorch filepath.".

(** Lines 323-343. The result is the dictionary, as its items in order.
    [del self.pipeline] followed by [self.pipeline = None] leaves the
    instance without a handle before [initialize] runs. *)
Definition export2onnx : M (list (string * string)) :=
  modelSlot <- gets slotInfo ;;
  if isONNX modelSlot then
    emit no_pytorch_file ;;
    ret [("status", "ng"); ("path", "")]
  else
    cur <- gets pipeline ;;
    (match cur with
     | Some _ => modify (fun r => with_pipeline None (store r) r)
     | None => ret tt
     end) ;;
    initialize ;;
    s <- gets settings ;;
    let output_file_simple := export2onnx_file (s "gpu") modelSlot in
    ret [("status", "ok");
         ("path", ("/tmp/" ++ output_file_simple)%string);
         ("filename", output_file_simple)].

End OtherMethods.

(** ** More vocabulary *)

(** The last [n] elements of a list, all of them when there are fewer. *)
Definition lastn {A : Type} (n : Z) (l : list A) : list A :=
  skipn (Z.to_nat (zlen l - n)) l.

(** A sample as [generate_input] stores it: cast to float32 and divided by
    32768. *)
Definition normalized (newData : list float) : list float :=
  map (fun x => (np.float32 x / 32768)%float) newData.

(** The buffer a state holds, empty while it is still [None]. *)
Definition held {A : Type} (o : option (list A)) : list A :=
  match o with
  | Some l => l
  | None => []
  end.

(** [n] zero samples and [n] rows of [c] zeros. *)
Definition zero_samples (n : Z) : list float := repeat 0%float (Z.to_nat n).

Definition zero_rows (n c : Z) : list (list float) :=
  repeat (repeat 0%float (Z.to_nat c)) (Z.to_nat n).

Definition not_initialized : string := "[Voice Changer] Pipeline is not initialized.".

(** Everything but the log is the same in the two states. *)
Definition same_but_log `{CO : Components} (r r' : RVCr2) : Prop :=
  same_handle r r' /\ same_session r r' /\ same_forceTensor r r'.

(** ** More of the concrete environment *)

Module SampleMore.

(** An exporter that writes ["model.onnx"]; [onnx] says whether the slot
    already holds an ONNX model. *)
Definition exporter (onnx : bool) : Exporter := {|
  isONNX slot := onnx;
  export2onnx_file gpu slot := "model.onnx"
|}.

(** The environment in which everything loads and [exec] is not reached,
    and the one in which the inferencer does not load. *)
Definition loads : Collaborators :=
  Sample.collaborators true true true true (inl ValueError).

Definition fails : Collaborators :=
  Sample.collaborators false true true true (inl ValueError).

End SampleMore.

(** A contract for the external pipeline: the feature tail [exec] returns
    has as many rows as the feature window it was given, and so has the
    pitch tail when pitch conditioning is on. *)
Definition exec_keeps_lengths `{CO : Components} `{CL : @Collaborators CO} : Prop :=
  forall pipe args audio_out pitchf' feature',
    exec pipe args = inr (audio_out, pitchf', feature') ->
    zlen feature' = zlen (a_feature args)
    /\ (a_if_f0 args = 1 ->
        exists p, pitchf' = Some p /\ zlen p = zlen (a_feature args)).

(** Whenever the three lengths of an [inference] call convert to 16 kHz
    units, they are not negative and the float product of [outSize] is
    finite. *)
Definition lengths_ok `{CO : Components} `{CL : @Collaborators CO}
    (r : RVCr2) (receivedData : list float) (cf sola : Z) : Prop :=
  forall inRate cf16 sola16 extra16,
    inputSampleRate r = Some inRate ->
    to_16k (Py.truediv cf inRate) = inr cf16 ->
    to_16k (Py.truediv sola inRate) = inr sola16 ->
    to_16k (Setting.truediv (settings r "extraConvertSize") inRate) = inr extra16 ->
    call_ok (slotInfo r)
      {| c_newData := resample receivedData inRate 16000;
         c_crossfadeSize := cf16;
         c_solaSearchFrame := sola16;
         c_extra_frame := extra16 |}.

Module SampleEcho.

(** An external pipeline that hands back the windows it is given: the
    audio as converted audio, the feature window as the feature tail and,
    when pitch conditioning is on, one zero per feature row as the pitch
    tail. Everything else is as in [SampleMore.loads]. *)
Definition echo : Collaborators := {|
  getDevice := @getDevice _ SampleMore.loads;
  halfPrecisionAvailable := @halfPrecisionAvailable _ SampleMore.loads;
  getInferencer := @getInferencer _ SampleMore.loads;
  getEmbedder := @getEmbedder _ SampleMore.loads;
  getPitchExtractor := @getPitchExtractor _ SampleMore.loads;
  model_path := @model_path _ SampleMore.loads;
  path_exists := @path_exists _ SampleMore.loads;
  path_isfile := @path_isfile _ SampleMore.loads;
  read_index := @read_index _ SampleMore.loads;
  resample := @resample _ SampleMore.loads;
  exec pipe args :=
    inr (a_audio args,
         (if a_if_f0 args =? 1
          then Some (map (fun _ => 0%float) (a_feature args))
          else a_pitchf args),
         a_feature args);
  int_of_string := @int_of_string _ SampleMore.loads;
  float_of_string := @float_of_string _ SampleMore.loads;
  string_of_int := @string_of_int _ SampleMore.loads;
  string_of_float := @string_of_float _ SampleMore.loads;
  str_of_exception := @str_of_exception _ SampleMore.loads;
  str_of_device := @str_of_device _ SampleMore.loads
|}.

End SampleEcho.

(** * The process-wide logger of [src/mods/log_control.py]

    The [logging] module is a record of the loggers it knows by name, the
    handlers of the root logger and the files its handlers have opened.
    A logger that was never asked for is in its initial state, so
    [logging.getLogger] is a lookup. [addFilter] and [addHandler] append:
    the object they are given is always a new one here, so that it is never
    in the list already. *)

Module log_control.

Definition NOTSET : Z := 0.
Definition DEBUG : Z := 10.
Definition INFO : Z := 20.
Definition WARNING : Z := 30.

Inductive Filter : Type := UvicornSuppressFilter.

(** Lines 4-6. *)
Definition filter (f : Filter) (record : string) : bool :=
  match f with UvicornSuppressFilter => false end.

(** [FileHandler(filename, mode, encoding)] with the mode ["a"] as the
    default, [StreamHandler()] on the standard error stream, and the
    [NullHandler] of lines 9-11. *)
Inductive Target : Type :=
| Null
| File (filename mode encoding : string)
| Stream.

Record Handler : Type := {
  target : Target;
  formatter : option string;
  h_level : Z
}.

Definition new_Handler (t : Target) : Handler :=
  {| target := t; formatter := None; h_level := NOTSET |}.

Definition setFormatter (fmt : string) (h : Handler) : Handler :=
  {| target := target h; formatter := Some fmt; h_level := h_level h |}.

Definition setLevel (lv : Z) (h : Handler) : Handler :=
  {| target := target h; formatter := formatter h; h_level := lv |}.

Record Logger : Type := {
  filters : list Filter;
  propagate : bool;
  level : Z;
  handlers : list Handler
}.

Definition addFilter (f : Filter) (l : Logger) : Logger :=
  {| filters := filters l ++ [f]; propagate := propagate l;
     level := level l; handlers := handlers l |}.

Definition set_propagate (b : bool) (l : Logger) : Logger :=
  {| filters := filters l; propagate := b;
     level := level l; handlers := handlers l |}.

Definition set_level (lv : Z) (l : Logger) : Logger :=
  {| filters := filters l; propagate := propagate l;
     level := lv; handlers := handlers l |}.

Definition addHandler (h : Handler) (l : Logger) : Logger :=
  {| filters := filters l; propagate := propagate l;
     level := level l; handlers := handlers l ++ [h] |}.

Record Logging : Type := {
  root_handlers : list Handler;
  loggers : string -> Logger;
  opened : list (string * string)
}.

(** The object [VoiceChangaerLogger]: [self.logger] is a reference to a
    logger of the module, held by its name. *)
Record VoiceChangaerLogger : Type := { logger : string }.

(** The module [logging] and the class attribute [_instance]. *)
Record World : Type := {
  logging : Logging;
  _instance : option VoiceChangaerLogger
}.

Definition on_logger (name : string) (f : Logger -> Logger) (w : World) : World :=
  {| logging :=
       {| root_handlers := root_handlers (logging w);
          loggers := fun n => if String.eqb n name
                              then f (loggers (logging w) n)
                              else loggers (logging w) n;
          opened := opened (logging w) |};
     _instance := _instance w |}.

Definition set_root_handlers (hs : list Handler) (w : World) : World :=
  {| logging :=
       {| root_handlers := hs;
          loggers := loggers (logging w);
          opened := opened (logging w) |};
     _instance := _instance w |}.

(** A [FileHandler] opens its file when it is made. *)
Definition open_file (filename mode : string) (w : World) : World :=
  {| logging :=
       {| root_handlers := root_handlers (logging w);
          loggers := loggers (logging w);
          opened := opened (logging w) ++ [(filename, mode)] |};
     _instance := _instance w |}.

Definition set_instance (i : VoiceChangaerLogger) (w : World) : World :=
  {| logging := logging w; _instance := Some i |}.

(** Lines 23-58. *)
Definition __init__ (w : World) : VoiceChangaerLogger * World :=
  let w := set_root_handlers [new_Handler Null] w in
  let w := on_logger "fairseq.tasks.hubert_pretraining" (addFilter UvicornSuppressFilter) w in
  let w := on_logger "fairseq.models.hubert.hubert" (addFilter UvicornSuppressFilter) w in
  let w := on_logger "fairseq.tasks.text_to_speech" (addFilter UvicornSuppressFilter) w in
  let w := on_logger "numba.core.ssa" (addFilter UvicornSuppressFilter) w in
  let w := on_logger "numba.core.interpreter" (addFilter UvicornSuppressFilter) w in
  let w := on_logger "numba.core.byteflow" (addFilter UvicornSuppressFilter) w in
  let w := on_logger "multipart.multipart" (set_propagate false) w in
  let w := on_logger "asyncio" (set_level WARNING) w in
  let w := on_logger "vcclient" (set_level DEBUG) w in
  ({| logger := "vcclient" |}, w).

(** Lines 17-21. *)
Definition get_instance (w : World) : VoiceChangaerLogger * World :=
  match _instance w with
  | None =>
      let (i, w) := __init__ w in
      (i, set_instance i w)
  | Some i => (i, w)
  end.

Definition file_format : string :=
  "%(asctime)s - %(name)s - %(levelname)s - %(process)d - %(message)s".

(** Lines 60-75. An empty list is the only one that is not true. *)
Definition initialize (self : VoiceChangaerLogger) (initialize : bool) (w : World)
  : World :=
  match handlers (loggers (logging w) (logger self)) with
  | [] =>
      let mode := if initialize then "w" else "a" in
      let w := open_file "vcclient.log" mode w in
      let file_handler := new_Handler (File "vcclient.log" mode "utf-8") in
      let file_handler := setFormatter file_format file_handler in
      let file_handler := setLevel DEBUG file_handler in
      let w := on_logger (logger self) (addHandler file_handler) w in
      let stream_handler := new_Handler Stream in
      let stream_handler := setFormatter "%(message)s" stream_handler in
      let stream_handler := setLevel INFO stream_handler in
      on_logger (logger self) (addHandler stream_handler) w
  | _ :: _ => w
  end.

(** Lines 77-78. *)
Definition getLogger (self : VoiceChangaerLogger) : string := logger self.

(** What the modules of the program do with the logger, one after the
    other: [VoiceChangaerLogger.get_instance().initialize(flag)]. *)
Definition start (flag : bool) (w : World) : World :=
  let (self, w) := get_instance w in initialize self flag w.

Fixpoint starts (flags : list bool) (w : World) : World :=
  match flags with
  | [] => w
  | flag :: rest => starts rest (start flag w)
  end.

(** [n] calls of [get_instance] one after the other, and [n] calls of the
    constructor. *)
Fixpoint get_instances (n : nat) (w : World) : World :=
  match n with
  | O => w
  | S n => get_instances n (snd (get_instance w))
  end.

Fixpoint constructions (n : nat) (w : World) : World :=
  match n with
  | O => w
  | S n => constructions n (snd (__init__ w))
  end.

(** The two handlers [initialize] makes. *)
Definition file_handler (flag : bool) : Handler :=
  {| target := File "vcclient.log" (if flag then "w" else "a") "utf-8";
     formatter := Some file_format;
     h_level := DEBUG |}.

Definition stream_handler : Handler :=
  {| target := Stream; formatter := Some "%(message)s"; h_level := INFO |}.

Definition vcclient (w : World) : Logger := loggers (logging w) "vcclient".

(** The loggers the constructor gives a suppressing filter. *)
Definition silenced : list string :=
  ["fairseq.tasks.hubert_pretraining"; "fairseq.models.hubert.hubert";
   "fairseq.tasks.text_to_speech"; "numba.core.ssa"; "numba.core.interpreter";
   "numba.core.byteflow"].

(** The instance the class holds, if any, is one its constructor made. *)
Definition well_formed (w : World) : Prop :=
  forall i, _instance w = Some i -> logger i = "vcclient".

(** The interpreter at start: no logger was asked for, no instance made. *)
Definition fresh : World :=
  {| logging :=
       {| root_handlers := [];
          loggers := fun _ => {| filters := []; propagate := true;
                                 level := NOTSET; handlers := [] |};
          opened := [] |};
     _instance := None |}.

End log_control.

(** * The sample downloader of [src/downloader/SampleDownloader.py]

    The functions of this file act on the outside through the file
    system, the downloader, the slot manager and the logger. The calls
    that write are recorded, in order, in a record [World]; the calls that
    read ([os.path.exists], [open] and [json.load], [get_slot_info], the
    slot generators) are given by the environment as functions of what was
    written so far. No call of the file is inside a [try]. Reading a list
    of samples raises when the file is missing or is not JSON, and the
    exception goes to the caller; a list that [download_no_tqdm] has saved
    is taken to be readable. The other external calls are taken to return.
    The file's own indexing, [slotIndex[i]] and
    [targetSampleParams["useIndex"]], raises as Python's does. *)

Module ModelSample.

(** The attributes of a sample this file reads. [indexUrl] and [icon] are
    [None] on an object that has no such attribute. *)
Record ModelSamples : Type := {
  id : string;
  voiceChangerType : string;
  modelUrl : string;
  indexUrl : option string;
  icon : option string;
  credit : string;
  description : string;
  name : string;
  termsOfUseUrl : string
}.

End ModelSample.

Module ModelSlot.

(** The attributes of a model slot this file reads or sets. *)
Record ModelSlot : Type := {
  slotIndex : Z;
  voiceChangerType : string;
  modelFile : string;
  indexFile : string;
  iconFile : string;
  sampleId : string;
  credit : string;
  description : string;
  name : string;
  termsOfUseUrl : string;
  defaultTune : pyval;
  defaultIndexRatio : pyval;
  defaultProtect : pyval;
  defaultKstep : pyval;
  defaultSpeedup : pyval;
  kStepMax : pyval;
  isONNX : bool
}.

Definition set_modelFile (v : string) (s : ModelSlot) : ModelSlot :=
  {| slotIndex := slotIndex s; voiceChangerType := voiceChangerType s;
     modelFile := v; indexFile := indexFile s; iconFile := iconFile s;
     sampleId := sampleId s; credit := credit s; description := description s;
     name := name s; termsOfUseUrl := termsOfUseUrl s;
     defaultTune := defaultTune s; defaultIndexRatio := defaultIndexRatio s;
     defaultProtect := defaultProtect s; defaultKstep := defaultKstep s;
     defaultSpeedup := defaultSpeedup s; kStepMax := kStepMax s;
     isONNX := isONNX s |}.

Definition set_indexFile (v : string) (s : ModelSlot) : ModelSlot :=
  {| slotIndex := slotIndex s; voiceChangerType := voiceChangerType s;
     modelFile := modelFile s; indexFile := v; iconFile := iconFile s;
     sampleId := sampleId s; credit := credit s; description := description s;
     name := name s; termsOfUseUrl := termsOfUseUrl s;
     defaultTune := defaultTune s; defaultIndexRatio := defaultIndexRatio s;
     defaultProtect := defaultProtect s; defaultKstep := defaultKstep s;
     defaultSpeedup := defaultSpeedup s; kStepMax := kStepMax s;
     isONNX := isONNX s |}.

Definition set_iconFile (v : string) (s : ModelSlot) : ModelSlot :=
  {| slotIndex := slotIndex s; voiceChangerType := voiceChangerType s;
     modelFile := modelFile s; indexFile := indexFile s; iconFile := v;
     sampleId := sampleId s; credit := credit s; description := description s;
     name := name s; termsOfUseUrl := termsOfUseUrl s;
     defaultTune := defaultTune s; defaultIndexRatio := defaultIndexRatio s;
     defaultProtect := defaultProtect s; defaultKstep := defaultKstep s;
     defaultSpeedup := defaultSpeedup s; kStepMax := kStepMax s;
     isONNX := isONNX s |}.

(** Lines 145-149 and 190-194: the five attributes copied from the
    sample. *)
Definition set_sample (sample : ModelSample.ModelSamples) (s : ModelSlot) : ModelSlot :=
  {| slotIndex := slotIndex s; voiceChangerType := voiceChangerType s;
     modelFile := modelFile s; indexFile := indexFile s; iconFile := iconFile s;
     sampleId := ModelSample.id sample;
     credit := ModelSample.credit sample;
     description := ModelSample.description sample;
     name := ModelSample.name sample;
     termsOfUseUrl := ModelSample.termsOfUseUrl sample;
     defaultTune := defaultTune s; defaultIndexRatio := defaultIndexRatio s;
     defaultProtect := defaultProtect s; defaultKstep := defaultKstep s;
     defaultSpeedup := defaultSpeedup s; kStepMax := kStepMax s;
     isONNX := isONNX s |}.

(** Lines 150-152. *)
Definition set_rvc_defaults (s : ModelSlot) : ModelSlot :=
  {| slotIndex := slotIndex s; voiceChangerType := voiceChangerType s;
     modelFile := modelFile s; indexFile := indexFile s; iconFile := iconFile s;
     sampleId := sampleId s; credit := credit s; description := description s;
     name := name s; termsOfUseUrl := termsOfUseUrl s;
     defaultTune := PInt 0; defaultIndexRatio := PInt 0;
     defaultProtect := PFloat 0.5; defaultKstep := defaultKstep s;
     defaultSpeedup := defaultSpeedup s; kStepMax := kStepMax s;
     isONNX := isONNX s |}.

(** Lines 195-198. *)
Definition set_diffusion_defaults (s : ModelSlot) : ModelSlot :=
  {| slotIndex := slotIndex s; voiceChangerType := voiceChangerType s;
     modelFile := modelFile s; indexFile := indexFile s; iconFile := iconFile s;
     sampleId := sampleId s; credit := credit s; description := description s;
     name := name s; termsOfUseUrl := termsOfUseUrl s;
     defaultTune := PInt 0; defaultIndexRatio := defaultIndexRatio s;
     defaultProtect := defaultProtect s; defaultKstep := PInt 0;
     defaultSpeedup := PInt 0; kStepMax := PInt 0;
     isONNX := isONNX s |}.

Definition set_isONNX (v : bool) (s : ModelSlot) : ModelSlot :=
  {| slotIndex := slotIndex s; voiceChangerType := voiceChangerType s;
     modelFile := modelFile s; indexFile := indexFile s; iconFile := iconFile s;
     sampleId := sampleId s; credit := credit s; description := description s;
     name := name s; termsOfUseUrl := termsOfUseUrl s;
     defaultTune := defaultTune s; defaultIndexRatio := defaultIndexRatio s;
     defaultProtect := defaultProtect s; defaultKstep := defaultKstep s;
     defaultSpeedup := defaultSpeedup s; kStepMax := kStepMax s;
     isONNX := v |}.

End ModelSlot.

Module SampleDownloader.

Import ModelSample.

(** The dictionary given to [download] and [download_no_tqdm]. *)
Record DownloadParam : Type := {
  url : string;
  saveTo : string;
  position : Z
}.

(** A value of the parameters of a sample: [True], [False], or anything
    else. *)
Inductive ParamValue : Type :=
| PTrue
| PFalse
| POther (v : pyval).

Definition Params : Type := list (string * ParamValue).

(** What was written so far: the downloads, each with [true] when it went
    through [download_no_tqdm]; the directories made; the slots saved;
    the lines logged, each with its level. *)
Record World : Type := {
  downloaded : list (bool * DownloadParam);
  made : list string;
  saved : list (Z * ModelSlot.ModelSlot);
  logged : list (string * string)
}.

Class Env : Type := {
  SampleParams : Type;
  basename : string -> string;
  join : list string -> string;
  platform : string;
  getSampleJsonAndModelIds : string -> list string * list (string * Params);
  generateModelSample : SampleParams -> ModelSamples;
  json_load : World -> string -> exn + list (string * list SampleParams);
  json_load_saved :
    forall (w : World) (sampleJsonUrl : string),
      In (true, {| url := sampleJsonUrl;
                   saveTo := basename sampleJsonUrl;
                   position := 0 |}) (downloaded w) ->
      exists jsonDict, json_load w (basename sampleJsonUrl) = inr jsonDict;
  exists_ : World -> string -> bool;
  new_ModelSlot : ModelSlot.ModelSlot;
  new_RVCModelSlot : ModelSlot.ModelSlot;
  new_DiffusionSVCModelSlot : ModelSlot.ModelSlot;
  get_slot_info : World -> string -> Z -> ModelSlot.ModelSlot;
  _setInfoByONNX : World -> string -> ModelSlot.ModelSlot -> ModelSlot.ModelSlot;
  _setInfoByPytorch : World -> string -> ModelSlot.ModelSlot -> ModelSlot.ModelSlot
}.

(** [str(i)] on an integer. *)
Definition str (i : Z) : string := NilEmpty.string_of_int (Z.to_int i).

(** [s.endswith(suffix)]. *)
Definition endswith (s suffix : string) : bool :=
  let n := String.length s in
  let m := String.length suffix in
  (m <=? n)%nat && String.eqb (substring (n - m) m s) suffix.

(** [params[key]]: the first entry under the key, [KeyError] without one. *)
Definition getitem (params : Params) (key : string) : exn + ParamValue :=
  match find (fun kv => String.eqb (fst kv) key) params with
  | Some kv => inr (snd kv)
  | None => inl (OtherException "KeyError")
  end.

(** [v is True]. *)
Definition is_True (v : ParamValue) : bool :=
  match v with PTrue => true | _ => false end.

(** [hasattr(sample, a) and sample.a != ""]. *)
Definition present (a : option string) : bool :=
  match a with
  | Some s => negb (String.eqb s "")
  | None => false
  end.

(** The attribute where [present] holds. *)
Definition attr (a : option string) : string :=
  match a with Some s => s | None => "" end.

Definition D (A : Type) : Type := World -> (exn + A) * World.

Definition ret {A : Type} (a : A) : D A := fun w => (inr a, w).

Definition bind {A B : Type} (m : D A) (k : A -> D B) : D B :=
  fun w => match m w with
           | (inr a, w') => k a w'
           | (inl e, w') => (inl e, w')
           end.

Definition lift {A : Type} (x : exn + A) : D A := fun w => (x, w).

Definition ask {A : Type} (f : World -> A) : D A := fun w => (inr (f w), w).

(** A read of the outside that may raise. *)
Definition read {A : Type} (f : World -> exn + A) : D A := fun w => (f w, w).

Definition log_line (level line : string) : D unit :=
  fun w => (inr tt,
            {| downloaded := downloaded w; made := made w; saved := saved w;
               logged := logged w ++ [(level, line)] |}).

Definition makedirs (dir : string) : D unit :=
  fun w => (inr tt,
            {| downloaded := downloaded w; made := made w ++ [dir];
               saved := saved w; logged := logged w |}).

Definition save_model_slot (i : Z) (s : ModelSlot.ModelSlot) : D unit :=
  fun w => (inr tt,
            {| downloaded := downloaded w; made := made w;
               saved := saved w ++ [(i, s)]; logged := logged w |}).

(** [download] and [download_no_tqdm] on each parameter of a list. Through
    the thread pool the results of [pool.map] are never read, so that a
    download that fails raises nothing here. *)
Definition downloads (withoutTqdm : bool) (params : list DownloadParam) : D unit :=
  fun w => (inr tt,
            {| downloaded := downloaded w ++ map (pair withoutTqdm) params;
               made := made w; saved := saved w; logged := logged w |}).

Declare Scope downloader_scope.
Notation "x <- m ;; k" := (bind m (fun x => k))
  (at level 100, m at next level, right associativity) : downloader_scope.
Notation "m ;; k" := (bind m (fun _ => k))
  (at level 100, right associativity) : downloader_scope.

Section Downloader.

Context `{EN : Env}.

Local Open Scope downloader_scope.

(** Lines 45-51. *)
Fixpoint _downloadSampleJsons_from (sampleJsons : list string)
    (sampleJsonUrls : list string) : D (list string) :=
  match sampleJsonUrls with
  | [] => ret sampleJsons
  | url :: rest =>
      let filename := basename url in
      downloads true [{| url := url; saveTo := filename; position := 0 |}] ;;
      _downloadSampleJsons_from (sampleJsons ++ [filename]) rest
  end.

Definition _downloadSampleJsons (sampleJsonUrls : list string) : D (list string) :=
  _downloadSampleJsons_from [] sampleJsonUrls.

(** Lines 54-59. *)
Fixpoint _generateSampleJsons_from (sampleJsons : list string)
    (sampleJsonUrls : list string) : list string :=
  match sampleJsonUrls with
  | [] => sampleJsons
  | url :: rest =>
      let filename := basename url in
      _generateSampleJsons_from (sampleJsons ++ [filename]) rest
  end.

Definition _generateSampleJsons (sampleJsonUrls : list string) : list string :=
  _generateSampleJsons_from [] sampleJsonUrls.

(** Lines 67-70: the samples of one file, type after type. *)
Fixpoint samples_of_types (samples : list ModelSamples)
    (jsonDict : list (string * list SampleParams)) : list ModelSamples :=
  match jsonDict with
  | [] => samples
  | (vcType, entries) :: rest =>
      samples_of_types
        (fold_left (fun samples sampleParams =>
                      samples ++ [generateModelSample sampleParams])
                   entries samples)
        rest
  end.

(** Lines 62-71. [open] and [json.load] are the read [json_load]. *)
Fixpoint _generateSampleList_from (samples : list ModelSamples)
    (sampleJsons : list string) : D (list ModelSamples) :=
  match sampleJsons with
  | [] => ret samples
  | file :: rest =>
      jsonDict <- read (fun w => json_load w file) ;;
      _generateSampleList_from (samples_of_types samples jsonDict) rest
  end.

Definition _generateSampleList (sampleJsons : list string) : D (list ModelSamples) :=
  _generateSampleList_from [] sampleJsons.

Definition not_found (targetSampleId : string) : string :=
  "[Voice Changer] initiail sample not found. " ++ targetSampleId.

Definition not_supported (voiceChangerType : string) : string :=
  "[Voice Changer] " ++ voiceChangerType ++ " is not supported.".

(** Lines 79-202, one turn of the loop: [downloadParams] and [line_num]
    go in and come out. A [continue] hands them back as they are. *)
Definition sample_turn (samples : list ModelSamples) (model_dir : string)
    (slotIndex : list Z) (i : nat) (initSampleId : string * Params)
    (downloadParams : list DownloadParam) (line_num : Z)
  : D (list DownloadParam * Z) :=
  let targetSampleId := fst initSampleId in
  let targetSampleParams := snd initSampleId in
  targetSlotIndex <- lift (match nth_error slotIndex i with
                           | Some x => inr x
                           | None => inl (OtherException "IndexError")
                           end) ;;
  match find (fun sample => String.eqb (id sample) targetSampleId) samples with
  | None =>
      log_line "warn" (not_found targetSampleId) ;;
      ret (downloadParams, line_num)
  | Some sample =>
      let slotDir := join [model_dir; str targetSlotIndex] in
      if String.eqb (voiceChangerType sample) "RVC" then
        let slotInfo := new_RVCModelSlot in
        makedirs slotDir ;;
        let modelFilePath := join [slotDir; basename (modelUrl sample)] in
        let downloadParams :=
          downloadParams ++ [{| url := modelUrl sample;
                                saveTo := modelFilePath;
                                position := line_num |}] in
        let slotInfo := ModelSlot.set_modelFile (basename (modelUrl sample)) slotInfo in
        let line_num := line_num + 1 in
        useIndex <- lift (getitem targetSampleParams "useIndex") ;;
        let '(downloadParams, slotInfo, line_num) :=
          if is_True useIndex && present (indexUrl sample) then
            let indexPath := join [slotDir; basename (attr (indexUrl sample))] in
            (downloadParams ++ [{| url := attr (indexUrl sample);
                                   saveTo := indexPath;
                                   position := line_num |}],
             ModelSlot.set_indexFile (basename (attr (indexUrl sample))) slotInfo,
             line_num + 1)
          else (downloadParams, slotInfo, line_num) in
        let '(downloadParams, slotInfo, line_num) :=
          if present (icon sample) then
            let iconPath := join [slotDir; basename (attr (icon sample))] in
            (downloadParams ++ [{| url := attr (icon sample);
                                   saveTo := iconPath;
                                   position := line_num |}],
             ModelSlot.set_iconFile (basename (attr (icon sample))) slotInfo,
             line_num + 1)
          else (downloadParams, slotInfo, line_num) in
        let slotInfo := ModelSlot.set_sample sample slotInfo in
        let slotInfo := ModelSlot.set_rvc_defaults slotInfo in
        let slotInfo :=
          ModelSlot.set_isONNX (endswith (ModelSlot.modelFile slotInfo) ".onnx") slotInfo in
        save_model_slot targetSlotIndex slotInfo ;;
        ret (downloadParams, line_num)
      else if String.eqb (voiceChangerType sample) "Diffusion-SVC" then
        if String.prefix "darwin" platform then ret (downloadParams, line_num)
        else
          let slotInfo := new_DiffusionSVCModelSlot in
          makedirs slotDir ;;
          let modelFilePath := join [slotDir; basename (modelUrl sample)] in
          let downloadParams :=
            downloadParams ++ [{| url := modelUrl sample;
                                  saveTo := modelFilePath;
                                  position := line_num |}] in
          let slotInfo := ModelSlot.set_modelFile (basename (modelUrl sample)) slotInfo in
          let line_num := line_num + 1 in
          let '(downloadParams, slotInfo, line_num) :=
            if present (icon sample) then
              let iconPath := join [slotDir; basename (attr (icon sample))] in
              (downloadParams ++ [{| url := attr (icon sample);
                                     saveTo := iconPath;
                                     position := line_num |}],
               ModelSlot.set_iconFile (basename (attr (icon sample))) slotInfo,
               line_num + 1)
            else (downloadParams, slotInfo, line_num) in
          let slotInfo := ModelSlot.set_sample sample slotInfo in
          let slotInfo := ModelSlot.set_diffusion_defaults slotInfo in
          let slotInfo :=
            ModelSlot.set_isONNX (endswith (ModelSlot.modelFile slotInfo) ".onnx") slotInfo in
          save_model_slot targetSlotIndex slotInfo ;;
          ret (downloadParams, line_num)
      else
        log_line "warn" (not_supported (voiceChangerType sample)) ;;
        ret (downloadParams, line_num)
  end.

(** Lines 79-202: [enumerate(sampleModelIds)] from the index [i] on. *)
Fixpoint sample_turns (samples : list ModelSamples) (model_dir : string)
    (slotIndex : list Z) (i : nat) (sampleModelIds : list (string * Params))
    (downloadParams : list DownloadParam) (line_num : Z)
  : D (list DownloadParam * Z) :=
  match sampleModelIds with
  | [] => ret (downloadParams, line_num)
  | initSampleId :: rest =>
      st <- sample_turn samples model_dir slotIndex i initSampleId
              downloadParams line_num ;;
      sample_turns samples model_dir slotIndex (S i) rest (fst st) (snd st)
  end.

(** Lines 215-224, one turn and the loop. *)
Definition metadata_turn (model_dir : string) (targetSlotIndex : Z) : D unit :=
  slotInfo <- ask (fun w => get_slot_info w model_dir targetSlotIndex) ;;
  let modelPath :=
    join [model_dir; str (ModelSlot.slotIndex slotInfo);
          basename (ModelSlot.modelFile slotInfo)] in
  if String.eqb (ModelSlot.voiceChangerType slotInfo) "RVC" then
    slotInfo <- ask (fun w =>
                       if ModelSlot.isONNX slotInfo
                       then _setInfoByONNX w modelPath slotInfo
                       else _setInfoByPytorch w modelPath slotInfo) ;;
    save_model_slot targetSlotIndex slotInfo
  else ret tt.

Fixpoint metadata_turns (model_dir : string) (slotIndex : list Z) : D unit :=
  match slotIndex with
  | [] => ret tt
  | targetSlotIndex :: rest =>
      metadata_turn model_dir targetSlotIndex ;;
      metadata_turns model_dir rest
  end.

(** Lines 74-224. *)
Definition _downloadSamples (samples : list ModelSamples)
    (sampleModelIds : list (string * Params)) (model_dir : string)
    (slotIndex : list Z) (withoutTqdm : bool) : D unit :=
  st <- sample_turns samples model_dir slotIndex 0 sampleModelIds [] 0 ;;
  let downloadParams := fst st in
  log_line "info" "[Voice Changer] Downloading model files..." ;;
  downloads withoutTqdm downloadParams ;;
  log_line "info" "[Voice Changer] Generating metadata..." ;;
  metadata_turns model_dir slotIndex.

Definition skip_download : string :=
  "[Voice Changer] model_dir is already exists. skip download samples.".

(** Lines 18-27. *)
Definition downloadInitialSamples (mode : string) (model_dir : string) : D unit :=
  let '(sampleJsonUrls, sampleModels) := getSampleJsonAndModelIds mode in
  sampleJsons <- _downloadSampleJsons sampleJsonUrls ;;
  found <- ask (fun w => exists_ w model_dir) ;;
  if (found : bool) then log_line "info" skip_download
  else
    samples <- _generateSampleList sampleJsons ;;
    let slotIndex := map Z.of_nat (seq 0 (length sampleModels)) in
    _downloadSamples samples sampleModels model_dir slotIndex false.

(** Lines 30-35. *)
Definition downloadSample (mode : string) (modelId : string) (model_dir : string)
    (slotIndex : Z) (params : Params) : D unit :=
  let '(sampleJsonUrls, _sampleModels) := getSampleJsonAndModelIds mode in
  let sampleJsons := _generateSampleJsons sampleJsonUrls in
  samples <- _generateSampleList sampleJsons ;;
  _downloadSamples samples [(modelId, params)] model_dir [slotIndex] true.

(** Lines 38-42. *)
Definition getSampleInfos (mode : string) : D (list ModelSamples) :=
  let '(sampleJsonUrls, _sampleModels) := getSampleJsonAndModelIds mode in
  let sampleJsons := _generateSampleJsons sampleJsonUrls in
  _generateSampleList sampleJsons.

End Downloader.

End SampleDownloader.

(** ** Vocabulary for the download plan *)

Section DownloadPlan.

Import SampleDownloader ModelSample.

Context `{EN : Env}.

(** The positions of [new] count up from [n]. *)
Definition counted (n : Z) (new : list DownloadParam) : Prop :=
  map position new = map (fun k => n + Z.of_nat k) (seq 0 (length new)).

(** The download [p] belongs to the request [x], the [i]-th of the list:
    its sample is the first one with the id asked for, of a type that is
    handled; it fetches the model, the icon, or the index of an RVC sample
    whose parameters say [useIndex: True]; and it is saved under its base
    name in the directory of the [i]-th slot. *)
Definition planned_at (samples : list ModelSamples) (model_dir : string)
    (slotIndex : list Z) (i : nat) (x : string * Params) (p : DownloadParam) : Prop :=
  exists idx sample,
    nth_error slotIndex i = Some idx
    /\ find (fun sample => String.eqb (id sample) (fst x)) samples = Some sample
    /\ (voiceChangerType sample = "RVC"
        \/ (voiceChangerType sample = "Diffusion-SVC"
            /\ String.prefix "darwin" platform = false))
    /\ (url p = modelUrl sample
        \/ (voiceChangerType sample = "RVC"
            /\ getitem (snd x) "useIndex" = inr PTrue
            /\ indexUrl sample = Some (url p) /\ url p <> "")
        \/ (icon sample = Some (url p) /\ url p <> ""))
    /\ saveTo p = join [join [model_dir; str idx]; basename (url p)].

Definition planned (samples : list ModelSamples) (model_dir : string)
    (slotIndex : list Z) (sampleModelIds : list (string * Params))
    (p : DownloadParam) : Prop :=
  exists i x,
    nth_error sampleModelIds i = Some x
    /\ planned_at samples model_dir slotIndex i x p.

(** The samples of one list, type after type and entry after entry. *)
Definition samples_in (jsonDict : list (string * list SampleParams))
  : list ModelSamples :=
  flat_map (fun kv => map generateModelSample (snd kv)) jsonDict.

(** In the world [w] the files [files] can be read, as [jsonDicts]. *)
Definition readable (w : World) (files : list string)
    (jsonDicts : list (list (string * list SampleParams))) : Prop :=
  Forall2 (fun file jsonDict => json_load w file = inr jsonDict) files jsonDicts.

(** The download of a list of samples, as [_downloadSampleJsons] asks for
    it. *)
Definition json_download (sampleJsonUrl : string) : bool * DownloadParam :=
  (true, {| url := sampleJsonUrl; saveTo := basename sampleJsonUrl; position := 0 |}).

End DownloadPlan.

Module SampleDownloads.

Import SampleDownloader ModelSample.

(** The part of a path after its last slash, and the parts of a path
    joined by slashes. *)
Fixpoint basename_from (acc s : string) : string :=
  match s with
  | EmptyString => acc
  | String c rest =>
      if String.eqb (String c "") "/" then basename_from "" rest
      else basename_from (acc ++ String c "") rest
  end.

(** An RVC sample with an index and an icon. *)
Definition mahiro : ModelSamples := {|
  id := "KikotoMahiro_o";
  voiceChangerType := "RVC";
  modelUrl := "https://host/models/mahiro.onnx";
  indexUrl := Some "https://host/models/mahiro.index";
  icon := Some "https://host/models/mahiro.png";
  credit := "credit";
  description := "";
  name := "Mahiro";
  termsOfUseUrl := "https://host/terms.txt"
|}.

Definition blank (voiceChangerType : string) : ModelSlot.ModelSlot := {|
  ModelSlot.slotIndex := -1;
  ModelSlot.voiceChangerType := voiceChangerType;
  ModelSlot.modelFile := "";
  ModelSlot.indexFile := "";
  ModelSlot.iconFile := "";
  ModelSlot.sampleId := "";
  ModelSlot.credit := "";
  ModelSlot.description := "";
  ModelSlot.name := "";
  ModelSlot.termsOfUseUrl := "";
  ModelSlot.defaultTune := PInt 0;
  ModelSlot.defaultIndexRatio := PInt 0;
  ModelSlot.defaultProtect := PFloat 0.5;
  ModelSlot.defaultKstep := PInt 0;
  ModelSlot.defaultSpeedup := PInt 0;
  ModelSlot.kStepMax := PInt 0;
  ModelSlot.isONNX := false
|}.

(** The list of samples is on disk once it was downloaded. *)
Definition on_disk (w : World) (file : string) : bool :=
  existsb (fun d => String.eqb (saveTo (snd d)) file) (downloaded w).

(** One list of samples that holds [mahiro], readable once it is on disk;
    [model_dir_exists] is what [os.path.exists] answers. The manager hands
    back the slot saved last under an index, and the slot generators leave
    a slot as it is. *)
Definition env (model_dir_exists : bool) : Env.
Proof.
  refine {|
    SampleParams := ModelSamples;
    basename := basename_from "";
    join := String.concat "/";
    platform := "linux";
    getSampleJsonAndModelIds mode :=
      (["https://host/samples_0004_o.json"],
       [("KikotoMahiro_o", [("useIndex", PTrue)])]);
    generateModelSample sampleParams := sampleParams;
    json_load w file :=
      if on_disk w file then inr [("RVC", [mahiro])]
      else inl (OtherException "FileNotFoundError");
    json_load_saved := _;
    exists_ w path := model_dir_exists;
    new_ModelSlot := blank "";
    new_RVCModelSlot := blank "RVC";
    new_DiffusionSVCModelSlot := blank "Diffusion-SVC";
    get_slot_info w model_dir i :=
      match find (fun e => fst e =? i) (rev (saved w)) with
      | Some e => snd e
      | None => blank ""
      end;
    _setInfoByONNX w modelPath slotInfo := slotInfo;
    _setInfoByPytorch w modelPath slotInfo := slotInfo
  |}.
  intros w sampleJsonUrl Hin.
  assert (on_disk w (basename_from "" sampleJsonUrl) = true) as ->.
  { apply existsb_exists. eexists. split; [exact Hin | apply String.eqb_refl]. }
  eexists. reflexivity.
Defined.

Definition nothing : World :=
  {| downloaded := []; made := []; saved := []; logged := [] |}.

(** The world once the list of samples was downloaded. *)
Definition listed : World :=
  {| downloaded :=
       [(true, {| url := "https://host/samples_0004_o.json";
                  saveTo := "samples_0004_o.json";
                  position := 0 |})];
     made := []; saved := []; logged := [] |}.

End SampleDownloads.

(** * Properties *)

(** ** Slices *)

Lemma zlen_app {A : Type} (l1 l2 : list A) : zlen (l1 ++ l2) = zlen l1 + zlen l2.
Proof. unfold zlen. rewrite length_app. lia. Qed.

Lemma zlen_repeat {A : Type} (x : A) (n : Z) : 0 <= n -> zlen (repeat x (Z.to_nat n)) = n.
Proof. intros Hn. unfold zlen. rewrite repeat_length. lia. Qed.

Lemma zlen_nonneg {A : Type} (l : list A) : 0 <= zlen l.
Proof. unfold zlen. lia. Qed.

(** [l[-k:]] with [k > 0] has the last [k] elements, or all of them when
    there are fewer. *)
Lemma slice_tail {A : Type} (l : list A) (k : Z) :
  0 < k ->
  Py.slice l (Some (- k)) None = skipn (Z.to_nat (zlen l - k)) l.
Proof.
  intros Hk. unfold Py.slice, Py.bound. fold (zlen l).
  pose proof (zlen_nonneg l) as Hl.
  replace (- k <? 0) with true by (symmetry; apply Z.ltb_lt; lia).
  replace (Z.to_nat (Z.max (- k + zlen l) 0)) with (Z.to_nat (zlen l - k)) by lia.
  apply firstn_all2. rewrite length_skipn. unfold zlen in *. lia.
Qed.

Lemma zlen_slice_tail {A : Type} (l : list A) (k : Z) :
  0 < k -> zlen (Py.slice l (Some (- k)) None) = Z.min k (zlen l).
Proof.
  intros Hk. rewrite slice_tail by assumption.
  unfold zlen. rewrite length_skipn. lia.
Qed.

(** [l[-0:]] is [l[0:]]: the whole sequence. *)
Lemma slice_minus_zero {A : Type} (l : list A) : Py.slice l (Some 0) None = l.
Proof.
  unfold Py.slice, Py.bound. simpl.
  rewrite Z.min_l by lia. simpl. rewrite Z.sub_0_r.
  apply firstn_all2. lia.
Qed.

(** [l[-a:-b]] with [0 < b <= a <= len l]. *)
Lemma slice_window {A : Type} (l : list A) (a b : Z) :
  0 < b -> b <= a -> a <= zlen l ->
  Py.slice l (Some (- a)) (Some (- b))
  = firstn (Z.to_nat (a - b)) (skipn (Z.to_nat (zlen l - a)) l).
Proof.
  intros Hb Hab Ha. unfold Py.slice, Py.bound. fold (zlen l).
  replace (- a <? 0) with true by (symmetry; apply Z.ltb_lt; lia).
  replace (- b <? 0) with true by (symmetry; apply Z.ltb_lt; lia).
  f_equal; [| f_equal]; lia.
Qed.

(** [l[-a:-0]] is [l[-a:0]]: empty as soon as [a <= len l] and [a > 0]. *)
Lemma slice_to_minus_zero {A : Type} (l : list A) (a : Z) :
  0 <= a -> Py.slice l (Some (- a)) (Some 0) = [].
Proof.
  intros Ha. unfold Py.slice, Py.bound. fold (zlen l).
  pose proof (zlen_nonneg l) as Hl.
  replace (0 <? 0) with false by reflexivity.
  rewrite (Z.min_l 0) by lia.
  destruct (- a <? 0) eqn:E.
  - replace (Z.to_nat (0 - Z.max (- a + zlen l) 0)) with 0%nat by lia. reflexivity.
  - replace (Z.to_nat (0 - Z.min (- a) (zlen l))) with 0%nat by lia. reflexivity.
Qed.

(** ** The arithmetic of the conversion window *)

Lemma convertSize_of_spec (n cf sola extra : Z) :
  let total := n + cf + sola + extra in
  let c := convertSize_of n cf sola extra in
  c mod 160 = 0 /\ total <= c < total + 160.
Proof.
  intros total c. subst c. unfold convertSize_of. fold total.
  pose proof (Z.mod_pos_bound total 160 ltac:(lia)) as Hm.
  destruct (total mod 160 =? 0) eqn:E; cbn [negb].
  - apply Z.eqb_eq in E. lia.
  - apply Z.eqb_neq in E. split; [| lia].
    rewrite (Z.div_mod total 160) at 1 by lia.
    replace (160 * (total / 160) + total mod 160 + (160 - total mod 160))
      with ((total / 160 + 1) * 160) by lia.
    apply Z.mod_mul. lia.
Qed.

(** The arithmetic of lines 150-155: the sum of the four lengths moved up
    to the next multiple of 160 is [160 * ceil(sum/160)], a multiple of
    160, at least the sum and less than 160 above it. *)
Lemma convertSize_of_ceiling (inputSize crossfadeSize solaSearchFrame extra_frame : Z) :
  let total := inputSize + crossfadeSize + solaSearchFrame + extra_frame in
  let convertSize :=
    convertSize_of inputSize crossfadeSize solaSearchFrame extra_frame in
  convertSize = 160 * ((total + 159) / 160)
  /\ convertSize mod 160 = 0
  /\ total <= convertSize
  /\ convertSize < total + 160.
Proof.
  intros total convertSize.
  destruct (convertSize_of_spec inputSize crossfadeSize solaSearchFrame extra_frame)
    as [Hm [Hlo Hhi]].
  fold total in Hlo, Hhi. fold convertSize in Hm, Hlo, Hhi.
  repeat split; try assumption.
  apply Z.mod_divide in Hm; [| lia]. destruct Hm as [q Hq].
  rewrite Hq in *.
  assert ((total + 159) / 160 = q) as ->; [| lia].
  symmetry. apply Z.div_unique with (r := total + 159 - q * 160); lia.
Qed.

(** ** Python primitives on examples *)

Example int_of_float_truncates :
  Py.int_of_float 2.75%float = inr 2 /\ Py.int_of_float (-2.75)%float = inr (-2).
Proof. vm_compute. split; reflexivity. Qed.

Example round_half_even_ties :
  Py.round_half_even 2.5%float = inr 2 /\ Py.round_half_even 3.5%float = inr 4
  /\ Py.round_half_even 2.75%float = inr 3.
Proof. vm_compute. repeat split; reflexivity. Qed.

Example float32_rounds :
  np.float32 16777217%float = 16777216%float
  /\ np.float32 12345%float = 12345%float.
Proof. vm_compute. split; reflexivity. Qed.

Example slice_examples :
  Py.slice [1; 2; 3; 4; 5] (Some (-2)) None = [4; 5]
  /\ Py.slice [1; 2; 3; 4; 5] (Some (-3)) (Some (-1)) = [3; 4]
  /\ Py.slice [1; 2; 3; 4; 5] (Some (-9)) None = [1; 2; 3; 4; 5]
  /\ Py.slice [1; 2; 3; 4; 5] (Some 0) None = [1; 2; 3; 4; 5]
  /\ Py.slice [1; 2; 3; 4; 5] (Some (-3)) (Some 0) = [].
Proof. vm_compute. repeat split; reflexivity. Qed.

(** ** Dynamically typed reads of a setting *)

(** ** What a computation leaves alone *)

Section Preservation.

Context `{CO : Components} `{CL : @Collaborators CO}.
Context (R : RVCr2 -> RVCr2 -> Prop) {R_pre : PreOrder R}.

Lemma preserves_ret {A : Type} (a : A) : preserves R (ret a).
Proof. intros r x r' E. injection E as _ <-. reflexivity. Qed.

Lemma preserves_raise {A : Type} (e : exn) : preserves R (@raise _ A e).
Proof. intros r x r' E. injection E as _ <-. reflexivity. Qed.

Lemma preserves_lift {A : Type} (v : exn + A) : preserves R (lift v).
Proof. intros r x r' E. injection E as _ <-. reflexivity. Qed.

Lemma preserves_gets {A : Type} (f : RVCr2 -> A) : preserves R (gets f).
Proof. intros r x r' E. injection E as _ <-. reflexivity. Qed.

Lemma preserves_array {A : Type} (o : option A) : preserves R (array o).
Proof. destruct o; [apply preserves_ret | apply preserves_raise]. Qed.

Lemma preserves_modify (f : RVCr2 -> RVCr2) :
  (forall r, R r (f r)) -> preserves R (modify f).
Proof. intros Hf r x r' E. injection E as _ <-. apply Hf. Qed.

Lemma preserves_attempt {A : Type} (m : M A) :
  preserves R m -> preserves R (attempt m).
Proof.
  intros Hm r x r' E. unfold attempt in E.
  destruct (m r) as [y r1] eqn:E1. injection E as _ <-.
  eapply Hm; eassumption.
Qed.

Lemma preserves_bind {A B : Type} (m : M A) (k : A -> M B) :
  preserves R m -> (forall a, preserves R (k a)) -> preserves R (bind m k).
Proof.
  intros Hm Hk r x r' E. unfold bind in E.
  destruct (m r) as [[e | a] r1] eqn:E1.
  - injection E as _ <-. eapply Hm; eassumption.
  - transitivity r1; [eapply Hm; eassumption | eapply Hk; eassumption].
Qed.

End Preservation.

#[export] Instance frame_preorder `{CO : Components} : PreOrder frame.
Proof.
  split.
  - intros r. unfold frame. repeat split.
  - intros r1 r2 r3. unfold frame. intuition congruence.
Qed.

#[export] Instance same_prevVol_preorder `{CO : Components} : PreOrder same_prevVol.
Proof.
  split.
  - intros r. reflexivity.
  - intros r1 r2 r3. unfold same_prevVol. congruence.
Qed.

#[export] Instance same_session_preorder `{CO : Components} : PreOrder same_session.
Proof.
  split.
  - intros r. unfold same_session. repeat split.
  - intros r1 r2 r3. unfold same_session. intuition congruence.
Qed.

#[export] Instance same_forceTensor_preorder `{CO : Components} :
  PreOrder same_forceTensor.
Proof.
  split.
  - intros r. reflexivity.
  - intros r1 r2 r3. unfold same_forceTensor. congruence.
Qed.

#[export] Instance log_grows_preorder `{CO : Components} : PreOrder log_grows.
Proof.
  split.
  - intros r. exists []. symmetry. apply app_nil_r.
  - intros r1 r2 r3 [l1 H1] [l2 H2]. exists (l1 ++ l2).
    rewrite H2, H1. symmetry. apply app_assoc.
Qed.

#[export] Instance same_handle_preorder `{CO : Components} : PreOrder same_handle.
Proof.
  split.
  - intros r. unfold same_handle. repeat split.
  - intros r1 r2 r3. unfold same_handle. intuition congruence.
Qed.

Ltac framed :=
  repeat first
    [ apply preserves_ret; exact _ | apply preserves_raise; exact _
    | apply preserves_lift; exact _ | apply preserves_gets; exact _
    | apply preserves_array; exact _
    | apply preserves_modify; intros ?; hnf; cbn; repeat split; reflexivity
    | apply preserves_modify; intros ?; hnf; cbn; eexists; reflexivity
    | apply preserves_attempt; try exact _
    | apply preserves_bind; [exact _ | | intros ?]
    | match goal with
      | |- preserves _ (if ?b then _ else _) => destruct b
      | |- preserves _ (match ?o with Some _ => _ | None => _ end) => destruct o
      | |- preserves _ (match ?o with inl _ => _ | inr _ => _ end) => destruct o
      | |- preserves _ (match ?e with PipelineCreateException _ => _ | _ => _ end) =>
          destruct e
      end ].

Section StanzasLeaveAlone.

Context `{CO : Components} `{CL : @Collaborators CO}.

Lemma preserves_link_past (newData : list float) (n : Z) :
  preserves frame (link_past newData n).
Proof. unfold link_past. framed. Qed.

Lemma preserves_fill_zero (convertSize : Z) : preserves frame (fill_zero convertSize).
Proof. unfold fill_zero. framed. Qed.

Lemma preserves_trim (convertSize : Z) : preserves frame (trim convertSize).
Proof. unfold trim. framed. Qed.

Lemma preserves_check_volume (inputSize crossfadeSize : Z) :
  preserves frame (check_volume inputSize crossfadeSize).
Proof. unfold check_volume. framed. Qed.

(** [generate_input] leaves the settings, the pipeline and the rest of
    the instance alone, whether it returns or raises. *)
Lemma preserves_generate_input (newData : list float) (cf sola extra : Z) :
  preserves frame (generate_input newData cf sola extra).
Proof.
  unfold generate_input.
  apply preserves_bind; [exact _ | apply preserves_link_past | intros ?].
  apply preserves_bind; [exact _ | apply preserves_gets; exact _ | intros ?].
  apply preserves_bind; [exact _ | apply preserves_lift; exact _ | intros ?].
  apply preserves_bind; [exact _ | apply preserves_fill_zero | intros ?].
  apply preserves_bind; [exact _ | apply preserves_trim | intros ?].
  apply preserves_bind; [exact _ | apply preserves_check_volume | intros ?].
  framed.
Qed.

(** The stanzas before the volume check do not touch [prevVol]. *)
Lemma link_past_prevVol (newData : list float) (n : Z) :
  preserves same_prevVol (link_past newData n).
Proof. unfold link_past. framed. Qed.

Lemma fill_zero_prevVol (convertSize : Z) :
  preserves same_prevVol (fill_zero convertSize).
Proof. unfold fill_zero. framed. Qed.

Lemma trim_prevVol (convertSize : Z) : preserves same_prevVol (trim convertSize).
Proof. unfold trim. framed. Qed.

End StanzasLeaveAlone.

(** ** The stanzas of [generate_input] *)

(** One step of the monad. *)
Ltac run :=
  unfold bind, gets, modify, lift, ret, array, raise; cbn.

Section GenerateInputFacts.

Context `{CO : Components} `{CL : @Collaborators CO}.

Lemma zeros_ok (n : Z) : 0 <= n -> np.zeros n = inr (repeat 0%float (Z.to_nat n)).
Proof.
  intros Hn. unfold np.zeros.
  replace (n <? 0) with false by (symmetry; apply Z.ltb_ge; lia). reflexivity.
Qed.

Lemma zeros2_ok (n c : Z) :
  0 <= n -> 0 <= c ->
  np.zeros2 n c = inr (repeat (repeat 0%float (Z.to_nat c)) (Z.to_nat n)).
Proof.
  intros Hn Hc. unfold np.zeros2.
  replace (n <? 0) with false by (symmetry; apply Z.ltb_ge; lia).
  replace (c <? 0) with false by (symmetry; apply Z.ltb_ge; lia). reflexivity.
Qed.

(** Linking [n] new samples: [n] more samples, [n // 160] more rows. *)
Lemma link_past_holds (r : RVCr2) (newData : list float) (la lf : Z) :
  0 <= embChannels (slotInfo r) ->
  (audio_buffer r = None /\ la = 0 /\ lf = 0) \/ holds r la lf ->
  exists r',
    link_past newData (zlen newData / 160) r = (inr tt, r')
    /\ slotInfo r' = slotInfo r
    /\ holds r' (la + zlen newData) (lf + zlen newData / 160).
Proof.
  intros Hemb Hpre.
  assert (0 <= zlen newData / 160) as Hq
    by (apply Z.div_pos; [apply zlen_nonneg | lia]).
  unfold link_past. run.
  destruct Hpre as [(Hnone & -> & ->) | (Ha & Hf & Hp)].
  - rewrite Hnone. run.
    rewrite zeros_ok, (zeros2_ok _ _ Hq Hemb) by assumption.
    destruct (f0 (slotInfo r)) eqn:Ef0; run;
      (eexists; split; [reflexivity |]; split; [reflexivity |]);
      unfold holds, olen; cbn; rewrite Ef0; fold (zlen newData);
      rewrite !zlen_repeat by assumption;
      repeat split; try reflexivity; intros; try discriminate; reflexivity.
  - destruct (audio_buffer r) as [a |] eqn:Ea; [| discriminate].
    destruct (feature_buffer r) as [ft |] eqn:Eft; [| discriminate].
    cbn in Ha, Hf. injection Ha as Ha. injection Hf as Hf.
    rewrite zeros_ok, (zeros2_ok _ _ Hq Hemb) by assumption.
    destruct (f0 (slotInfo r)) eqn:Ef0; run.
    + specialize (Hp eq_refl).
      destruct (pitchf_buffer r) as [p |] eqn:Ep; [| discriminate].
      cbn in Hp. injection Hp as Hp. run. rewrite Eft. run.
      eexists; split; [reflexivity |]; split; [reflexivity |].
      unfold holds, olen; cbn. rewrite Ef0.
      rewrite !zlen_app, !zlen_repeat by assumption.
      repeat split; intros; f_equal; lia.
    + rewrite Eft. run.
      eexists; split; [reflexivity |]; split; [reflexivity |].
      unfold holds, olen; cbn. rewrite Ef0.
      rewrite !zlen_app, !zlen_repeat by assumption.
      repeat split; intros; try discriminate; f_equal; lia.
Qed.

End GenerateInputFacts.

Section WindowFacts.

Context `{CO : Components} `{CL : @Collaborators CO}.

(** A short buffer gets [convertSize] zeros and [convertSize // 160] zero
    rows in front; a full one is left alone. *)
Lemma fill_zero_holds (r : RVCr2) (convertSize la lf : Z) :
  0 <= embChannels (slotInfo r) -> 0 <= convertSize ->
  holds r la lf ->
  exists r',
    fill_zero convertSize r = (inr tt, r')
    /\ slotInfo r' = slotInfo r
    /\ holds r' (if la <? convertSize then la + convertSize else la)
                (if la <? convertSize then lf + convertSize / 160 else lf).
Proof.
  intros Hemb Hc (Ha & Hf & Hp).
  assert (0 <= convertSize / 160) as Hq by (apply Z.div_pos; lia).
  destruct (audio_buffer r) as [a |] eqn:Ea; [| discriminate].
  destruct (feature_buffer r) as [ft |] eqn:Eft; [| discriminate].
  cbn in Ha, Hf. injection Ha as Ha. injection Hf as Hf.
  unfold fill_zero. run. rewrite Ea. run. fold (zlen a). rewrite Ha.
  destruct (la <? convertSize) eqn:Elt; run.
  - rewrite (zeros_ok _ Hc), (zeros_ok _ Hq), (zeros2_ok _ _ Hq Hemb).
    destruct (f0 (slotInfo r)) eqn:Ef0; run.
    + specialize (Hp eq_refl).
      destruct (pitchf_buffer r) as [p |] eqn:Ep; [| discriminate].
      cbn in Hp. injection Hp as Hp. run. rewrite Eft. run.
      eexists; split; [reflexivity |]; split; [reflexivity |].
      unfold holds, olen; cbn. rewrite Ef0.
      rewrite !zlen_app, !zlen_repeat by assumption.
      repeat split; intros; f_equal; lia.
    + rewrite Eft. run.
      eexists; split; [reflexivity |]; split; [reflexivity |].
      unfold holds, olen; cbn. rewrite Ef0.
      rewrite !zlen_app, !zlen_repeat by assumption.
      repeat split; intros; try discriminate; f_equal; lia.
  - eexists; split; [reflexivity |]; split; [reflexivity |].
    unfold holds, olen. rewrite Ea, Eft. cbn.
    repeat split; try (f_equal; assumption).
Qed.

(** Trimming to a positive multiple of 160 keeps the last [convertSize]
    samples and the last [convertSize // 160] rows. *)
Lemma trim_holds (r : RVCr2) (convertSize la lf : Z) :
  0 < convertSize -> convertSize mod 160 = 0 ->
  holds r la lf ->
  exists r',
    trim convertSize r = (inr tt, r')
    /\ slotInfo r' = slotInfo r
    /\ holds r' (Z.min convertSize la) (Z.min (convertSize / 160) lf).
Proof.
  intros Hc Hm (Ha & Hf & Hp).
  apply Z.mod_divide in Hm; [| lia]. destruct Hm as [q Hq].
  assert (convertSize / 160 = q) as Hdiv
    by (rewrite Hq; apply Z.div_mul; lia).
  assert (-1 * convertSize / 160 = - q) as Hoff.
  { replace (-1 * convertSize) with ((- q) * 160) by lia. apply Z.div_mul. lia. }
  assert (0 < q) as Hqpos by lia.
  destruct (audio_buffer r) as [a |] eqn:Ea; [| discriminate].
  destruct (feature_buffer r) as [ft |] eqn:Eft; [| discriminate].
  cbn in Ha, Hf. injection Ha as Ha. injection Hf as Hf.
  unfold trim. run. rewrite Ea. run.
  change (match convertSize with
          | 0 => 0 | Z.pos y' => Z.neg y' | Z.neg y' => Z.pos y' end)
    with (- convertSize).
  replace (- convertSize / 160) with (- q) by (rewrite <- Hoff; f_equal; lia).
  destruct (f0 (slotInfo r)) eqn:Ef0; run.
  - specialize (Hp eq_refl).
    destruct (pitchf_buffer r) as [p |] eqn:Ep; [| discriminate].
    cbn in Hp. injection Hp as Hp. run. rewrite Eft. run.
    eexists; split; [reflexivity |]; split; [reflexivity |].
    unfold holds, olen; cbn. rewrite Ef0, Hdiv.
    rewrite !zlen_slice_tail by assumption.
    repeat split; intros; f_equal; lia.
  - rewrite Eft. run.
    eexists; split; [reflexivity |]; split; [reflexivity |].
    unfold holds, olen; cbn. rewrite Ef0, Hdiv.
    rewrite !zlen_slice_tail by assumption.
    repeat split; intros; try discriminate; f_equal; lia.
Qed.

(** Trimming to an empty window trims nothing: [buf[-0:]] is the whole
    buffer. *)
Lemma trim_zero (r : RVCr2) (la lf : Z) :
  holds r la lf ->
  exists r',
    trim 0 r = (inr tt, r')
    /\ slotInfo r' = slotInfo r
    /\ audio_buffer r' = audio_buffer r
    /\ feature_buffer r' = feature_buffer r
    /\ (f0 (slotInfo r) = true -> pitchf_buffer r' = pitchf_buffer r)
    /\ holds r' la lf.
Proof.
  intros (Ha & Hf & Hp).
  destruct (audio_buffer r) as [a |] eqn:Ea; [| discriminate].
  destruct (feature_buffer r) as [ft |] eqn:Eft; [| discriminate].
  unfold trim. run. rewrite Ea. run.
  change (0 / 160) with 0. rewrite !slice_minus_zero.
  destruct (f0 (slotInfo r)) eqn:Ef0; run.
  - specialize (Hp eq_refl).
    destruct (pitchf_buffer r) as [p |] eqn:Ep; [| discriminate].
    run. rewrite Eft. run. rewrite !slice_minus_zero.
    eexists; split; [reflexivity |]. cbn.
    unfold holds, olen; cbn. rewrite Ef0.
    repeat split; intros; assumption.
  - rewrite Eft. run. rewrite !slice_minus_zero.
    eexists; split; [reflexivity |]. cbn.
    unfold holds, olen; cbn. rewrite Ef0.
    repeat split; intros; try discriminate; assumption.
Qed.

End WindowFacts.

(** ** [generate_input] as a whole *)

Section GenerateInputSpec.

Context `{CO : Components} `{CL : @Collaborators CO}.

Lemma bind_ok {A B : Type} (m : M A) (k : A -> M B) (r r1 : RVCr2) (a : A) :
  m r = (inr a, r1) -> bind m k r = k a r1.
Proof. intros E. unfold bind. rewrite E. reflexivity. Qed.

Lemma bind_raises {A B : Type} (m : M A) (k : A -> M B) (r r1 : RVCr2) (e : exn) :
  m r = (inl e, r1) -> bind m k r = (inl e, r1).
Proof. intros E. unfold bind. rewrite E. reflexivity. Qed.

Lemma bind_gets {A B : Type} (f : RVCr2 -> A) (k : A -> M B) (r : RVCr2) :
  bind (gets f) k r = k (f r) r.
Proof. reflexivity. Qed.

Lemma bind_lift_ok {A B : Type} (v : exn + A) (k : A -> M B) (r : RVCr2) (a : A) :
  v = inr a -> bind (lift v) k r = k a r.
Proof. intros ->. reflexivity. Qed.

Lemma bind_modify {B : Type} (f : RVCr2 -> RVCr2) (k : unit -> M B) (r : RVCr2) :
  bind (modify f) k r = k tt (f r).
Proof. reflexivity. Qed.

Lemma zlen_map {A B : Type} (f : A -> B) (l : list A) : zlen (map f l) = zlen l.
Proof. unfold zlen. rewrite length_map. reflexivity. Qed.

(** Lines 186-192 on a state whose audio buffer is [a]. *)
Lemma check_volume_spec (r : RVCr2) (a : list float) (inputSize crossfadeSize : Z) :
  audio_buffer r = Some a ->
  let vol := Py.max (np.sqrt (np.mean (np.square (crop_of a inputSize crossfadeSize))))
                    (prevVol r * 0)%float in
  check_volume inputSize crossfadeSize r = (inr vol, with_prevVol vol r).
Proof.
  intros Ea vol. unfold check_volume, bind, gets, array, modify, ret.
  rewrite Ea. reflexivity.
Qed.

Lemma holds_with_prevVol (r : RVCr2) (v : float) (la lf : Z) :
  holds r la lf -> holds (with_prevVol v r) la lf.
Proof. intros H. exact H. Qed.

(** What one call does to a state whose buffers are fresh or aligned. *)
Lemma generate_input_spec (r : RVCr2) (c : Call) :
  0 <= embChannels (slotInfo r) ->
  buffers_ok r ->
  call_ok (slotInfo r) c ->
  exists a ft o r',
    generate_input (c_newData c) (c_crossfadeSize c)
                   (c_solaSearchFrame c) (c_extra_frame c) r
    = (inr (a, pitchf_buffer r', ft, c_convertSize c, prevVol r', o), r')
    /\ outSize_of (c_convertSize c) (c_extra_frame c) (samplingRate (slotInfo r)) = inr o
    /\ audio_buffer r' = Some a
    /\ feature_buffer r' = Some ft
    /\ prevVol r'
       = Py.max (np.sqrt (np.mean (np.square
                   (crop_of a (zlen (c_newData c)) (c_crossfadeSize c)))))
                (prevVol r * 0)%float
    /\ slotInfo r' = slotInfo r
    /\ buffers_ok r'
    /\ (0 < c_convertSize c -> aligned r' (c_convertSize c))
    /\ (c_convertSize c = 0 -> forall la lf, holds r la lf -> holds r' la lf).
Proof.
  intros Hemb Hpre (Hcf & Hsola & Hextra & o & Ho).
  destruct c as [nd cf sola extra]. cbn [c_newData c_crossfadeSize
    c_solaSearchFrame c_extra_frame] in *.
  unfold c_convertSize in *. cbn [c_newData c_crossfadeSize
    c_solaSearchFrame c_extra_frame] in *.
  set (n := zlen nd) in *.
  set (C := convertSize_of n cf sola extra) in *.
  pose proof (zlen_nonneg nd) as Hn. fold n in Hn.
  destruct (convertSize_of_spec n cf sola extra) as (Hmod & Hlo & Hhi).
  fold C in Hmod, Hlo, Hhi.
  assert (0 <= C) as HC by lia.
  assert (0 <= n / 160) as Hnq by (apply Z.div_pos; lia).
  (* the lengths before the call *)
  assert (exists k, 0 <= k
            /\ ((audio_buffer r = None /\ 160 * k = 0 /\ k = 0) \/ holds r (160 * k) k))
    as (k & Hk & Hstart).
  { destruct Hpre as [Hnone | (k & Hk & Hh)].
    - exists 0. split; [lia |]. left. repeat split; assumption || reflexivity.
    - exists k. split; [assumption |]. right. assumption. }
  (* link *)
  set (nd' := map (fun x => (np.float32 x / 32768)%float) nd).
  destruct (link_past_holds r nd' (160 * k) k Hemb Hstart)
    as (r1 & E1 & Hs1 & H1).
  assert (zlen nd' = n) as Hnd' by apply zlen_map.
  rewrite Hnd' in E1, H1.
  pose proof (link_past_prevVol _ _ _ _ _ E1) as Hv1.
  (* fill *)
  rewrite <- Hs1 in Hemb.
  destruct (fill_zero_holds r1 C _ _ Hemb HC H1) as (r2 & E2 & Hs2 & H2).
  pose proof (fill_zero_prevVol _ _ _ _ E2) as Hv2.
  (* trim *)
  assert (exists r3,
             trim C r2 = (inr tt, r3) /\ slotInfo r3 = slotInfo r2
             /\ (0 < C -> holds r3 C (C / 160))
             /\ (C = 0 -> holds r3 (160 * k) k
                          /\ forall la lf, holds r la lf -> holds r3 la lf)
             /\ exists k3, 0 <= k3 /\ holds r3 (160 * k3) k3)
    as (r3 & E3 & Hs3 & Hpos & Hzero & Hok3).
  { destruct (Z.eq_dec C 0) as [HC0 | HCn].
    - (* an empty window: nothing was added, nothing is cut *)
      assert (n = 0) as Hn0 by lia.
      rewrite HC0, Hn0 in *. change (0 / 160) with 0 in *.
      replace (160 * k + 0 <? 0) with false in H2
        by (symmetry; apply Z.ltb_ge; lia).
      rewrite !Z.add_0_r in H2.
      destruct (trim_zero r2 _ _ H2) as (r3 & E3 & Hs3 & Ha3 & Hf3 & Hp3 & H3).
      exists r3.
      split; [exact E3 |]. split; [exact Hs3 |].
      split; [intros Hx; lia |].
      split; [intros _; split; [exact H3 |] |].
      + intros la lf (Ha & Hf & Hp).
        destruct Hstart as [(Hnone & _) | (Ha0 & Hf0 & Hp0)].
        * rewrite Hnone in Ha. discriminate.
        * assert (la = 160 * k) by congruence.
          assert (lf = k) by congruence. subst la lf. exact H3.
      + exists k. split; [assumption | exact H3].
    - assert (0 < C) as HCpos by lia.
      destruct (trim_holds r2 C _ _ HCpos Hmod H2) as (r3 & E3 & Hs3 & H3).
      apply Z.mod_divide in Hmod; [| lia]. destruct Hmod as [q Hq].
      assert (C / 160 = q) as Hdiv by (rewrite Hq; apply Z.div_mul; lia).
      assert (holds r3 C (C / 160)) as H3'.
      { destruct (160 * k + n <? C) eqn:Elt.
        - rewrite Z.min_l in H3 by lia.
          rewrite Z.min_l in H3 by lia. exact H3.
        - apply Z.ltb_ge in Elt.
          assert (q - k <= n / 160)
            by (apply Z.div_le_lower_bound; lia).
          rewrite Z.min_l in H3 by lia.
          rewrite Z.min_l in H3 by lia. exact H3. }
      exists r3.
      split; [exact E3 |]. split; [exact Hs3 |].
      split; [intros _; exact H3' |].
      split; [intros Hx; lia |].
      exists q. split; [lia |]. rewrite Hdiv in H3'.
      replace (160 * q) with C by lia. exact H3'. }
  pose proof (trim_prevVol _ _ _ _ E3) as Hv3.
  (* the volume *)
  destruct Hok3 as (k3 & Hk3 & Hh3).
  destruct (audio_buffer r3) as [a |] eqn:Ea3;
    [| destruct Hh3 as (Hx & _); rewrite Ea3 in Hx; discriminate].
  destruct (feature_buffer r3) as [ft |] eqn:Ef3;
    [| destruct Hh3 as (_ & Hx & _); rewrite Ef3 in Hx; discriminate].
  pose proof (check_volume_spec r3 a n cf Ea3) as E4. cbv zeta in E4.
  set (vol := Py.max _ _) in E4.
  exists a, ft, o, (with_prevVol vol r3).
  assert (slotInfo r3 = slotInfo r) as Hs by congruence.
  split.
  { unfold generate_input.
    change (Z.of_nat (length nd)) with n. fold nd'. fold C.
    rewrite (bind_ok _ _ _ _ _ E1).
    rewrite bind_gets, Hs1.
    rewrite (bind_lift_ok _ _ _ _ Ho).
    rewrite (bind_ok _ _ _ _ _ E2).
    rewrite (bind_ok _ _ _ _ _ E3).
    rewrite (bind_ok _ _ _ _ _ E4).
    unfold bind, gets, array, ret, with_prevVol. cbn.
    rewrite Ea3. cbn. rewrite Ef3. reflexivity. }
  split; [assumption |].
  split; [exact Ea3 |].
  split; [exact Ef3 |].
  split.
  { cbn. unfold vol. unfold same_prevVol in *.
    replace (prevVol r3) with (prevVol r) by congruence. reflexivity. }
  split; [exact Hs |].
  split.
  { right. exists k3. split; [assumption |]. apply holds_with_prevVol.
    unfold holds. rewrite Ea3, Ef3. destruct Hh3 as (Hx & Hy & Hz).
    rewrite Ea3 in Hx. rewrite Ef3 in Hy. repeat split; assumption. }
  split.
  { intros HCpos. apply holds_with_prevVol. apply Hpos. assumption. }
  intros HC0 la lf Hh. apply holds_with_prevVol. apply Hzero; assumption.
Qed.

(** C3. For every chunk, crossfade length, SOLA search length and
    extra-context length that are not negative (zeros included),
    [generate_input] returns, and the [convertSize] it returns is the sum
    of the chunk length and the three lengths moved up to the next
    multiple of 160: it is [160 * ceil(sum/160)], a multiple of 160, at
    least the sum and less than 160 above it. *)
Theorem convertSize_rounds_up (r : RVCr2) (c : Call) :
  0 <= embChannels (slotInfo r) ->
  buffers_ok r ->
  call_ok (slotInfo r) c ->
  let total := zlen (c_newData c) + c_crossfadeSize c
               + c_solaSearchFrame c + c_extra_frame c in
  exists data r',
    generate_input (c_newData c) (c_crossfadeSize c)
                   (c_solaSearchFrame c) (c_extra_frame c) r = (inr data, r')
    /\ data_convertSize data = 160 * ((total + 159) / 160)
    /\ data_convertSize data mod 160 = 0
    /\ total <= data_convertSize data
    /\ data_convertSize data < total + 160.
Proof.
  intros Hemb Hok Hcall total.
  destruct (generate_input_spec r c Hemb Hok Hcall)
    as (a & ft & o & r' & E & _).
  eexists. exists r'. split; [exact E |].
  cbn [data_convertSize]. unfold c_convertSize.
  apply (convertSize_of_ceiling (zlen (c_newData c)) (c_crossfadeSize c)
           (c_solaSearchFrame c) (c_extra_frame c)).
Qed.

End GenerateInputSpec.

(** A chunk of 100 samples with a crossfade of 61: the sum 161 is moved up
    to 320. And an empty chunk with no margins: the sum 0 stays 0. *)
Lemma convertSize_rounds_up_witness :
  (exists data r',
     generate_input (Sample.silence 100) 61 0 0 (Sample.created Sample.slot 0)
     = (inr data, r')
     /\ data_convertSize data = 160 * ((100 + 61 + 0 + 0 + 159) / 160)
     /\ data_convertSize data = 320)
  /\ (exists data r',
        generate_input [] 0 0 0 (Sample.created Sample.slot 0) = (inr data, r')
        /\ data_convertSize data = 0).
Proof.
  split.
  - destruct (convertSize_rounds_up (Sample.created Sample.slot 0)
                (Sample.call (Sample.silence 100) 61 0 0))
      as (data & r' & E & Hc & _).
    + vm_compute. discriminate.
    + left. reflexivity.
    + split; [vm_compute; discriminate |].
      split; [vm_compute; discriminate |].
      split; [vm_compute; discriminate |].
      eexists. vm_compute. reflexivity.
    + exists data, r'. split; [exact E |]. split; [exact Hc |].
      rewrite Hc. reflexivity.
  - destruct (convertSize_rounds_up (Sample.created Sample.slot 0)
                (Sample.call [] 0 0 0))
      as (data & r' & E & Hc & _).
    + vm_compute. discriminate.
    + left. reflexivity.
    + split; [vm_compute; discriminate |].
      split; [vm_compute; discriminate |].
      split; [vm_compute; discriminate |].
      eexists. vm_compute. reflexivity.
    + exists data, r'. split; [exact E |]. rewrite Hc. reflexivity.
Defined.

(** ** The index alignment of the rolling buffers (C1) *)

Section Alignment.

Context `{CO : Components} `{CL : @Collaborators CO}.

Lemma feed_app (calls1 calls2 : list Call) (r : RVCr2) :
  feed (calls1 ++ calls2) r
  = bind (feed calls1) (fun _ => feed calls2) r.
Proof.
  revert r. induction calls1 as [| c rest IH]; intros r.
  - reflexivity.
  - cbn [feed app]. unfold bind in *.
    destruct (generate_input _ _ _ _ r) as [[e | x] r1].
    + reflexivity.
    + apply IH.
Qed.

(** Any number of calls with non-negative lengths runs to the end and
    leaves the buffers aligned for some window. *)
Lemma feed_buffers_ok (calls : list Call) (r : RVCr2) :
  0 <= embChannels (slotInfo r) ->
  buffers_ok r ->
  Forall (call_ok (slotInfo r)) calls ->
  exists r',
    feed calls r = (inr tt, r')
    /\ slotInfo r' = slotInfo r
    /\ buffers_ok r'.
Proof.
  revert r. induction calls as [| c rest IH]; intros r Hemb Hok Hall.
  - exists r. repeat split; assumption.
  - inversion Hall as [| ? ? Hc Hrest]; subst.
    destruct (generate_input_spec r c Hemb Hok Hc)
      as (a & ft & o & r1 & E & _ & _ & _ & _ & Hs & Hok1 & _).
    rewrite <- Hs in Hemb, Hrest.
    destruct (IH r1 Hemb Hok1 Hrest) as (r' & E' & Hs' & Hok').
    exists r'. split; [| split; [congruence | assumption]].
    cbn [feed]. rewrite (bind_ok _ _ _ _ _ E). exact E'.
Qed.

(** C1, as the code has it. Start from a new instance, or from buffers
    aligned for any window, and make any sequence of calls with chunks of
    any lengths and non-negative crossfade, search and extra-context
    lengths. Every call returns, and after each call whose [convertSize]
    is positive (any call with a non-empty chunk or a non-zero margin) the
    audio buffer holds exactly [convertSize] samples and the feature
    buffer exactly [convertSize / 160] rows, as does the pitch buffer
    when the model uses pitch. *)
Theorem buffers_aligned_after_each_call (r : RVCr2) (calls : list Call) (c : Call) :
  0 <= embChannels (slotInfo r) ->
  buffers_ok r ->
  Forall (call_ok (slotInfo r)) (calls ++ [c]) ->
  0 < c_convertSize c ->
  exists r',
    feed (calls ++ [c]) r = (inr tt, r')
    /\ olen (audio_buffer r') = Some (c_convertSize c)
    /\ olen (feature_buffer r') = Some (c_convertSize c / 160)
    /\ (f0 (slotInfo r) = true ->
        olen (pitchf_buffer r') = Some (c_convertSize c / 160)).
Proof.
  intros Hemb Hok Hall Hpos.
  apply Forall_app in Hall. destruct Hall as [Hcalls Hc].
  inversion Hc as [| ? ? Hc1 _]; subst.
  destruct (feed_buffers_ok calls r Hemb Hok Hcalls) as (r1 & E1 & Hs1 & Hok1).
  rewrite <- Hs1 in Hemb, Hc1.
  destruct (generate_input_spec r1 c Hemb Hok1 Hc1)
    as (a & ft & o & r2 & E2 & _ & _ & _ & _ & Hs2 & _ & Hal & _).
  destruct (Hal Hpos) as (Ha & Hf & Hp).
  exists r2. split; [| split; [exact Ha | split; [exact Hf |]]].
  - rewrite feed_app. rewrite (bind_ok _ _ _ _ _ E1).
    cbn [feed]. rewrite (bind_ok _ _ _ _ _ E2). reflexivity.
  - intros Hf0. apply Hp. congruence.
Qed.

End Alignment.

(** A new instance, a first chunk of 160 samples, then a chunk of 100
    samples with a crossfade of 60. *)
Lemma buffers_aligned_witness :
  exists r',
    feed ([Sample.call (Sample.silence 160) 0 0 0] ++ [Sample.call (Sample.silence 100) 60 0 0])
      (Sample.created Sample.slot 0) = (inr tt, r')
    /\ olen (audio_buffer r') = Some 160
    /\ olen (feature_buffer r') = Some 1
    /\ (true = true -> olen (pitchf_buffer r') = Some 1).
Proof.
  apply (buffers_aligned_after_each_call
           (Sample.created Sample.slot 0)
           [Sample.call (Sample.silence 160) 0 0 0]
           (Sample.call (Sample.silence 100) 60 0 0)).
  - vm_compute. discriminate.
  - left. reflexivity.
  - repeat constructor; try (vm_compute; discriminate);
      eexists; vm_compute; reflexivity.
  - vm_compute. reflexivity.
Defined.

(** The alignment theorem asks for a positive window, and has to. After a
    first chunk of 160 samples the audio buffer holds 160 samples and the
    feature buffer one row; an empty chunk with no crossfade, search or
    extra context then has [convertSize = 0], the slices [buf[-0:]] keep
    everything, and the buffers still hold 160 samples and one row.
    [inference] makes such a call only if the resampler hands back an
    empty chunk. *)
Lemma empty_window_keeps_buffers :
  let calls := [Sample.call (Sample.silence 160) 0 0 0; Sample.call [] 0 0 0] in
  let out := feed calls (Sample.created Sample.slot 0) in
  Forall (call_ok (Sample.slot)) calls
  /\ fst out = inr tt
  /\ c_convertSize (Sample.call [] 0 0 0) = 0
  /\ olen (audio_buffer (snd out)) = Some 160
  /\ olen (feature_buffer (snd out)) = Some 1
  /\ ~ aligned (snd out) (c_convertSize (Sample.call [] 0 0 0)).
Proof.
  cbv zeta. split; [| split; [| split; [| split; [| split]]]].
  - repeat constructor; try (vm_compute; discriminate);
      eexists; vm_compute; reflexivity.
  - vm_compute. reflexivity.
  - vm_compute. reflexivity.
  - vm_compute. reflexivity.
  - vm_compute. reflexivity.
  - intros (Ha & _). vm_compute in Ha. discriminate.
Qed.

(** ** Pipeline assembly *)

Section Assembly.

Context `{CO : Components} `{CL : @Collaborators CO}.

Lemma preserves_emit (R : RVCr2 -> RVCr2 -> Prop) (line : string) :
  (forall r, R r (with_log (log r ++ [line]) r)) -> preserves R (emit line).
Proof. intros H. unfold emit. apply preserves_modify. exact H. Qed.

Lemma loadIndex_session (path : string) : preserves same_session (_loadIndex path).
Proof. unfold _loadIndex, emit. framed. Qed.

Lemma loadIndex_forceTensor (path : string) :
  preserves same_forceTensor (_loadIndex path).
Proof. unfold _loadIndex, emit. framed. Qed.

Lemma loadIndex_log (path : string) : preserves log_grows (_loadIndex path).
Proof. unfold _loadIndex, emit. framed. Qed.

Lemma createPipeline_session (slot : RVCModelSlot) (gpu f0Detector : pyval) :
  preserves same_session (createPipeline slot gpu f0Detector).
Proof.
  unfold createPipeline, emit.
  apply preserves_bind; [exact _ | framed | intros force].
  apply preserves_bind; [exact _ | framed | intros dir].
  destruct (getInferencer _ _ _ _); [framed |].
  destruct (getEmbedder _ _ _); [framed |].
  apply preserves_bind; [exact _ | apply loadIndex_session | intros idx].
  intros r x r' E. unfold new_Pipeline in E. injection E as _ <-.
  unfold same_session. cbn. repeat split.
Qed.

Lemma createPipeline_forceTensor (slot : RVCModelSlot) (gpu f0Detector : pyval) :
  preserves same_forceTensor (createPipeline slot gpu f0Detector).
Proof.
  unfold createPipeline, emit.
  apply preserves_bind; [exact _ | framed | intros force].
  apply preserves_bind; [exact _ | framed | intros dir].
  destruct (getInferencer _ _ _ _); [framed |].
  destruct (getEmbedder _ _ _); [framed |].
  apply preserves_bind; [exact _ | apply loadIndex_forceTensor | intros idx].
  intros r x r' E. unfold new_Pipeline in E. injection E as _ <-.
  reflexivity.
Qed.

Lemma loadIndex_handle (path : string) : preserves same_handle (_loadIndex path).
Proof. unfold _loadIndex, emit. framed. Qed.

(** [_loadIndex] always returns: the index when the file is there and
    faiss reads it, [None] with a printed warning otherwise. *)
Lemma loadIndex_spec (path : string) (r : RVCr2) :
  exists r',
    _loadIndex path r
    = (inr (if index_missing path then None
            else match read_index path with
                 | inr index => Some index
                 | inl _ => None
                 end), r')
    /\ (index_missing path = true -> In index_not_found (log r'))
    /\ (index_missing path = false ->
        (exists e, read_index path = inl e) -> In index_load_failed (log r')).
Proof.
  unfold _loadIndex, index_missing, emit, bind, modify, ret. cbn.
  destruct (negb (path_exists path) || negb (path_isfile path)) eqn:Em.
  - eexists. split; [reflexivity |]. split; [| discriminate].
    intros _. cbn. apply in_or_app. right. left. reflexivity.
  - destruct (read_index path) as [e | index] eqn:Er.
    + eexists. split; [reflexivity |]. split; [discriminate |].
      intros _ _. cbn. apply in_or_app. right. left. reflexivity.
    + eexists. split; [reflexivity |]. split; [discriminate |].
      intros _ [e He]. discriminate.
Qed.

Lemma createPipeline_success (r : RVCr2) (slot : RVCModelSlot)
    (gpu f0Detector : pyval) (inferencer : Inferencer) (emb : Embedder) :
  getInferencer (modelType slot)
    (model_path (model_dir r) (slotIndex slot) (modelFile slot)) gpu (version slot)
    = inr inferencer ->
  getEmbedder (embedder slot) (halfPrecisionAvailable (forceTensor r) gpu)
    (getDevice (forceTensor r) gpu) = inr emb ->
  exists r',
    createPipeline slot gpu f0Detector r = (inr (length (store r)), r')
    /\ store r' = store r ++ [assembled r slot gpu f0Detector inferencer emb]
    /\ pipeline r' = pipeline r
    /\ settings r' = settings r
    /\ log_grows r r'
    /\ (index_missing (model_path (model_dir r) (slotIndex slot) (indexFile slot)) = true ->
        In index_not_found (log r'))
    /\ (index_missing (model_path (model_dir r) (slotIndex slot) (indexFile slot)) = false ->
        (exists e, read_index (model_path (model_dir r) (slotIndex slot) (indexFile slot))
                   = inl e) ->
        In index_load_failed (log r')).
Proof.
  intros Hinf Hemb.
  unfold createPipeline. rewrite !bind_gets. rewrite Hinf, Hemb.
  set (path := model_path (model_dir r) (slotIndex slot) (indexFile slot)).
  destruct (loadIndex_spec path r) as (r1 & E1 & Hmiss & Hfail).
  pose proof (loadIndex_handle path _ _ _ E1) as (Hp1 & Hst1 & Hset1).
  pose proof (loadIndex_log path _ _ _ E1) as Hlog1.
  rewrite (bind_ok _ _ _ _ _ E1).
  unfold new_Pipeline. rewrite Hst1.
  eexists. split; [reflexivity |]. cbn.
  split; [reflexivity |]. split; [assumption |]. split; [assumption |].
  split; [exact Hlog1 |]. split; assumption.
Qed.

Lemma createPipeline_failure (r : RVCr2) (slot : RVCModelSlot) (gpu f0Detector : pyval) :
  (exists e, getInferencer (modelType slot)
               (model_path (model_dir r) (slotIndex slot) (modelFile slot)) gpu
               (version slot) = inl e)
  \/ (exists e, getEmbedder (embedder slot)
                  (halfPrecisionAvailable (forceTensor r) gpu)
                  (getDevice (forceTensor r) gpu) = inl e) ->
  exists msg detail,
    createPipeline slot gpu f0Detector r
    = (inl (PipelineCreateException msg),
       with_log (log r ++ [(msg ++ " " ++ detail)%string]) r)
    /\ (msg = inferencer_failed \/ msg = embedder_failed).
Proof.
  intros Hfail. unfold createPipeline. rewrite !bind_gets.
  destruct (getInferencer _ _ _ _) as [e1 | inferencer] eqn:Einf.
  - exists inferencer_failed, (str_of_exception e1).
    split; [reflexivity | left; reflexivity].
  - destruct Hfail as [[e He] | [e He]]; [discriminate |].
    rewrite He.
    exists embedder_failed,
      (str_of_exception e ++ " "
       ++ str_of_device (getDevice (forceTensor r) gpu))%string.
    split; [reflexivity | right; reflexivity].
Qed.

End Assembly.

(** ** The error contract of pipeline assembly (C7) *)

Section AssemblyContract.

Context `{CO : Components} `{CL : @Collaborators CO}.

(** C7. [createPipeline] raises [PipelineCreateException] when loading
    the inferencer fails and when loading the embedder fails. When both
    load, a similarity-index file that is missing, or that faiss cannot
    read, is not an error: the new handle is returned with [None] for its
    index and a warning is printed. *)
Theorem createPipeline_error_contract (r : RVCr2) (slot : RVCModelSlot)
    (gpu f0Detector : pyval) :
  let inferencer_result :=
    getInferencer (modelType slot)
      (model_path (model_dir r) (slotIndex slot) (modelFile slot)) gpu (version slot) in
  let embedder_result :=
    getEmbedder (embedder slot) (halfPrecisionAvailable (forceTensor r) gpu)
      (getDevice (forceTensor r) gpu) in
  let indexPath := model_path (model_dir r) (slotIndex slot) (indexFile slot) in
  (forall e, inferencer_result = inl e ->
     exists msg r',
       createPipeline slot gpu f0Detector r = (inl (PipelineCreateException msg), r')
       /\ same_handle r r')
  /\ (forall e, embedder_result = inl e ->
     exists msg r',
       createPipeline slot gpu f0Detector r = (inl (PipelineCreateException msg), r')
       /\ same_handle r r')
  /\ (forall inferencer emb,
        inferencer_result = inr inferencer -> embedder_result = inr emb ->
        index_missing indexPath = true \/ (exists e, read_index indexPath = inl e) ->
        exists a p r',
          createPipeline slot gpu f0Detector r = (inr a, r')
          /\ nth_error (store r') a = Some p
          /\ p_index p = None
          /\ (In index_not_found (log r') \/ In index_load_failed (log r'))).
Proof.
  cbv zeta. split; [| split].
  - intros e He.
    destruct (createPipeline_failure r slot gpu f0Detector) as (msg & detail & E & _).
    { left. exists e. exact He. }
    exists msg. eexists. split; [exact E |]. unfold same_handle. cbn. repeat split.
  - intros e He.
    destruct (createPipeline_failure r slot gpu f0Detector) as (msg & detail & E & _).
    { right. exists e. exact He. }
    exists msg. eexists. split; [exact E |]. unfold same_handle. cbn. repeat split.
  - intros inferencer emb Hinf Hemb Hindex.
    destruct (createPipeline_success r slot gpu f0Detector inferencer emb Hinf Hemb)
      as (r' & E & Hst & _ & _ & _ & Hmiss & Hfail).
    exists (length (store r)), (assembled r slot gpu f0Detector inferencer emb), r'.
    split; [exact E |]. split.
    { rewrite Hst. rewrite nth_error_app2 by lia.
      rewrite Nat.sub_diag. reflexivity. }
    unfold assembled. cbn.
    destruct (index_missing _) eqn:Em.
    + split; [reflexivity |]. left. apply Hmiss. reflexivity.
    + destruct Hindex as [Hx | [e He]]; [discriminate |].
      rewrite He. split; [reflexivity |]. right. apply Hfail; [reflexivity |].
      exists e. exact He.
Qed.

End AssemblyContract.

(** The three cases on the sample environment: the inferencer does not
    load; the embedder does not load; both load and there is no index
    file. *)
Lemma createPipeline_error_contract_witness :
  (exists msg r',
     createPipeline (CL := Sample.collaborators false true true true (inl ValueError))
       Sample.slot (PInt 0) (PStr "rmvpe") (Sample.created Sample.slot 0)
     = (inl (PipelineCreateException msg), r')
     /\ same_handle (Sample.created Sample.slot 0) r')
  /\ (exists msg r',
     createPipeline (CL := Sample.collaborators true false true true (inl ValueError))
       Sample.slot (PInt 0) (PStr "rmvpe") (Sample.created Sample.slot 0)
     = (inl (PipelineCreateException msg), r')
     /\ same_handle (Sample.created Sample.slot 0) r')
  /\ (exists a p r',
     createPipeline (CL := Sample.collaborators true true false true (inl ValueError))
       Sample.slot (PInt 0) (PStr "rmvpe") (Sample.created Sample.slot 0)
     = (inr a, r')
     /\ nth_error (store r') a = Some p
     /\ p_index p = None
     /\ (In index_not_found (log r') \/ In index_load_failed (log r'))).
Proof.
  split; [| split].
  - apply (proj1 (createPipeline_error_contract
             (CL := Sample.collaborators false true true true (inl ValueError))
             (Sample.created Sample.slot 0) Sample.slot (PInt 0) (PStr "rmvpe"))
             (OtherException "RuntimeError")).
    reflexivity.
  - apply (proj1 (proj2 (createPipeline_error_contract
             (CL := Sample.collaborators true false true true (inl ValueError))
             (Sample.created Sample.slot 0) Sample.slot (PInt 0) (PStr "rmvpe")))
             (OtherException "RuntimeError")).
    reflexivity.
  - apply (proj2 (proj2 (createPipeline_error_contract
             (CL := Sample.collaborators true true false true (inl ValueError))
             (Sample.created Sample.slot 0) Sample.slot (PInt 0) (PStr "rmvpe")))
             "model_dir/model.pth" "hubert_base").
    + reflexivity.
    + reflexivity.
    + left. reflexivity.
Defined.

(** ** [initialize] *)

Section Initialize.

Context `{CO : Components} `{CL : @Collaborators CO}.

Lemma initialize_session : preserves same_session initialize.
Proof.
  unfold initialize, emit.
  apply preserves_bind; [exact _ | framed | intros ?].
  apply preserves_bind; [exact _ | framed | intros slot].
  apply preserves_bind; [exact _ | framed | intros s].
  apply preserves_bind; [exact _ | | intros created].
  - apply preserves_attempt; try exact _.
    apply preserves_bind; [exact _ | apply createPipeline_session | intros p].
    framed.
  - destruct created as [e | ?]; [destruct e |]; framed.
Qed.

Lemma initialize_forceTensor : preserves same_forceTensor initialize.
Proof.
  unfold initialize, emit.
  apply preserves_bind; [exact _ | framed | intros ?].
  apply preserves_bind; [exact _ | framed | intros slot].
  apply preserves_bind; [exact _ | framed | intros s].
  apply preserves_bind; [exact _ | | intros created].
  - apply preserves_attempt; try exact _.
    apply preserves_bind; [exact _ | apply createPipeline_forceTensor | intros p].
    framed.
  - destruct created as [e | ?]; [destruct e |]; framed.
Qed.

(** When the inferencer and the embedder load, [initialize] puts a new
    handle at a new address and resets the three settings. *)
Lemma initialize_success (r : RVCr2) (inferencer : Inferencer) (emb : Embedder) :
  let gpu := settings r "gpu" in
  getInferencer (modelType (slotInfo r))
    (model_path (model_dir r) (slotIndex (slotInfo r)) (modelFile (slotInfo r)))
    gpu (version (slotInfo r)) = inr inferencer ->
  getEmbedder (embedder (slotInfo r)) (halfPrecisionAvailable (forceTensor r) gpu)
    (getDevice (forceTensor r) gpu) = inr emb ->
  exists r',
    initialize r = (inr tt, r')
    /\ pipeline r' = Some (length (store r))
    /\ store r'
       = store r ++ [assembled r (slotInfo r) gpu (settings r "f0Detector") inferencer emb]
    /\ settings r' = reset_to_defaults (settings r) (slotInfo r).
Proof.
  intros gpu Hinf Hemb. unfold initialize.
  set (r0 := with_log (log r ++ ["[Voice Changer][RVCr2] Initializing... "]) r).
  destruct (createPipeline_success r0 (slotInfo r) gpu (settings r "f0Detector")
              inferencer emb Hinf Hemb)
    as (r1 & E1 & Hst1 & Hp1 & Hset1 & _).
  unfold emit at 1. rewrite bind_modify. fold r0.
  rewrite !bind_gets.
  change (slotInfo r0) with (slotInfo r). change (settings r0) with (settings r).
  fold gpu.
  unfold attempt, bind. rewrite E1.
  unfold emit, bind, modify, ret. cbn.
  eexists. split; [reflexivity |]. cbn.
  split; [reflexivity |]. split; [exact Hst1 |].
  rewrite Hset1. reflexivity.
Qed.

(** When one of them does not load, the failure is logged and nothing
    else changes: the instance keeps the handle it had. *)
Lemma initialize_failure (r : RVCr2) :
  let gpu := settings r "gpu" in
  (exists e, getInferencer (modelType (slotInfo r))
               (model_path (model_dir r) (slotIndex (slotInfo r)) (modelFile (slotInfo r)))
               gpu (version (slotInfo r)) = inl e)
  \/ (exists e, getEmbedder (embedder (slotInfo r))
                  (halfPrecisionAvailable (forceTensor r) gpu)
                  (getDevice (forceTensor r) gpu) = inl e) ->
  exists r',
    initialize r = (inr tt, r')
    /\ same_handle r r'
    /\ In create_failed (log r').
Proof.
  intros gpu Hfail. unfold initialize.
  set (r0 := with_log (log r ++ ["[Voice Changer][RVCr2] Initializing... "]) r).
  destruct (createPipeline_failure r0 (slotInfo r) gpu (settings r "f0Detector") Hfail)
    as (msg & detail & E1 & _).
  unfold emit at 1. rewrite bind_modify. fold r0.
  rewrite !bind_gets.
  change (slotInfo r0) with (slotInfo r). change (settings r0) with (settings r).
  fold gpu.
  unfold attempt, bind. rewrite E1.
  unfold emit, bind, modify, ret. cbn.
  eexists. split; [reflexivity |]. cbn.
  split; [unfold same_handle; cbn; repeat split |].
  apply in_or_app. right. left. reflexivity.
Qed.

(** [initialize] never raises. *)
Lemma initialize_returns (r : RVCr2) : exists r', initialize r = (inr tt, r').
Proof.
  destruct (getInferencer (modelType (slotInfo r))
              (model_path (model_dir r) (slotIndex (slotInfo r)) (modelFile (slotInfo r)))
              (settings r "gpu") (version (slotInfo r))) as [e | inferencer] eqn:Einf.
  - destruct (initialize_failure r) as (r' & E & _).
    { left. exists e. exact Einf. }
    exists r'. exact E.
  - destruct (getEmbedder (embedder (slotInfo r))
                (halfPrecisionAvailable (forceTensor r) (settings r "gpu"))
                (getDevice (forceTensor r) (settings r "gpu"))) as [e | emb] eqn:Eemb.
    + destruct (initialize_failure r) as (r' & E & _).
      { right. exists e. exact Eemb. }
      exists r'. exact E.
    + destruct (initialize_success r inferencer emb Einf Eemb) as (r' & E & _).
      exists r'. exact E.
Qed.

End Initialize.

(** ** [inference] past the silence gate *)

Section InferenceCases.

Context `{CO : Components} `{CL : @Collaborators CO}.

(** Up to the gate, [inference] is [generate_input] on the resampled
    chunk and the rescaled lengths. *)
Lemma inference_at_gate (r r1 : RVCr2) (receivedData : list float)
    (cf sola : Z) (addr : nat) (inRate : Z) (data : InputData) :
  at_gate r receivedData cf sola addr inRate data r1 ->
  frame r r1
  /\ inference receivedData cf sola r
     = (let '(audio, pitchf, feature, convertSize, vol, outSize) := data in
        silent <- lift (Setting.lt vol (settings r "silentThreshold")) ;;
        if (silent : bool) then
          z <- lift (np.zeros convertSize) ;;
          ret (Some (np.scale z (np.sqrt vol)))
        else
          match nth_error (store r) addr with
          | None => raise AttributeError
          | Some pipe =>
              outcome <- attempt (
                seconds <- lift (extra_seconds r inRate) ;;
                out <- lift (exec pipe (exec_args r data seconds)) ;;
                let '(audio_out, pitchf', feature') := out in
                modify (with_pitchf_buffer pitchf') ;;
                modify (with_feature_buffer (Some feature')) ;;
                let result :=
                  np.scale (Py.slice audio_out (Some (- outSize)) None) (np.sqrt vol) in
                outRate <- (o <- gets outputSampleRate ;; rate o) ;;
                ret (resample result (samplingRate (slotInfo r)) outRate)) ;;
              match outcome with
              | inr result => ret (Some result)
              | inl DeviceCannotSupportHalfPrecisionException =>
                  emit half_precision_warning ;;
                  modify (with_forceTensor true) ;;
                  initialize ;;
                  ret None
              | inl e => raise e
              end
          end) r1.
Proof.
  intros (Hp & Hr & cf16 & sola16 & extra16 & Hcf & Hsola & Hextra & Hgen).
  pose proof (preserves_generate_input _ _ _ _ _ _ _ Hgen) as Hframe.
  split; [exact Hframe |].
  destruct Hframe as (_ & Hset & _ & Hslot & _ & Hst & _).
  unfold inference. rewrite bind_gets, Hp.
  unfold bind at 1. rewrite bind_gets, Hr. cbn [rate ret].
  rewrite (bind_lift_ok _ _ _ _ Hcf).
  rewrite (bind_lift_ok _ _ _ _ Hsola).
  rewrite bind_gets.
  rewrite (bind_lift_ok _ _ _ _ Hextra).
  rewrite (bind_ok _ _ _ _ _ Hgen).
  destruct data as [[[[[audio pitchf] feature] convertSize] vol] outSize].
  destruct (Setting.lt vol (settings r "silentThreshold"))
    as [e | silent]; [reflexivity |].
  rewrite !(bind_lift_ok (inr silent) _ _ silent eq_refl).
  destruct silent; [reflexivity |].
  rewrite bind_gets, Hst.
  destruct (nth_error (store r) addr) as [pipe |]; [| reflexivity].
  rewrite bind_gets, Hslot.
  reflexivity.
Qed.

End InferenceCases.

Section InferenceOutcomes.

Context `{CO : Components} `{CL : @Collaborators CO}.

Lemma bind_inr_inv {A B : Type} (m : M A) (k : A -> M B) (r r' : RVCr2) (b : B) :
  bind m k r = (inr b, r') ->
  exists a r1, m r = (inr a, r1) /\ k a r1 = (inr b, r').
Proof.
  unfold bind. destruct (m r) as [[e | a] r1]; intros E.
  - discriminate.
  - exists a, r1. split; [reflexivity | exact E].
Qed.

(** What [generate_input] returns is what it left in the buffers. *)
Lemma generate_input_returns_buffers (r r1 : RVCr2) (newData : list float)
    (cf sola extra : Z) (data : InputData) :
  generate_input newData cf sola extra r = (inr data, r1) ->
  let '(audio, pitchf, feature, convertSize, vol, outSize) := data in
  audio_buffer r1 = Some audio
  /\ pitchf_buffer r1 = pitchf
  /\ feature_buffer r1 = Some feature
  /\ prevVol r1 = vol
  /\ convertSize = convertSize_of (zlen newData) cf sola extra.
Proof.
  unfold generate_input. intros E.
  apply bind_inr_inv in E. destruct E as (? & ra & _ & E).
  apply bind_inr_inv in E. destruct E as (slot & rb & _ & E).
  apply bind_inr_inv in E. destruct E as (o & rc & _ & E).
  apply bind_inr_inv in E. destruct E as (? & rd & _ & E).
  apply bind_inr_inv in E. destruct E as (? & re & _ & E).
  apply bind_inr_inv in E. destruct E as (vol & rf & Evol & E).
  (* the volume is the one just stored *)
  assert (prevVol rf = vol) as Hvol.
  { unfold check_volume in Evol.
    apply bind_inr_inv in Evol. destruct Evol as (a0 & rg & Ea0 & Evol).
    apply bind_inr_inv in Evol. destruct Evol as (pv & rh & Epv & Evol).
    apply bind_inr_inv in Evol. destruct Evol as (? & ri & Emod & Evol).
    unfold gets in Epv. injection Epv as <- <-.
    unfold modify in Emod. injection Emod as _ <-.
    unfold ret in Evol. injection Evol as <- <-. reflexivity. }
  unfold bind, gets, array, ret, raise in E.
  destruct (audio_buffer rf) as [a |] eqn:Ea; [| discriminate].
  destruct (feature_buffer rf) as [ft |] eqn:Ef; [| discriminate].
  injection E as <- <-.
  repeat split; assumption || reflexivity.
Qed.

(** Below the threshold: [convertSize] zeros times [sqrt(vol)], and the
    state is the one [generate_input] left. *)
Lemma inference_silent (r r1 : RVCr2) (receivedData : list float)
    (cf sola : Z) (addr : nat) (inRate : Z) (data : InputData) :
  at_gate r receivedData cf sola addr inRate data r1 ->
  Setting.lt (data_vol data) (settings r "silentThreshold") = inr true ->
  0 <= data_convertSize data ->
  inference receivedData cf sola r
  = (inr (Some (np.scale (repeat 0%float (Z.to_nat (data_convertSize data)))
                         (np.sqrt (data_vol data)))), r1).
Proof.
  intros Hgate Hsilent Hc.
  destruct (inference_at_gate _ _ _ _ _ _ _ _ Hgate) as (_ & ->).
  destruct data as [[[[[audio pitchf] feature] convertSize] vol] outSize].
  cbn [data_vol data_convertSize] in *.
  rewrite (bind_lift_ok _ _ _ _ Hsilent).
  rewrite (bind_lift_ok _ _ _ _ (zeros_ok _ Hc)). reflexivity.
Qed.

(** [exec] raises the precision-unsupported condition: the warning is
    logged, the flag is set, and [initialize] runs on the state that
    [generate_input] left. *)
Lemma inference_half_precision (r r1 : RVCr2) (receivedData : list float)
    (cf sola : Z) (addr : nat) (inRate : Z) (data : InputData)
    (pipe : Pipeline) (seconds : float) :
  at_gate r receivedData cf sola addr inRate data r1 ->
  Setting.lt (data_vol data) (settings r "silentThreshold") = inr false ->
  nth_error (store r) addr = Some pipe ->
  extra_seconds r inRate = inr seconds ->
  exec pipe (exec_args r data seconds) = inl DeviceCannotSupportHalfPrecisionException ->
  inference receivedData cf sola r
  = bind initialize (fun _ => ret None)
      (with_forceTensor true (with_log (log r1 ++ [half_precision_warning]) r1)).
Proof.
  intros Hgate Hgt Hpipe Hsec Hexec.
  destruct (inference_at_gate _ _ _ _ _ _ _ _ Hgate) as (_ & ->).
  destruct data as [[[[[audio pitchf] feature] convertSize] vol] outSize].
  cbn [data_vol] in *.
  rewrite (bind_lift_ok _ _ _ _ Hgt). rewrite Hpipe.
  unfold attempt, bind at 1.
  rewrite (bind_lift_ok _ _ _ _ Hsec).
  unfold bind at 1, lift at 1. rewrite Hexec.
  reflexivity.
Qed.

(** [exec] returns: its pitch and feature tails replace the buffers and
    the last [outSize] samples, scaled and resampled, are the chunk. *)
Lemma inference_converted (r r1 : RVCr2) (receivedData : list float)
    (cf sola : Z) (addr : nat) (inRate outRate : Z) (data : InputData)
    (pipe : Pipeline) (seconds : float) (audio_out : list float)
    (pitchf' : option (list float)) (feature' : list (list float)) :
  at_gate r receivedData cf sola addr inRate data r1 ->
  Setting.lt (data_vol data) (settings r "silentThreshold") = inr false ->
  nth_error (store r) addr = Some pipe ->
  extra_seconds r inRate = inr seconds ->
  outputSampleRate r = Some outRate ->
  exec pipe (exec_args r data seconds) = inr (audio_out, pitchf', feature') ->
  inference receivedData cf sola r
  = (inr (Some (resample
                  (np.scale (Py.slice audio_out (Some (- data_outSize data)) None)
                            (np.sqrt (data_vol data)))
                  (samplingRate (slotInfo r)) outRate)),
     with_feature_buffer (Some feature') (with_pitchf_buffer pitchf' r1)).
Proof.
  intros Hgate Hgt Hpipe Hsec Hout Hexec.
  destruct (inference_at_gate _ _ _ _ _ _ _ _ Hgate) as (Hframe & ->).
  destruct Hframe as (_ & _ & _ & _ & _ & _ & _ & Hout1 & _).
  destruct data as [[[[[audio pitchf] feature] convertSize] vol] outSize].
  cbn [data_vol data_outSize] in *.
  rewrite (bind_lift_ok _ _ _ _ Hgt). rewrite Hpipe.
  unfold attempt, bind at 1.
  rewrite (bind_lift_ok _ _ _ _ Hsec).
  rewrite (bind_lift_ok _ _ _ _ Hexec).
  rewrite !bind_modify. unfold bind at 1. rewrite bind_gets.
  cbn [outputSampleRate with_feature_buffer with_pitchf_buffer].
  rewrite Hout1, Hout. reflexivity.
Qed.

End InferenceOutcomes.

(** ** Precision fallback (C6, C10) *)

Section PrecisionFallback.

Context `{CO : Components} `{CL : @Collaborators CO}.

Lemma setattr_other (s : string -> pyval) (key k : string) (v : pyval) :
  k <> key -> setattr s key v k = s k.
Proof.
  intros Hk. unfold setattr.
  destruct (String.eqb_spec k key); [contradiction | reflexivity].
Qed.

Lemma setattr_same (s : string -> pyval) (key : string) (v : pyval) :
  setattr s key v key = v.
Proof. unfold setattr. rewrite String.eqb_refl. reflexivity. Qed.

(** The recovery path: no chunk, no exception, and the final state is
    the one [initialize] reaches from the state [generate_input] left,
    with the warning logged and the flag set. *)
Lemma fallback_outcome (r r1 : RVCr2) (receivedData : list float)
    (cf sola : Z) (addr : nat) (inRate : Z) (data : InputData)
    (pipe : Pipeline) (seconds : float) :
  at_gate r receivedData cf sola addr inRate data r1 ->
  Setting.lt (data_vol data) (settings r "silentThreshold") = inr false ->
  nth_error (store r) addr = Some pipe ->
  extra_seconds r inRate = inr seconds ->
  exec pipe (exec_args r data seconds) = inl DeviceCannotSupportHalfPrecisionException ->
  exists r2,
    inference receivedData cf sola r = (inr None, r2)
    /\ initialize
         (with_forceTensor true (with_log (log r1 ++ [half_precision_warning]) r1))
       = (inr tt, r2)
    /\ frame r r1.
Proof.
  intros Hgate Hgt Hpipe Hsec Hexec.
  rewrite (inference_half_precision _ _ _ _ _ _ _ _ _ _ Hgate Hgt Hpipe Hsec Hexec).
  destruct (inference_at_gate _ _ _ _ _ _ _ _ Hgate) as (Hframe & _).
  destruct (initialize_returns
              (with_forceTensor true (with_log (log r1 ++ [half_precision_warning]) r1)))
    as (r2 & E2).
  exists r2. rewrite (bind_ok _ _ _ _ _ E2).
  split; [reflexivity |]. split; assumption.
Qed.

(** C6, as the code has it. When [exec] raises the precision-unsupported
    condition, [inference] returns no chunk and raises nothing, and the
    device manager is left forced to full precision. [initialize] then
    tries to assemble a pipeline. When the inferencer and the embedder
    load, the instance holds a new handle at a new address, built for
    the device and the precision the manager reports under the forced
    flag, and the old handle object is untouched. When one of them does
    not load, the failure is logged and the instance keeps the handle it
    had. *)
Theorem precision_fallback_recovery (r r1 : RVCr2) (receivedData : list float)
    (cf sola : Z) (addr : nat) (inRate : Z) (data : InputData)
    (pipe : Pipeline) (seconds : float) :
  at_gate r receivedData cf sola addr inRate data r1 ->
  Setting.lt (data_vol data) (settings r "silentThreshold") = inr false ->
  nth_error (store r) addr = Some pipe ->
  extra_seconds r inRate = inr seconds ->
  exec pipe (exec_args r data seconds) = inl DeviceCannotSupportHalfPrecisionException ->
  let gpu := settings r "gpu" in
  let inferencer_result :=
    getInferencer (modelType (slotInfo r))
      (model_path (model_dir r) (slotIndex (slotInfo r)) (modelFile (slotInfo r)))
      gpu (version (slotInfo r)) in
  let embedder_result :=
    getEmbedder (embedder (slotInfo r)) (halfPrecisionAvailable true gpu)
      (getDevice true gpu) in
  exists r2,
    inference receivedData cf sola r = (inr None, r2)
    /\ forceTensor r2 = true
    /\ (forall inferencer emb,
          inferencer_result = inr inferencer -> embedder_result = inr emb ->
          exists p,
            pipeline r2 = Some (length (store r))
            /\ store r2 = store r ++ [p]
            /\ nth_error (store r2) addr = Some pipe
            /\ p_inferencer p = inferencer
            /\ p_embedder p = emb
            /\ p_device p = getDevice true gpu
            /\ p_isHalf p = halfPrecisionAvailable true gpu)
    /\ ((exists e, inferencer_result = inl e) \/ (exists e, embedder_result = inl e) ->
        pipeline r2 = Some addr /\ store r2 = store r /\ In create_failed (log r2)).
Proof.
  intros Hgate Hgt Hpipe Hsec Hexec gpu inferencer_result embedder_result.
  destruct (fallback_outcome _ _ _ _ _ _ _ _ _ _ Hgate Hgt Hpipe Hsec Hexec)
    as (r2 & Einf & Einit & Hframe).
  destruct Hframe as (_ & Hset & Hdir & Hslot & Hp & Hst & _).
  set (r1' := with_forceTensor true
                (with_log (log r1 ++ [half_precision_warning]) r1)) in *.
  exists r2. split; [exact Einf |]. split.
  { pose proof (initialize_forceTensor _ _ _ Einit) as Hf. exact Hf. }
  split.
  - intros inferencer emb Hi He.
    destruct (initialize_success r1' inferencer emb) as (r2' & E' & Hp' & Hst' & _).
    { cbn. rewrite Hset, Hdir, Hslot. exact Hi. }
    { cbn. rewrite Hset, Hslot. exact He. }
    rewrite Einit in E'. injection E' as <-.
    eexists. split; [| split; [| split]].
    + rewrite Hp'. cbn. rewrite Hst. reflexivity.
    + rewrite Hst'. cbn. rewrite Hst. reflexivity.
    + rewrite Hst'. cbn. rewrite Hst.
      rewrite nth_error_app1; [exact Hpipe |].
      apply nth_error_Some. rewrite Hpipe. discriminate.
    + cbn. rewrite Hset. repeat split.
  - intros Hfail.
    destruct (initialize_failure r1') as (r2' & E' & (Hp' & Hst' & _) & Hlog).
    { cbn. rewrite Hset, Hdir, Hslot. exact Hfail. }
    rewrite Einit in E'. injection E' as <-.
    split; [| split].
    + destruct Hgate as (Hpa & _). rewrite Hp'. cbn. congruence.
    + rewrite Hst'. cbn. exact Hst.
    + exact Hlog.
Qed.

(** C10, as the code has it. When [exec] raises the precision-unsupported
    condition nothing of its result is committed: the audio, pitch and
    feature buffers and [prevVol] are exactly what [generate_input]
    returned for the call, and the sampling rates are the caller's.
    Besides the precision flag and the handle, the recovery path changes
    the settings: a reassembly that succeeds writes the slot defaults over
    [tran], [indexRatio] and [protect]; every other setting keeps its
    value, and a reassembly that fails changes no setting. *)
Theorem failed_inference_commits_nothing (r r1 : RVCr2) (receivedData : list float)
    (cf sola : Z) (addr : nat) (inRate : Z) (data : InputData)
    (pipe : Pipeline) (seconds : float) :
  at_gate r receivedData cf sola addr inRate data r1 ->
  Setting.lt (data_vol data) (settings r "silentThreshold") = inr false ->
  nth_error (store r) addr = Some pipe ->
  extra_seconds r inRate = inr seconds ->
  exec pipe (exec_args r data seconds) = inl DeviceCannotSupportHalfPrecisionException ->
  let gpu := settings r "gpu" in
  let inferencer_result :=
    getInferencer (modelType (slotInfo r))
      (model_path (model_dir r) (slotIndex (slotInfo r)) (modelFile (slotInfo r)))
      gpu (version (slotInfo r)) in
  let embedder_result :=
    getEmbedder (embedder (slotInfo r)) (halfPrecisionAvailable true gpu)
      (getDevice true gpu) in
  exists r2,
    inference receivedData cf sola r = (inr None, r2)
    /\ audio_buffer r2 = Some (data_audio data)
    /\ pitchf_buffer r2 = data_pitchf data
    /\ feature_buffer r2 = Some (data_feature data)
    /\ prevVol r2 = data_vol data
    /\ inputSampleRate r2 = inputSampleRate r
    /\ outputSampleRate r2 = outputSampleRate r
    /\ forceTensor r2 = true
    /\ (forall key, key <> "tran" -> key <> "indexRatio" -> key <> "protect" ->
        settings r2 key = settings r key)
    /\ (forall inferencer emb,
          inferencer_result = inr inferencer -> embedder_result = inr emb ->
          settings r2 = reset_to_defaults (settings r) (slotInfo r))
    /\ ((exists e, inferencer_result = inl e) \/ (exists e, embedder_result = inl e) ->
        settings r2 = settings r).
Proof.
  intros Hgate Hgt Hpipe Hsec Hexec gpu inferencer_result embedder_result.
  destruct (fallback_outcome _ _ _ _ _ _ _ _ _ _ Hgate Hgt Hpipe Hsec Hexec)
    as (r2 & Einf & Einit & Hframe).
  destruct Hgate as (_ & _ & cf16 & sola16 & extra16 & _ & _ & _ & Hgen).
  pose proof (generate_input_returns_buffers _ _ _ _ _ _ _ Hgen) as Hbuf.
  destruct data as [[[[[audio pitchf] feature] convertSize] vol] outSize].
  destruct Hbuf as (Ha & Hpb & Hfb & Hv & _).
  cbn [data_audio data_pitchf data_feature data_vol] in *.
  destruct Hframe as (_ & Hset & Hdir & Hslot & Hp & Hst & Hin & Hout & _).
  set (r1' := with_forceTensor true
                (with_log (log r1 ++ [half_precision_warning]) r1)) in *.
  pose proof (initialize_session _ _ _ Einit)
    as (Ha2 & Hpb2 & Hfb2 & Hv2 & Hin2 & Hout2 & _).
  pose proof (initialize_forceTensor _ _ _ Einit) as Hforce.
  assert ((forall inferencer emb,
             inferencer_result = inr inferencer -> embedder_result = inr emb ->
             settings r2 = reset_to_defaults (settings r) (slotInfo r))
          /\ ((exists e, inferencer_result = inl e)
              \/ (exists e, embedder_result = inl e) ->
              settings r2 = settings r)) as (Hsucc & Hfail).
  { split.
    - intros inferencer emb Hi He.
      destruct (initialize_success r1' inferencer emb) as (r2' & E' & _ & _ & Hs').
      { cbn. rewrite Hset, Hdir, Hslot. exact Hi. }
      { cbn. rewrite Hset, Hslot. exact He. }
      rewrite Einit in E'. injection E' as <-.
      rewrite Hs'. cbn. rewrite Hset, Hslot. reflexivity.
    - intros Hf.
      destruct (initialize_failure r1') as (r2' & E' & (_ & _ & Hs') & _).
      { cbn. rewrite Hset, Hdir, Hslot. exact Hf. }
      rewrite Einit in E'. injection E' as <-.
      rewrite Hs'. cbn. exact Hset. }
  exists r2. split; [exact Einf |].
  split; [rewrite Ha2; exact Ha |].
  split; [rewrite Hpb2; exact Hpb |].
  split; [rewrite Hfb2; exact Hfb |].
  split; [rewrite Hv2; exact Hv |].
  split; [rewrite Hin2; exact Hin |].
  split; [rewrite Hout2; exact Hout |].
  split; [exact Hforce |].
  split; [| split; assumption].
  intros key H1 H2 H3.
  destruct inferencer_result as [e | inferencer] eqn:Ei.
  - rewrite Hfail; [reflexivity |]. left. exists e. reflexivity.
  - destruct embedder_result as [e | emb] eqn:Ee.
    + rewrite Hfail; [reflexivity |]. right. exists e. reflexivity.
    + rewrite (Hsucc inferencer emb eq_refl eq_refl).
      unfold reset_to_defaults. rewrite !setattr_other by assumption.
      reflexivity.
Qed.

End PrecisionFallback.

(** A loud chunk of 320 samples through an instance whose handle was built
    at half precision, with [exec] raising the precision-unsupported
    condition: once with every resource loading, once with an inferencer
    that no longer loads. *)
Lemma precision_fallback_recovery_witness :
  let loads := Sample.collaborators true true true true
                 (inl DeviceCannotSupportHalfPrecisionException) in
  let fails := Sample.collaborators false true true true
                 (inl DeviceCannotSupportHalfPrecisionException) in
  (exists r2,
     inference (CL := loads) (Sample.loud 320) 160 0 (Sample.ready Sample.slot 0)
     = (inr None, r2)
     /\ forceTensor r2 = true
     /\ pipeline r2 = Some 1%nat)
  /\ (exists r2,
     inference (CL := fails) (Sample.loud 320) 160 0 (Sample.ready Sample.slot 0)
     = (inr None, r2)
     /\ forceTensor r2 = true
     /\ pipeline r2 = Some 0%nat).
Proof.
  intros loads fails. split.
  - destruct (precision_fallback_recovery (CL := loads)
                (Sample.ready Sample.slot 0) (snd (Sample.gate_run (Sample.loud 320) 0))
                (Sample.loud 320) 160 0 0%nat 16000
                (Sample.gate_data (Sample.loud 320) 0) Sample.handle 0%float)
      as (r2 & E & Hforce & Hok & _).
    + split; [reflexivity |]. split; [reflexivity |].
      exists 160, 0, 0.
      split; [vm_compute; reflexivity |]. split; [vm_compute; reflexivity |].
      split; vm_compute; reflexivity.
    + vm_compute. reflexivity.
    + reflexivity.
    + vm_compute. reflexivity.
    + reflexivity.
    + exists r2. split; [exact E |]. split; [exact Hforce |].
      destruct (Hok "model_dir/model.pth" "hubert_base" eq_refl eq_refl)
        as (p & Hp & _).
      exact Hp.
  - destruct (precision_fallback_recovery (CL := fails)
                (Sample.ready Sample.slot 0) (snd (Sample.gate_run (Sample.loud 320) 0))
                (Sample.loud 320) 160 0 0%nat 16000
                (Sample.gate_data (Sample.loud 320) 0) Sample.handle 0%float)
      as (r2 & E & Hforce & _ & Hkept).
    + split; [reflexivity |]. split; [reflexivity |].
      exists 160, 0, 0.
      split; [vm_compute; reflexivity |]. split; [vm_compute; reflexivity |].
      split; vm_compute; reflexivity.
    + vm_compute. reflexivity.
    + reflexivity.
    + vm_compute. reflexivity.
    + reflexivity.
    + exists r2. split; [exact E |]. split; [exact Hforce |].
      apply Hkept. left. eexists. reflexivity.
Defined.

(** C6 as stated fails when the reassembly fails. The model file no longer
    loads: [createPipeline] raises, [initialize] logs the failure, and the
    instance keeps the half-precision handle at address 0. *)
Lemma fallback_keeps_handle_when_assembly_fails :
  let env := Sample.collaborators false true true true
               (inl DeviceCannotSupportHalfPrecisionException) in
  let r := Sample.ready Sample.slot 0 in
  let out := inference (CL := env) (Sample.loud 320) 160 0 r in
  fst out = inr None
  /\ forceTensor (snd out) = true
  /\ pipeline (snd out) = pipeline r
  /\ store (snd out) = store r
  /\ nth_error (store (snd out)) 0 = Some Sample.handle
  /\ p_isHalf Sample.handle = true.
Proof. vm_compute. repeat split; reflexivity. Qed.

(** The same call, with every resource loading and with an inferencer
    that no longer loads. *)
Lemma failed_inference_commits_nothing_witness :
  let loads := Sample.collaborators true true true true
                 (inl DeviceCannotSupportHalfPrecisionException) in
  let fails := Sample.collaborators false true true true
                 (inl DeviceCannotSupportHalfPrecisionException) in
  let r := Sample.ready Sample.slot 0 in
  let data := Sample.gate_data (Sample.loud 320) 0 in
  (exists r2,
     inference (CL := loads) (Sample.loud 320) 160 0 r = (inr None, r2)
     /\ audio_buffer r2 = Some (data_audio data)
     /\ pitchf_buffer r2 = data_pitchf data
     /\ feature_buffer r2 = Some (data_feature data)
     /\ settings r2 "gpu" = PInt 0
     /\ settings r2 = reset_to_defaults (settings r) (slotInfo r))
  /\ (exists r2,
     inference (CL := fails) (Sample.loud 320) 160 0 r = (inr None, r2)
     /\ audio_buffer r2 = Some (data_audio data)
     /\ settings r2 = settings r).
Proof.
  intros loads fails r data. split.
  - destruct (failed_inference_commits_nothing (CL := loads)
                r (snd (Sample.gate_run (Sample.loud 320) 0))
                (Sample.loud 320) 160 0 0%nat 16000 data Sample.handle 0%float)
      as (r2 & E & Ha & Hp & Hf & _ & _ & _ & _ & Hkeys & Hreset & _).
    + split; [reflexivity |]. split; [reflexivity |].
      exists 160, 0, 0.
      split; [vm_compute; reflexivity |]. split; [vm_compute; reflexivity |].
      split; vm_compute; reflexivity.
    + vm_compute. reflexivity.
    + reflexivity.
    + vm_compute. reflexivity.
    + reflexivity.
    + exists r2. split; [exact E |]. split; [exact Ha |].
      split; [exact Hp |]. split; [exact Hf |]. split.
      * rewrite Hkeys by discriminate. reflexivity.
      * apply (Hreset "model_dir/model.pth" "hubert_base"); reflexivity.
  - destruct (failed_inference_commits_nothing (CL := fails)
                r (snd (Sample.gate_run (Sample.loud 320) 0))
                (Sample.loud 320) 160 0 0%nat 16000 data Sample.handle 0%float)
      as (r2 & E & Ha & _ & _ & _ & _ & _ & _ & _ & _ & Hsame).
    + split; [reflexivity |]. split; [reflexivity |].
      exists 160, 0, 0.
      split; [vm_compute; reflexivity |]. split; [vm_compute; reflexivity |].
      split; vm_compute; reflexivity.
    + vm_compute. reflexivity.
    + reflexivity.
    + vm_compute. reflexivity.
    + reflexivity.
    + exists r2. split; [exact E |]. split; [exact Ha |].
      apply Hsame. left. eexists. reflexivity.
Defined.

(** C10 as stated fails on the settings. The pitch shift was 12; after the
    recovery it is the slot default 0, and so for the index ratio and the
    protect ratio: more than the precision flag and the handle changed. *)
Lemma fallback_resets_settings :
  let env := Sample.collaborators true true true true
               (inl DeviceCannotSupportHalfPrecisionException) in
  let r := Sample.ready Sample.slot 0 in
  let out := inference (CL := env) (Sample.loud 320) 160 0 r in
  fst out = inr None
  /\ settings r "tran" = PInt 12
  /\ settings (snd out) "tran" = PInt 0
  /\ settings (snd out) "tran" <> settings r "tran".
Proof.
  vm_compute. repeat split; try reflexivity. discriminate.
Qed.

(** ** The size of the usable output (C4) *)

Section OutSize.

Context `{CO : Components}.

(** C4, as the code has it. [generate_input] returns as [outSize] the
    binary64 product [((convertSize - extra_frame) / 16000) * samplingRate]
    cut to an integer by [int], that is truncated towards zero and not
    rounded to the nearest integer. *)
Theorem outSize_truncates (r : RVCr2) (c : Call) :
  0 <= embChannels (slotInfo r) ->
  buffers_ok r ->
  call_ok (slotInfo r) c ->
  exists data r',
    generate_input (c_newData c) (c_crossfadeSize c)
                   (c_solaSearchFrame c) (c_extra_frame c) r = (inr data, r')
    /\ data_convertSize data = c_convertSize c
    /\ Py.int_of_float
         (Py.float_of_Z (data_convertSize data - c_extra_frame c)
          / Py.float_of_Z 16000
          * Py.float_of_Z (samplingRate (slotInfo r)))%float
       = inr (data_outSize data).
Proof.
  intros Hemb Hok Hc.
  destruct (generate_input_spec r c Hemb Hok Hc)
    as (a & ft & o & r' & E & Ho & _).
  eexists. exists r'. split; [exact E |]. split; [reflexivity |].
  cbn [data_convertSize data_outSize].
  unfold outSize_of, Py.truediv in Ho.
  replace (16000 =? 0) with false in Ho by reflexivity.
  exact Ho.
Qed.

End OutSize.

(** A chunk of 4096 samples at 48 kHz with a crossfade of 4096, a search
    frame of 512 and an extra context of 4096 comes to 1365, 1365, 170 and
    1365 samples at 16 kHz; the model runs at 40 kHz. *)
Lemma outSize_truncates_witness :
  exists data r',
    generate_input (Sample.silence 1365) 1365 170 1365
      (Sample.created (Sample.slot_at 40000) 0) = (inr data, r')
    /\ data_convertSize data = 4320
    /\ Py.int_of_float
         (Py.float_of_Z (data_convertSize data - 1365) / Py.float_of_Z 16000
          * Py.float_of_Z 40000)%float
       = inr (data_outSize data).
Proof.
  apply (outSize_truncates (Sample.created (Sample.slot_at 40000) 0)
           (Sample.call (Sample.silence 1365) 1365 170 1365)).
  - vm_compute. discriminate.
  - left. reflexivity.
  - split; [vm_compute; discriminate |].
    split; [vm_compute; discriminate |].
    split; [vm_compute; discriminate |].
    eexists. vm_compute. reflexivity.
Defined.

(** C4 as stated fails: on that call the product is 7387.5, [int] gives
    7387 and [round] gives 7388. *)
Lemma outSize_is_not_rounded :
  let out := generate_input (Sample.silence 1365) 1365 170 1365
               (Sample.created (Sample.slot_at 40000) 0) in
  option_map data_convertSize (match fst out with inr d => Some d | inl _ => None end)
  = Some 4320
  /\ option_map data_outSize (match fst out with inr d => Some d | inl _ => None end)
     = Some 7387
  /\ spec_outSize 4320 1365 40000 = inr 7388.
Proof. vm_compute. repeat split; reflexivity. Qed.

(** The truncation also shows where the exact quotient is an integer: 1001
    samples at 16 kHz from a 16 kHz model come out as 1000. *)
Example outSize_rounding_error :
  outSize_of 1001 0 16000 = inr 1000 /\ outSize_of 9 0 48000 = inr 26.
Proof. vm_compute. split; reflexivity. Qed.

(** ** The energy gate (C5) *)

Section EnergyGate.

Context `{CO : Components} `{CL : @Collaborators CO}.

(** With a crossfade, the crop [audio[-(n + cf) : -cf]] of a window that
    holds at least [n + cf] samples is the [n] samples that end [cf]
    samples before the end. *)
Lemma crop_of_lagging (audio : list float) (n cf : Z) :
  0 <= n -> 0 < cf -> n + cf <= zlen audio ->
  crop_of audio n cf = lagging_window audio n cf
  /\ zlen (lagging_window audio n cf) = n.
Proof.
  intros Hn Hcf Hlen. unfold crop_of, lagging_window. split.
  - replace (-1 * (n + cf)) with (- (n + cf)) by lia.
    replace (-1 * cf) with (- cf) by lia.
    rewrite slice_window by lia.
    f_equal. lia.
  - unfold zlen in *. rewrite length_firstn, length_skipn. lia.
Qed.

(** C5, as the code has it. On every call with a crossfade the volume is
    [max(rms, previousVolume * 0)], where the RMS is taken over the
    [chunkLen] samples of the audio window that end [crossfadeLen] samples
    before its end: the window is as long as the chunk and lags the end of
    the audio by the crossfade. The volume is stored as [prevVol]. In
    [inference] the conversion is skipped exactly when the volume is below
    the threshold: then the chunk of zeros is returned and [exec] is not
    consulted, and otherwise the chunk is made from what [exec] returns. *)
Theorem energy_gate_window_and_decision (r : RVCr2) :
  (forall c : Call,
     0 <= embChannels (slotInfo r) ->
     buffers_ok r ->
     call_ok (slotInfo r) c ->
     0 < c_crossfadeSize c ->
     exists data r',
       generate_input (c_newData c) (c_crossfadeSize c)
                      (c_solaSearchFrame c) (c_extra_frame c) r = (inr data, r')
       /\ zlen (data_audio data) = c_convertSize c
       /\ zlen (lagging_window (data_audio data) (zlen (c_newData c)) (c_crossfadeSize c))
          = zlen (c_newData c)
       /\ data_vol data
          = Py.max (rms (lagging_window (data_audio data) (zlen (c_newData c))
                                        (c_crossfadeSize c)))
                   (prevVol r * 0)%float
       /\ prevVol r' = data_vol data)
  /\ (forall receivedData cf sola addr inRate data r1,
        at_gate r receivedData cf sola addr inRate data r1 ->
        0 <= data_convertSize data ->
        (Setting.lt (data_vol data) (settings r "silentThreshold") = inr true ->
         inference receivedData cf sola r
         = (inr (Some (np.scale (repeat 0%float (Z.to_nat (data_convertSize data)))
                                (np.sqrt (data_vol data)))), r1))
        /\ (Setting.lt (data_vol data) (settings r "silentThreshold") = inr false ->
            forall pipe seconds outRate audio_out pitchf' feature',
              nth_error (store r) addr = Some pipe ->
              extra_seconds r inRate = inr seconds ->
              outputSampleRate r = Some outRate ->
              exec pipe (exec_args r data seconds) = inr (audio_out, pitchf', feature') ->
              inference receivedData cf sola r
              = (inr (Some (resample
                              (np.scale
                                 (Py.slice audio_out (Some (- data_outSize data)) None)
                                 (np.sqrt (data_vol data)))
                              (samplingRate (slotInfo r)) outRate)),
                 with_feature_buffer (Some feature') (with_pitchf_buffer pitchf' r1)))).
Proof.
  split.
  - intros c Hemb Hok Hc Hcf.
    pose proof Hc as (_ & Hsola & Hextra & _).
    destruct (generate_input_spec r c Hemb Hok Hc)
      as (a & ft & o & r' & E & _ & Ha & _ & Hvol & _ & _ & Hal & _).
    pose proof (zlen_nonneg (c_newData c)) as Hn.
    destruct (convertSize_of_spec (zlen (c_newData c)) (c_crossfadeSize c)
                (c_solaSearchFrame c) (c_extra_frame c)) as (_ & Hlo & _).
    fold (c_convertSize c) in Hlo.
    assert (0 < c_convertSize c) as Hpos by lia.
    destruct (Hal Hpos) as (Hlen & _).
    rewrite Ha in Hlen. cbn in Hlen. injection Hlen as Hlen.
    destruct (crop_of_lagging a (zlen (c_newData c)) (c_crossfadeSize c))
      as (Hcrop & Hwin); try lia.
    eexists. exists r'. split; [exact E |].
    cbn [data_audio data_vol].
    split; [exact Hlen |]. split; [exact Hwin |].
    split; [| reflexivity].
    rewrite Hvol, Hcrop. reflexivity.
  - intros receivedData cf sola addr inRate data r1 Hgate Hc. split.
    + intros Hsilent. apply (inference_silent _ _ _ _ _ _ _ _ Hgate Hsilent Hc).
    + intros Hloud pipe seconds outRate audio_out pitchf' feature' Hp Hs Ho He.
      apply (inference_converted _ _ _ _ _ _ _ _ _ _ _ _ _ _ Hgate Hloud Hp Hs Ho He).
Qed.

End EnergyGate.

(** A first chunk of 160 loud samples with a crossfade of 160; then, on an
    instance with a handle, a silent chunk, which is skipped, and a loud
    one, which [exec] converts. *)
Lemma energy_gate_witness :
  let quiet := Sample.collaborators true true true true (inl ValueError) in
  let converts :=
    Sample.collaborators true true true true
      (inr (Sample.loud 400, Some [0%float], [[0%float]])) in
  (exists data r',
     generate_input (Sample.loud 160) 160 0 0 (Sample.created Sample.slot 0)
     = (inr data, r')
     /\ zlen (data_audio data) = 320
     /\ zlen (lagging_window (data_audio data) 160 160) = 160
     /\ data_vol data
        = Py.max (rms (lagging_window (data_audio data) 160 160)) (0 * 0)%float
     /\ prevVol r' = data_vol data)
  /\ (exists chunk r1,
        inference (CL := quiet) (Sample.silence 160) 160 0 (Sample.ready Sample.slot 0)
        = (inr (Some chunk), r1)
        /\ chunk = repeat 0%float 320)
  /\ (exists chunk r2,
        inference (CL := converts) (Sample.loud 320) 160 0 (Sample.ready Sample.slot 0)
        = (inr (Some chunk), r2)
        /\ feature_buffer r2 = Some [[0%float]]).
Proof.
  intros quiet converts. split; [| split].
  - apply (proj1 (energy_gate_window_and_decision (CL := quiet)
                    (Sample.created Sample.slot 0))
                 (Sample.call (Sample.loud 160) 160 0 0)).
    + vm_compute. discriminate.
    + left. reflexivity.
    + split; [vm_compute; discriminate |].
      split; [vm_compute; discriminate |].
      split; [vm_compute; discriminate |].
      eexists. vm_compute. reflexivity.
    + reflexivity.
  - destruct (proj2 (energy_gate_window_and_decision (CL := quiet)
                       (Sample.ready Sample.slot 0))
                (Sample.silence 160) 160 0 0%nat 16000
                (Sample.gate_data (Sample.silence 160) 0)
                (snd (Sample.gate_run (Sample.silence 160) 0))) as (Hsilent & _).
    + split; [reflexivity |]. split; [reflexivity |].
      exists 160, 0, 0.
      split; [vm_compute; reflexivity |]. split; [vm_compute; reflexivity |].
      split; vm_compute; reflexivity.
    + vm_compute. discriminate.
    + eexists. eexists. split.
      * apply Hsilent. vm_compute. reflexivity.
      * vm_compute. reflexivity.
  - destruct (proj2 (energy_gate_window_and_decision (CL := converts)
                       (Sample.ready Sample.slot 0))
                (Sample.loud 320) 160 0 0%nat 16000
                (Sample.gate_data (Sample.loud 320) 0)
                (snd (Sample.gate_run (Sample.loud 320) 0))) as (_ & Hloud).
    + split; [reflexivity |]. split; [reflexivity |].
      exists 160, 0, 0.
      split; [vm_compute; reflexivity |]. split; [vm_compute; reflexivity |].
      split; vm_compute; reflexivity.
    + vm_compute. discriminate.
    + eexists. eexists. split.
      * apply (Hloud ltac:(vm_compute; reflexivity) Sample.handle 0%float 16000
                 (Sample.loud 400) (Some [0%float]) [[0%float]]);
          vm_compute; reflexivity.
      * reflexivity.
Defined.

(** C5 as stated fails on the window. A first chunk of 160 samples at half
    scale with a crossfade of 160 gives the audio window [160 zeros, 160
    samples at 0.5]. The window of the claim, the last [160 + 160] samples,
    has an RMS near 0.35; the source cuts [audio[-320:-160]], the 160
    zeros, and the volume is 0. *)
Lemma volume_window_lags_by_crossfade :
  let out := generate_input (Sample.loud 160) 160 0 0 (Sample.created Sample.slot 0) in
  let data := match fst out with
              | inr d => d
              | inl _ => ([], None, [], 0, 0%float, 0)
              end in
  zlen (data_audio data) = 320
  /\ zlen (spec_window (data_audio data) 160 160) = 320
  /\ zlen (crop_of (data_audio data) 160 160) = 160
  /\ data_vol data = 0%float
  /\ Py.max (rms (spec_window (data_audio data) 160 160)) (0 * 0)%float
     = 0x1.6a09e667f3bcdp-2%float
  /\ data_vol data <> Py.max (rms (spec_window (data_audio data) 160 160)) (0 * 0)%float.
Proof.
  vm_compute. repeat split; try reflexivity. discriminate.
Qed.

(** ** The silent chunk (C2) *)

Section SilentChunk.

Context `{CO : Components} `{CL : @Collaborators CO}.

(** Whatever the rates, the chunk returned below the threshold has
    [convertSize] samples, each the product of zero and [sqrt(vol)]; it is
    not cut to [outSize] and not resampled. *)
Lemma silent_chunk_shape (r r1 : RVCr2) (receivedData : list float)
    (cf sola : Z) (addr : nat) (inRate : Z) (data : InputData) :
  at_gate r receivedData cf sola addr inRate data r1 ->
  Setting.lt (data_vol data) (settings r "silentThreshold") = inr true ->
  0 <= data_convertSize data ->
  exists chunk,
    inference receivedData cf sola r = (inr (Some chunk), r1)
    /\ zlen chunk = data_convertSize data
    /\ Forall (fun x => x = (0 * np.sqrt (data_vol data))%float) chunk.
Proof.
  intros Hgate Hsilent Hc.
  eexists. split; [apply (inference_silent _ _ _ _ _ _ _ _ Hgate Hsilent Hc) |].
  split.
  - unfold np.scale. rewrite zlen_map. apply zlen_repeat. exact Hc.
  - unfold np.scale. apply Forall_map. apply Forall_forall.
    intros x Hx. apply repeat_spec in Hx. subst x. reflexivity.
Qed.

End SilentChunk.

(** C2 fails on the code. Every rate is 16 kHz, so resampling changes no
    length. A silent chunk of 160 samples with a crossfade of 160 and an
    extra context of 160 gives [convertSize = 480] and [outSize = 320]: the
    chunk of the claim has 320 samples, and [inference] returns 480. *)
Lemma silent_chunk_has_convertSize_samples :
  let env := Sample.collaborators true true true true (inl ValueError) in
  let r := Sample.ready Sample.slot 160 in
  let data := Sample.gate_data (Sample.silence 160) 160 in
  data_convertSize data = 480
  /\ data_outSize data = 320
  /\ Setting.lt (data_vol data) (settings r "silentThreshold") = inr true
  /\ fst (inference (CL := env) (Sample.silence 160) 160 0 r)
     = inr (Some (repeat 0%float 480))
  /\ zlen (resample (Collaborators := env) (repeat 0%float 320) 16000 16000) = 320.
Proof. vm_compute. repeat split; reflexivity. Qed.

(** ** [update_settings] (C8, C9) *)

Section UpdateSettings.

Context `{CO : Components} `{CL : @Collaborators CO} `{SC : SettingsSchema}.

Lemma update_unrecognized (r : RVCr2) (key : string) (val : pyval) :
  key_in key intData = false ->
  key_in key floatData = false ->
  key_in key strData = false ->
  update_settings key val r = (inr false, logged key val r).
Proof.
  intros H1 H2 H3. unfold update_settings, emit.
  rewrite bind_modify. rewrite H1, H2, H3. reflexivity.
Qed.

Lemma update_int_raises (r : RVCr2) (key : string) (val : pyval) (e : exn) :
  key_in key intData = true ->
  py_int val = inl e ->
  update_settings key val r = (inl e, logged key val r).
Proof.
  intros H1 He. unfold update_settings, emit.
  rewrite bind_modify. rewrite H1. unfold bind, lift. rewrite He. reflexivity.
Qed.

Lemma update_float_raises (r : RVCr2) (key : string) (val : pyval) (e : exn) :
  key_in key intData = false ->
  key_in key floatData = true ->
  py_float val = inl e ->
  update_settings key val r = (inl e, logged key val r).
Proof.
  intros H1 H2 He. unfold update_settings, emit.
  rewrite bind_modify. rewrite H1, H2. unfold bind, lift. rewrite He. reflexivity.
Qed.

(** An integer key other than ["gpu"]: the setting is stored. *)
Lemma update_int (r : RVCr2) (key : string) (val : pyval) (v : Z) :
  key_in key intData = true ->
  key <> "gpu" ->
  py_int val = inr v ->
  update_settings key val r
  = (inr true,
     with_settings (setattr (settings r) key (PInt v)) (logged key val r)).
Proof.
  intros H1 Hk Hv. unfold update_settings, emit.
  rewrite bind_modify. rewrite H1.
  rewrite (bind_lift_ok _ _ _ _ Hv). rewrite bind_modify.
  destruct (String.eqb_spec key "gpu"); [contradiction |].
  reflexivity.
Qed.

(** The key ["gpu"]: the setting is stored, the precision flag is cleared
    and [initialize] runs. *)
Lemma update_gpu (r : RVCr2) (val : pyval) (v : Z) :
  key_in "gpu" intData = true ->
  py_int val = inr v ->
  exists r',
    update_settings "gpu" val r = (inr true, r')
    /\ initialize
         (with_forceTensor false
            (with_settings (setattr (settings r) "gpu" (PInt v)) (logged "gpu" val r)))
       = (inr tt, r').
Proof.
  intros H1 Hv.
  unfold update_settings, emit.
  rewrite bind_modify. rewrite H1.
  rewrite (bind_lift_ok _ _ _ _ Hv). rewrite bind_modify.
  cbn [String.eqb Ascii.eqb Bool.eqb].
  unfold bind at 1. rewrite bind_modify.
  match goal with
  | |- context [initialize ?s] => destruct (initialize_returns s) as (r' & E)
  end.
  exists r'. rewrite E. split; [reflexivity | exact E].
Qed.

Lemma update_float (r : RVCr2) (key : string) (val : pyval) (v : float) :
  key_in key intData = false ->
  key_in key floatData = true ->
  py_float val = inr v ->
  update_settings key val r
  = (inr true,
     with_settings (setattr (settings r) key (PFloat v)) (logged key val r)).
Proof.
  intros H1 H2 Hv. unfold update_settings, emit.
  rewrite bind_modify. rewrite H1, H2.
  rewrite (bind_lift_ok _ _ _ _ Hv). rewrite bind_modify. reflexivity.
Qed.

(** A string key that does not reach the pitch extractor. *)
Lemma update_str (r : RVCr2) (key : string) (val : pyval) :
  key_in key intData = false ->
  key_in key floatData = false ->
  key_in key strData = true ->
  key <> "f0Detector" \/ pipeline r = None ->
  update_settings key val r
  = (inr true,
     with_settings (setattr (settings r) key (PStr (py_str val))) (logged key val r)).
Proof.
  intros H1 H2 H3 Hk. unfold update_settings, emit.
  rewrite bind_modify. rewrite H1, H2, H3.
  rewrite bind_modify, bind_gets.
  cbn [pipeline with_settings logged with_log].
  destruct (String.eqb_spec key "f0Detector") as [-> | Hne].
  - destruct Hk as [Hk | Hk]; [contradiction |]. rewrite Hk. reflexivity.
  - reflexivity.
Qed.

(** The key ["f0Detector"] with a handle: the pitch extractor of the
    object at the handle's address is overwritten. *)
Lemma update_f0Detector (r : RVCr2) (val : pyval) (a : nat) (p : Pipeline) :
  key_in "f0Detector" intData = false ->
  key_in "f0Detector" floatData = false ->
  key_in "f0Detector" strData = true ->
  pipeline r = Some a ->
  nth_error (store r) a = Some p ->
  let s' := setattr (settings r) "f0Detector" (PStr (py_str val)) in
  update_settings "f0Detector" val r
  = (inr true,
     with_pipeline (Some a)
       (store_set (store r) a
          (setPitchExtractor (getPitchExtractor (PStr (py_str val)) (settings r "gpu")) p))
       (with_settings s' (logged "f0Detector" val r))).
Proof.
  intros H1 H2 H3 Hp Hn s'. unfold update_settings, emit.
  rewrite bind_modify. rewrite H1, H2, H3.
  rewrite bind_modify, bind_gets.
  cbn [pipeline with_settings logged with_log].
  rewrite Hp. cbn [String.eqb Ascii.eqb Bool.eqb].
  unfold bind, gets, modify, ret. cbn. rewrite Hn, Hp. reflexivity.
Qed.

End UpdateSettings.

Section UpdateSettingsClaims.

Context `{CO : Components} `{CL : @Collaborators CO} `{SC : SettingsSchema}.

Lemma store_set_length (l : list Pipeline) (a : nat) (p : Pipeline) :
  length (store_set l a p) = length l.
Proof.
  revert a. induction l as [| h t IH]; intros a.
  - reflexivity.
  - destruct a; cbn; [reflexivity | rewrite IH; reflexivity].
Qed.

Lemma store_set_same (l : list Pipeline) (a : nat) (p q : Pipeline) :
  nth_error l a = Some q -> nth_error (store_set l a p) a = Some p.
Proof.
  revert a. induction l as [| h t IH]; intros a Hq.
  - destruct a; discriminate.
  - destruct a; cbn in *; [reflexivity | apply IH; exact Hq].
Qed.

Lemma store_set_other (l : list Pipeline) (a b : nat) (p : Pipeline) :
  b <> a -> nth_error (store_set l a p) b = nth_error l b.
Proof.
  revert a b. induction l as [| h t IH]; intros a b Hne.
  - reflexivity.
  - destruct a, b; cbn; try reflexivity; try contradiction.
    apply IH. congruence.
Qed.

(** A string key always returns [True]. *)
Lemma update_str_returns (r : RVCr2) (key : string) (val : pyval) :
  key_in key intData = false ->
  key_in key floatData = false ->
  key_in key strData = true ->
  exists r', update_settings key val r = (inr true, r').
Proof.
  intros H1 H2 H3. unfold update_settings, emit.
  rewrite bind_modify. rewrite H1, H2, H3.
  rewrite bind_modify, bind_gets.
  destruct (String.eqb key "f0Detector"); [| eexists; reflexivity].
  match goal with
  | |- context [match ?o with Some _ => _ | None => _ end] => destruct o
  end; eexists; reflexivity.
Qed.

(** C9, as the code has it. A key in none of the three tables is rejected:
    [update_settings] returns [False], raises nothing and changes no
    setting, nor the handle. A recognized key whose value converts with
    [int], [float] or [str] returns [True]. A value that [int] or [float]
    cannot convert makes [update_settings] raise the exception of the
    conversion, before any setting is changed. *)
Theorem update_settings_outcomes (r : RVCr2) (key : string) (val : pyval) :
  (key_in key intData = false -> key_in key floatData = false ->
   key_in key strData = false ->
   exists r',
     update_settings key val r = (inr false, r')
     /\ settings r' = settings r
     /\ same_handle r r' /\ same_session r r' /\ same_forceTensor r r')
  /\ (key_in key intData || key_in key floatData || key_in key strData = true ->
      (key_in key intData = true -> exists v, py_int val = inr v) ->
      (key_in key intData = false -> key_in key floatData = true ->
       exists v, py_float val = inr v) ->
      exists r', update_settings key val r = (inr true, r'))
  /\ (forall e, key_in key intData = true -> py_int val = inl e ->
      exists r', update_settings key val r = (inl e, r')
                 /\ settings r' = settings r)
  /\ (forall e, key_in key intData = false -> key_in key floatData = true ->
      py_float val = inl e ->
      exists r', update_settings key val r = (inl e, r')
                 /\ settings r' = settings r).
Proof.
  split; [| split; [| split]].
  - intros H1 H2 H3. exists (logged key val r).
    split; [apply update_unrecognized; assumption |].
    split; [reflexivity |].
    unfold same_handle, same_session, same_forceTensor. cbn. repeat split.
  - intros Hrec Hint Hfloat.
    destruct (key_in key intData) eqn:H1.
    + destruct (Hint eq_refl) as (v & Hv).
      destruct (String.eqb_spec key "gpu") as [-> | Hne].
      * destruct (update_gpu r val v H1 Hv) as (r' & E & _).
        exists r'. exact E.
      * eexists. apply (update_int r key val v H1 Hne Hv).
    + destruct (key_in key floatData) eqn:H2.
      * destruct (Hfloat eq_refl eq_refl) as (v & Hv).
        eexists. apply (update_float r key val v H1 H2 Hv).
      * cbn in Hrec. apply (update_str_returns r key val H1 H2 Hrec).
  - intros e H1 He. exists (logged key val r).
    split; [apply update_int_raises; assumption | reflexivity].
  - intros e H1 H2 He. exists (logged key val r).
    split; [apply update_float_raises; assumption | reflexivity].
Qed.

(** C8, as the code has it. The key ["gpu"] stores the device, clears the
    forced-precision flag and calls [initialize]: when the inferencer and
    the embedder load for the new device the instance holds a new handle
    at a new address, and when one of them does not load it keeps the
    handle it had. The key ["f0Detector"] does not reassemble: the handle
    keeps its address and the pitch extractor of that one object is
    overwritten in place. Every other recognized key only stores the
    converted value: the handle, the store of pipeline objects and the
    precision flag are as before. *)
Theorem update_settings_and_the_handle (r : RVCr2) (val : pyval) :
  (forall v,
     key_in "gpu" intData = true -> py_int val = inr v ->
     let inferencer_result :=
       getInferencer (modelType (slotInfo r))
         (model_path (model_dir r) (slotIndex (slotInfo r)) (modelFile (slotInfo r)))
         (PInt v) (version (slotInfo r)) in
     let embedder_result :=
       getEmbedder (embedder (slotInfo r)) (halfPrecisionAvailable false (PInt v))
         (getDevice false (PInt v)) in
     exists r',
       update_settings "gpu" val r = (inr true, r')
       /\ forceTensor r' = false
       /\ (forall inferencer emb,
             inferencer_result = inr inferencer -> embedder_result = inr emb ->
             exists p,
               pipeline r' = Some (length (store r))
               /\ store r' = store r ++ [p]
               /\ p_device p = getDevice false (PInt v)
               /\ p_isHalf p = halfPrecisionAvailable false (PInt v))
       /\ ((exists e, inferencer_result = inl e) \/ (exists e, embedder_result = inl e) ->
           pipeline r' = pipeline r /\ store r' = store r))
  /\ (forall a p,
        key_in "f0Detector" intData = false ->
        key_in "f0Detector" floatData = false ->
        key_in "f0Detector" strData = true ->
        pipeline r = Some a -> nth_error (store r) a = Some p ->
        exists r',
          update_settings "f0Detector" val r = (inr true, r')
          /\ pipeline r' = Some a
          /\ length (store r') = length (store r)
          /\ nth_error (store r') a
             = Some (setPitchExtractor
                       (getPitchExtractor (PStr (py_str val)) (settings r "gpu")) p)
          /\ (forall b, b <> a -> nth_error (store r') b = nth_error (store r) b)
          /\ forceTensor r' = forceTensor r)
  /\ (forall key,
        key <> "gpu" -> key <> "f0Detector" ->
        key_in key intData || key_in key floatData || key_in key strData = true ->
        (key_in key intData = true -> exists v, py_int val = inr v) ->
        (key_in key intData = false -> key_in key floatData = true ->
         exists v, py_float val = inr v) ->
        exists r',
          update_settings key val r = (inr true, r')
          /\ pipeline r' = pipeline r
          /\ store r' = store r
          /\ forceTensor r' = forceTensor r
          /\ (forall k, k <> key -> settings r' k = settings r k)).
Proof.
  split; [| split].
  - intros v H1 Hv inferencer_result embedder_result.
    destruct (update_gpu r val v H1 Hv) as (r' & E & Einit).
    set (rg := with_forceTensor false
                 (with_settings (setattr (settings r) "gpu" (PInt v))
                    (logged "gpu" val r))) in *.
    exists r'. split; [exact E |]. split.
    { pose proof (initialize_forceTensor _ _ _ Einit) as Hf. exact Hf. }
    split.
    + intros inferencer emb Hi He.
      destruct (initialize_success rg inferencer emb) as (r2 & E2 & Hp2 & Hst2 & _).
      { exact Hi. }
      { exact He. }
      rewrite Einit in E2. injection E2 as <-.
      eexists. split; [exact Hp2 |]. split; [exact Hst2 |].
      split; reflexivity.
    + intros Hfail.
      destruct (initialize_failure rg) as (r2 & E2 & (Hp2 & Hst2 & _) & _).
      { exact Hfail. }
      rewrite Einit in E2. injection E2 as <-.
      split; assumption.
  - intros a p H1 H2 H3 Hp Hn.
    eexists. split; [apply (update_f0Detector r val a p H1 H2 H3 Hp Hn) |].
    cbn. split; [reflexivity |].
    split; [apply store_set_length |].
    split; [apply (store_set_same _ _ _ p Hn) |].
    split; [intros b Hb; apply store_set_other; exact Hb | reflexivity].
  - intros key Hgpu Hf0 Hrec Hint Hfloat.
    destruct (key_in key intData) eqn:H1.
    + destruct (Hint eq_refl) as (v & Hv).
      eexists. split; [apply (update_int r key val v H1 Hgpu Hv) |].
      cbn. repeat split. intros k Hk. apply setattr_other. exact Hk.
    + destruct (key_in key floatData) eqn:H2.
      * destruct (Hfloat eq_refl eq_refl) as (v & Hv).
        eexists. split; [apply (update_float r key val v H1 H2 Hv) |].
        cbn. repeat split. intros k Hk. apply setattr_other. exact Hk.
      * cbn in Hrec.
        eexists. split; [apply (update_str r key val H1 H2 Hrec); left; exact Hf0 |].
        cbn. repeat split. intros k Hk. apply setattr_other. exact Hk.
Qed.

End UpdateSettingsClaims.

(** An unknown key, a pitch shift of 3, and two values that do not
    convert, on the sample instance. *)
Lemma update_settings_outcomes_witness :
  let env := Sample.collaborators true true true true (inl ValueError) in
  let r := Sample.ready Sample.slot 0 in
  (exists r',
     update_settings (CL := env) (SC := Sample.schema) "volume" (PInt 3) r = (inr false, r')
     /\ settings r' = settings r
     /\ same_handle r r' /\ same_session r r' /\ same_forceTensor r r')
  /\ (exists r',
     update_settings (CL := env) (SC := Sample.schema) "tran" (PInt 3) r = (inr true, r'))
  /\ (exists r',
     update_settings (CL := env) (SC := Sample.schema) "tran" (PStr "abc") r
     = (inl ValueError, r')
     /\ settings r' = settings r)
  /\ (exists r',
     update_settings (CL := env) (SC := Sample.schema) "protect" (PStr "abc") r
     = (inl ValueError, r')
     /\ settings r' = settings r).
Proof.
  intros env r.
  split; [| split; [| split]].
  - apply (proj1 (update_settings_outcomes (CL := env) (SC := Sample.schema)
                    r "volume" (PInt 3))); reflexivity.
  - apply (proj1 (proj2 (update_settings_outcomes (CL := env) (SC := Sample.schema)
                           r "tran" (PInt 3)))).
    + reflexivity.
    + intros _. exists 3. reflexivity.
    + intros H. discriminate H.
  - apply (proj1 (proj2 (proj2 (update_settings_outcomes (CL := env)
                                  (SC := Sample.schema) r "tran" (PStr "abc"))))
             ValueError); reflexivity.
  - apply (proj2 (proj2 (proj2 (update_settings_outcomes (CL := env)
                                  (SC := Sample.schema) r "protect" (PStr "abc"))))
             ValueError); reflexivity.
Defined.

(** C9 as stated fails on a value that does not convert: the pitch shift
    is an integer setting and [int("abc")] raises [ValueError], which
    [update_settings] lets through. *)
Lemma update_settings_raises_on_bad_value :
  let env := Sample.collaborators true true true true (inl ValueError) in
  key_in "tran" (intData (SettingsSchema := Sample.schema)) = true
  /\ fst (update_settings (CL := env) (SC := Sample.schema) "tran" (PStr "abc")
            (Sample.ready Sample.slot 0))
     = inl ValueError.
Proof. vm_compute. split; reflexivity. Qed.

(** The device 1, the detector "crepe" and a pitch shift of 3, on the
    sample instance. *)
Lemma update_settings_and_the_handle_witness :
  let env := Sample.collaborators true true true true (inl ValueError) in
  let r := Sample.ready Sample.slot 0 in
  (exists r',
     update_settings (CL := env) (SC := Sample.schema) "gpu" (PInt 1) r = (inr true, r')
     /\ pipeline r' = Some 1%nat)
  /\ (exists r',
     update_settings (CL := env) (SC := Sample.schema) "f0Detector" (PStr "crepe") r
     = (inr true, r')
     /\ pipeline r' = Some 0%nat
     /\ length (store r') = 1%nat)
  /\ (exists r',
     update_settings (CL := env) (SC := Sample.schema) "tran" (PInt 3) r = (inr true, r')
     /\ pipeline r' = Some 0%nat
     /\ store r' = [Sample.handle]).
Proof.
  intros env r.
  split; [| split].
  - destruct (proj1 (update_settings_and_the_handle (CL := env) (SC := Sample.schema)
                       r (PInt 1)) 1 eq_refl eq_refl)
      as (r' & E & _ & Hok & _).
    exists r'. split; [exact E |].
    destruct (Hok "model_dir/model.pth" "hubert_base" eq_refl eq_refl) as (p & Hp & _).
    exact Hp.
  - destruct (proj1 (proj2 (update_settings_and_the_handle (CL := env)
                              (SC := Sample.schema) r (PStr "crepe")))
                0%nat Sample.handle eq_refl eq_refl eq_refl eq_refl eq_refl)
      as (r' & E & Hp & Hlen & _).
    exists r'. split; [exact E |]. split; [exact Hp | exact Hlen].
  - destruct (proj2 (proj2 (update_settings_and_the_handle (CL := env)
                              (SC := Sample.schema) r (PInt 3))) "tran")
      as (r' & E & Hp & Hst & _).
    + discriminate.
    + discriminate.
    + reflexivity.
    + intros _. exists 3. reflexivity.
    + intros H. discriminate H.
    + exists r'. split; [exact E |]. split; [exact Hp | exact Hst].
Defined.

(** C8 as stated fails for the pitch detector. Changing ["f0Detector"]
    builds no handle: the instance still points at address 0, the store
    still holds one object, and that object has a new pitch extractor and
    is otherwise the handle it was, half precision included. *)
Lemma detector_change_mutates_the_handle :
  let env := Sample.collaborators true true true true (inl ValueError) in
  let r := Sample.ready Sample.slot 0 in
  let out := update_settings (CL := env) (SC := Sample.schema)
               "f0Detector" (PStr "crepe") r in
  fst out = inr true
  /\ pipeline (snd out) = pipeline r
  /\ length (store (snd out)) = length (store r)
  /\ nth_error (store (snd out)) 0
     = Some (setPitchExtractor (PStr "crepe" : @PitchExtractor Sample.components)
                               Sample.handle)
  /\ nth_error (store r) 0 = Some Sample.handle.
Proof. vm_compute. repeat split; reflexivity. Qed.

(** * Further properties of the code *)

(** ** What the audio window holds *)

Lemma lastn_all {A : Type} (n : Z) (l : list A) : zlen l <= n -> lastn n l = l.
Proof.
  intros H. unfold lastn. replace (Z.to_nat (zlen l - n)) with 0%nat by lia.
  reflexivity.
Qed.

Lemma zlen_lastn {A : Type} (n : Z) (l : list A) :
  0 <= n -> zlen (lastn n l) = Z.min n (zlen l).
Proof.
  intros Hn. unfold lastn, zlen. rewrite length_skipn. lia.
Qed.

Lemma lastn_app_r {A : Type} (n : Z) (l1 l2 : list A) :
  n <= zlen l2 -> lastn n (l1 ++ l2) = lastn n l2.
Proof.
  intros H. unfold lastn. rewrite zlen_app.
  pose proof (zlen_nonneg l1) as H1. pose proof (zlen_nonneg l2) as H2.
  rewrite skipn_app.
  replace (Z.to_nat (zlen l1 + zlen l2 - n) - length l1)%nat
    with (Z.to_nat (zlen l2 - n)) by (unfold zlen in *; lia).
  rewrite skipn_all2 by (unfold zlen in *; lia).
  reflexivity.
Qed.

Lemma lastn_app_exact {A : Type} (l1 l2 : list A) : lastn (zlen l2) (l1 ++ l2) = l2.
Proof.
  rewrite lastn_app_r by lia. apply lastn_all. lia.
Qed.

Lemma lastn_lastn {A : Type} (n m : Z) (l : list A) :
  0 <= n -> n <= m -> lastn n (lastn m l) = lastn n l.
Proof.
  intros Hn Hm.
  destruct (Z_le_gt_dec (zlen l) m) as [Hle | Hgt].
  - rewrite (lastn_all m l) by assumption. reflexivity.
  - unfold lastn at 1. rewrite zlen_lastn by lia. rewrite Z.min_l by lia.
    unfold lastn. rewrite skipn_skipn. f_equal. lia.
Qed.

Lemma slice_tail_lastn {A : Type} (l : list A) (k : Z) :
  0 < k -> Py.slice l (Some (- k)) None = lastn k l.
Proof. intros Hk. apply slice_tail. exact Hk. Qed.

Section WindowContent.

Context `{CO : Components}.

(** Linking puts the new samples at the end of the audio, and as many
    zero rows as the chunk has whole frames at the end of the features
    (and of the pitch, when the model uses it). *)
Lemma link_past_content (r r1 : RVCr2) (nd : list float) (k : Z) :
  link_past nd k r = (inr tt, r1) ->
  audio_buffer r1 = Some (held (audio_buffer r) ++ nd)
  /\ slotInfo r1 = slotInfo r
  /\ 0 <= k
  /\ (exists pre, feature_buffer r1
                  = Some (pre ++ zero_rows k (embChannels (slotInfo r))))
  /\ (f0 (slotInfo r) = true ->
      exists pre, pitchf_buffer r1 = Some (pre ++ zero_samples k)).
Proof.
  unfold link_past. intros E.
  unfold bind, gets, modify, lift, ret, array, raise, np.zeros, np.zeros2 in E.
  destruct (audio_buffer r) as [a |] eqn:Ea; cbn in E.
  - destruct (f0 (slotInfo r)) eqn:Ef0; cbn in E.
    + destruct (k <? 0) eqn:Ek; cbn in E; [discriminate |].
      destruct (pitchf_buffer r) as [p |]; cbn in E; [| discriminate].
      destruct (embChannels (slotInfo r) <? 0); cbn in E; [discriminate |].
      destruct (feature_buffer r) as [ft |]; cbn in E; [| discriminate].
      injection E as <-. cbn. apply Z.ltb_ge in Ek.
      repeat split; try assumption.
      * exists ft. reflexivity.
      * intros _. exists p. reflexivity.
    + destruct (k <? 0) eqn:Ek; cbn in E; [discriminate |].
      destruct (embChannels (slotInfo r) <? 0); cbn in E; [discriminate |].
      destruct (feature_buffer r) as [ft |]; cbn in E; [| discriminate].
      injection E as <-. cbn. apply Z.ltb_ge in Ek.
      repeat split; try assumption.
      * exists ft. reflexivity.
      * intros H. discriminate H.
  - destruct (f0 (slotInfo r)) eqn:Ef0; cbn in E.
    + destruct (k <? 0) eqn:Ek; cbn in E; [discriminate |].
      destruct (embChannels (slotInfo r) <? 0); cbn in E; [discriminate |].
      injection E as <-. cbn. apply Z.ltb_ge in Ek.
      repeat split; try assumption.
      * exists []. reflexivity.
      * intros _. exists []. reflexivity.
    + destruct (k <? 0) eqn:Ek; cbn in E; [discriminate |].
      destruct (embChannels (slotInfo r) <? 0); cbn in E; [discriminate |].
      injection E as <-. cbn. apply Z.ltb_ge in Ek.
      repeat split; try assumption.
      * exists []. reflexivity.
      * intros H. discriminate H.
Qed.

(** Filling only ever puts zeros in front. *)
Lemma fill_zero_content (r r2 : RVCr2) (convertSize : Z) (a : list float) :
  fill_zero convertSize r = (inr tt, r2) ->
  audio_buffer r = Some a ->
  audio_buffer r2
  = Some (if zlen a <? convertSize then zero_samples convertSize ++ a else a)
  /\ slotInfo r2 = slotInfo r
  /\ (forall pre tail, feature_buffer r = Some (pre ++ tail) ->
      exists pre', feature_buffer r2 = Some (pre' ++ tail))
  /\ (forall pre tail, f0 (slotInfo r) = true -> pitchf_buffer r = Some (pre ++ tail) ->
      exists pre', pitchf_buffer r2 = Some (pre' ++ tail)).
Proof.
  unfold fill_zero. intros E Ea.
  unfold bind, gets, modify, lift, ret, array, raise, np.zeros, np.zeros2 in E.
  rewrite Ea in E. cbn in E. fold (zlen a) in E.
  destruct (zlen a <? convertSize) eqn:Elt; cbn in E.
  - destruct (convertSize <? 0); cbn in E; [discriminate |].
    destruct (f0 (slotInfo r)) eqn:Ef0; cbn in E.
    + destruct (convertSize / 160 <? 0); cbn in E; [discriminate |].
      destruct (pitchf_buffer r) as [p |] eqn:Ep; cbn in E; [| discriminate].
      destruct (embChannels (slotInfo r) <? 0); cbn in E; [discriminate |].
      destruct (feature_buffer r) as [ft |] eqn:Eft; cbn in E; [| discriminate].
      injection E as <-. cbn. repeat split.
      * intros pre tail H. injection H as ->.
        eexists. rewrite app_assoc. reflexivity.
      * intros pre tail _ H. injection H as ->.
        eexists. rewrite app_assoc. reflexivity.
    + destruct (convertSize / 160 <? 0); cbn in E; [discriminate |].
      destruct (embChannels (slotInfo r) <? 0); cbn in E; [discriminate |].
      destruct (feature_buffer r) as [ft |] eqn:Eft; cbn in E; [| discriminate].
      injection E as <-. cbn. repeat split.
      * intros pre tail H. injection H as ->.
        eexists. rewrite app_assoc. reflexivity.
      * intros pre tail H. discriminate H.
  - injection E as <-. rewrite Ea. repeat split.
    + intros pre tail H. exists pre. exact H.
    + intros pre tail _ H. exists pre. exact H.
Qed.

(** Trimming to a positive multiple of 160 keeps the last [convertSize]
    samples and the last [convertSize / 160] rows. *)
Lemma trim_content (r r3 : RVCr2) (convertSize : Z) (a : list float)
    (ft : list (list float)) :
  trim convertSize r = (inr tt, r3) ->
  0 < convertSize -> convertSize mod 160 = 0 ->
  audio_buffer r = Some a ->
  feature_buffer r = Some ft ->
  audio_buffer r3 = Some (lastn convertSize a)
  /\ slotInfo r3 = slotInfo r
  /\ feature_buffer r3 = Some (lastn (convertSize / 160) ft)
  /\ (forall p, f0 (slotInfo r) = true -> pitchf_buffer r = Some p ->
      pitchf_buffer r3 = Some (lastn (convertSize / 160) p)).
Proof.
  unfold trim. intros E Hc Hm Ea Eft.
  apply Z.mod_divide in Hm; [| lia]. destruct Hm as [q Hq].
  assert (convertSize / 160 = q) as Hdiv by (rewrite Hq; apply Z.div_mul; lia).
  assert (-1 * convertSize / 160 = - q) as Hoff.
  { replace (-1 * convertSize) with ((- q) * 160) by lia. apply Z.div_mul. lia. }
  replace (-1 * convertSize) with (- convertSize) in * by lia.
  rewrite Hoff, Hdiv in *.
  unfold bind, gets, modify, lift, ret, array, raise in E.
  rewrite Ea in E. cbn in E.
  destruct (f0 (slotInfo r)) eqn:Ef0; cbn in E.
  - destruct (pitchf_buffer r) as [p |] eqn:Ep; cbn in E; [| discriminate].
    rewrite Eft in E. cbn in E. injection E as <-. cbn.
    rewrite !slice_tail_lastn by lia. repeat split.
    intros p' _ H. injection H as <-. reflexivity.
  - rewrite Eft in E. cbn in E. injection E as <-. cbn.
    rewrite !slice_tail_lastn by lia. repeat split.
    intros p' H. discriminate H.
Qed.

(** The volume check changes [prevVol] only. *)
Lemma check_volume_content (r r' : RVCr2) (n cf : Z) (v : float) :
  check_volume n cf r = (inr v, r') ->
  audio_buffer r' = audio_buffer r
  /\ pitchf_buffer r' = pitchf_buffer r
  /\ feature_buffer r' = feature_buffer r
  /\ slotInfo r' = slotInfo r.
Proof.
  unfold check_volume. intros E.
  unfold bind, gets, modify, lift, ret, array, raise in E.
  destruct (audio_buffer r) as [a |] eqn:Ea; cbn in E; [| discriminate].
  injection E as _ <-. cbn. rewrite Ea. repeat split.
Qed.

(** A call that returns went through its four stanzas. *)
Lemma generate_input_stages (r r' : RVCr2) (nd : list float) (cf sola extra : Z)
    (data : InputData) :
  generate_input nd cf sola extra r = (inr data, r') ->
  let n := zlen nd in
  let C := convertSize_of n cf sola extra in
  exists r1 r2 r3,
    link_past (normalized nd) (n / 160) r = (inr tt, r1)
    /\ fill_zero C r1 = (inr tt, r2)
    /\ trim C r2 = (inr tt, r3)
    /\ check_volume n cf r3 = (inr (data_vol data), r')
    /\ data_convertSize data = C
    /\ outSize_of C extra (samplingRate (slotInfo r1)) = inr (data_outSize data).
Proof.
  intros E n C. unfold generate_input in E.
  apply bind_inr_inv in E. destruct E as ([] & r1 & E1 & E).
  apply bind_inr_inv in E. destruct E as (slot & rb & Eslot & E).
  unfold gets in Eslot. injection Eslot as <- <-.
  apply bind_inr_inv in E. destruct E as (o & rc & Eo & E).
  unfold lift in Eo. injection Eo as Eo <-.
  apply bind_inr_inv in E. destruct E as ([] & r2 & E2 & E).
  apply bind_inr_inv in E. destruct E as ([] & r3 & E3 & E).
  apply bind_inr_inv in E. destruct E as (vol & r4 & E4 & E).
  unfold bind, gets, array, ret, raise in E.
  destruct (audio_buffer r4) as [a |]; [| discriminate].
  destruct (feature_buffer r4) as [ft |]; [| discriminate].
  injection E as <- <-.
  exists r1, r2, r3. repeat split; assumption.
Qed.

End WindowContent.

Section WindowContentTheorems.

Context `{CO : Components}.

(** X2. After a call with a positive window the audio buffer is the last
    [convertSize] samples of the history so far, the new chunk included,
    with [convertSize] zeros in front of it: old samples are dropped from
    the front only, zeros appear only when the history is too short, and
    the window always ends with the new chunk, each sample cast to float32
    and divided by 32768. *)
Theorem audio_window_is_the_recent_history (r : RVCr2) (c : Call) :
  0 <= embChannels (slotInfo r) ->
  buffers_ok r ->
  call_ok (slotInfo r) c ->
  0 < c_convertSize c ->
  exists data r',
    generate_input (c_newData c) (c_crossfadeSize c)
                   (c_solaSearchFrame c) (c_extra_frame c) r = (inr data, r')
    /\ audio_buffer r' = Some (data_audio data)
    /\ data_audio data
       = lastn (c_convertSize c)
               (zero_samples (c_convertSize c)
                ++ held (audio_buffer r) ++ normalized (c_newData c))
    /\ lastn (zlen (c_newData c)) (data_audio data) = normalized (c_newData c).
Proof.
  intros Hemb Hok Hc Hpos.
  pose proof Hc as (Hcf & Hsola & Hextra & _).
  destruct (generate_input_spec r c Hemb Hok Hc)
    as (a & ft & o & r' & E & _ & Ha & _).
  destruct (generate_input_stages _ _ _ _ _ _ _ E)
    as (r1 & r2 & r3 & E1 & E2 & E3 & E4 & _).
  fold (c_convertSize c) in E2, E3.
  set (C := c_convertSize c) in *. set (n := zlen (c_newData c)) in *.
  destruct (convertSize_of_spec n (c_crossfadeSize c) (c_solaSearchFrame c)
              (c_extra_frame c)) as (Hmod & Hlo & _).
  change (convertSize_of n (c_crossfadeSize c) (c_solaSearchFrame c)
            (c_extra_frame c)) with C in Hmod, Hlo.
  pose proof (zlen_nonneg (c_newData c)) as Hn. fold n in Hn.
  destruct (link_past_content _ _ _ _ E1) as (Ha1 & _ & _ & (pre & Hf1) & _).
  destruct (fill_zero_content _ _ _ _ E2 Ha1) as (Ha2 & _ & Hf2 & _).
  destruct (Hf2 _ _ Hf1) as (pre' & Hf2').
  destruct (trim_content _ _ _ _ _ E3 Hpos Hmod Ha2 Hf2') as (Ha3 & _).
  destruct (check_volume_content _ _ _ _ _ E4) as (Ha4 & _).
  rewrite Ha3 in Ha4. rewrite Ha in Ha4. injection Ha4 as Haudio.
  set (hist := held (audio_buffer r) ++ normalized (c_newData c)) in *.
  assert (a = lastn C (zero_samples C ++ hist)) as Hwin.
  { rewrite Haudio. destruct (zlen hist <? C) eqn:Elt; [reflexivity |].
    apply Z.ltb_ge in Elt. symmetry. apply lastn_app_r. exact Elt. }
  eexists. exists r'. split; [exact E |]. cbn [data_audio].
  split; [exact Ha |]. split; [exact Hwin |].
  rewrite Hwin. rewrite lastn_lastn by lia.
  unfold hist. rewrite app_assoc.
  assert (n = zlen (normalized (c_newData c))) as -> by (symmetry; apply zlen_map).
  apply lastn_app_exact.
Qed.

(** X3. After a call with a positive window the feature buffer ends with
    one zero row of [embChannels] channels for every whole frame of 160
    samples in the new chunk, and the pitch buffer, when the model uses
    pitch, with as many zeros: the placeholders the pipeline is to fill
    in. *)
Theorem new_frames_are_zero_placeholders (r : RVCr2) (c : Call) :
  0 <= embChannels (slotInfo r) ->
  buffers_ok r ->
  call_ok (slotInfo r) c ->
  0 < c_convertSize c ->
  exists data r',
    generate_input (c_newData c) (c_crossfadeSize c)
                   (c_solaSearchFrame c) (c_extra_frame c) r = (inr data, r')
    /\ lastn (zlen (c_newData c) / 160) (data_feature data)
       = zero_rows (zlen (c_newData c) / 160) (embChannels (slotInfo r))
    /\ (f0 (slotInfo r) = true ->
        exists p, data_pitchf data = Some p
                  /\ lastn (zlen (c_newData c) / 160) p
                     = zero_samples (zlen (c_newData c) / 160)).
Proof.
  intros Hemb Hok Hc Hpos.
  pose proof Hc as (Hcf & Hsola & Hextra & _).
  destruct (generate_input_spec r c Hemb Hok Hc)
    as (a & ft & o & r' & E & _ & Ha & Hft & _).
  destruct (generate_input_stages _ _ _ _ _ _ _ E)
    as (r1 & r2 & r3 & E1 & E2 & E3 & E4 & _).
  fold (c_convertSize c) in E2, E3.
  set (C := c_convertSize c) in *. set (n := zlen (c_newData c)) in *.
  destruct (convertSize_of_spec n (c_crossfadeSize c) (c_solaSearchFrame c)
              (c_extra_frame c)) as (Hmod & Hlo & _).
  change (convertSize_of n (c_crossfadeSize c) (c_solaSearchFrame c)
            (c_extra_frame c)) with C in Hmod, Hlo.
  pose proof (zlen_nonneg (c_newData c)) as Hn. fold n in Hn.
  assert (0 <= n / 160) as Hk by (apply Z.div_pos; lia).
  assert (n / 160 <= C / 160) as Hkc by (apply Z.div_le_mono; lia).
  destruct (link_past_content _ _ _ _ E1) as (Ha1 & Hs1 & _ & (pre & Hf1) & Hp1).
  destruct (fill_zero_content _ _ _ _ E2 Ha1) as (Ha2 & Hs2 & Hf2 & Hp2).
  destruct (Hf2 _ _ Hf1) as (pre' & Hf2').
  destruct (trim_content _ _ _ _ _ E3 Hpos Hmod Ha2 Hf2') as (_ & Hs3 & Hf3 & Hp3).
  destruct (check_volume_content _ _ _ _ _ E4) as (_ & Hp4 & Hf4 & _).
  eexists. exists r'. split; [exact E |]. cbn [data_feature data_pitchf]. split.
  - rewrite Hf3 in Hf4. rewrite Hft in Hf4. injection Hf4 as ->.
    rewrite lastn_lastn by lia.
    replace (n / 160) with (zlen (zero_rows (n / 160) (embChannels (slotInfo r)))) at 1
      by (apply zlen_repeat; exact Hk).
    apply lastn_app_exact.
  - intros Hf0.
    destruct (Hp1 Hf0) as (q & Hq1).
    destruct (Hp2 _ _ ltac:(congruence) Hq1) as (q' & Hq2).
    pose proof (Hp3 _ ltac:(congruence) Hq2) as Hq3.
    rewrite Hq3 in Hp4. eexists. split; [exact Hp4 |].
    rewrite lastn_lastn by lia.
    replace (n / 160) with (zlen (zero_samples (n / 160))) at 1
      by (apply zlen_repeat; exact Hk).
    apply lastn_app_exact.
Qed.

End WindowContentTheorems.

(** ** What [generate_input] touches and returns *)

Section GenerateInputFootprint.

Context `{CO : Components}.

(** X1. Whether it returns or raises, [generate_input] changes nothing but
    the three buffers and [prevVol]: the settings, the handle, the store
    of pipeline objects, the precision flag, the rates, the model slot and
    the log are as before. When it returns, the arrays and the volume it
    hands back are the ones it left in the instance. *)
Theorem generate_input_footprint (r r' : RVCr2) (newData : list float)
    (cf sola extra : Z) (outcome : exn + InputData) :
  generate_input newData cf sola extra r = (outcome, r') ->
  (settings r' = settings r
   /\ pipeline r' = pipeline r
   /\ store r' = store r
   /\ forceTensor r' = forceTensor r
   /\ inputSampleRate r' = inputSampleRate r
   /\ outputSampleRate r' = outputSampleRate r
   /\ slotInfo r' = slotInfo r
   /\ model_dir r' = model_dir r
   /\ log r' = log r)
  /\ (forall data, outcome = inr data ->
      audio_buffer r' = Some (data_audio data)
      /\ pitchf_buffer r' = data_pitchf data
      /\ feature_buffer r' = Some (data_feature data)
      /\ prevVol r' = data_vol data).
Proof.
  intros E. split.
  - pose proof (preserves_generate_input _ _ _ _ _ _ _ E) as H.
    unfold frame in H. intuition.
  - intros data ->.
    pose proof (generate_input_returns_buffers _ _ _ _ _ _ _ E) as H.
    destruct data as [[[[[audio pitchf] feature] convertSize] vol] outSize].
    cbn [data_audio data_pitchf data_feature data_vol].
    destruct H as (Ha & Hp & Hf & Hv & _). repeat split; assumption.
Qed.

End GenerateInputFootprint.

(** A loud first chunk on the instance that has a handle. *)
Lemma generate_input_footprint_witness :
  let r := Sample.ready Sample.slot 0 in
  let out := Sample.gate_run (Sample.loud 320) 0 in
  pipeline (snd out) = Some 0%nat
  /\ store (snd out) = [Sample.handle]
  /\ log (snd out) = []
  /\ audio_buffer (snd out) = Some (data_audio (Sample.gate_data (Sample.loud 320) 0)).
Proof.
  intros r out.
  destruct (generate_input_footprint r (snd out) (Sample.loud 320) 160 0 0 (fst out))
    as ((_ & Hp & Hs & _ & _ & _ & _ & _ & Hl) & Hret).
  - unfold out, Sample.gate_run. apply surjective_pairing.
  - split; [exact Hp |]. split; [exact Hs |]. split; [exact Hl |].
    apply (Hret (Sample.gate_data (Sample.loud 320) 0)).
    vm_compute. reflexivity.
Defined.

(** A first chunk of 160 loud samples with a crossfade of 160: the window
    is 160 zeros and then the chunk. *)
Lemma audio_window_is_the_recent_history_witness :
  exists data r',
    generate_input (Sample.loud 160) 160 0 0 (Sample.created Sample.slot 0)
    = (inr data, r')
    /\ audio_buffer r' = Some (data_audio data)
    /\ data_audio data
       = lastn 320 (zero_samples 320 ++ [] ++ normalized (Sample.loud 160))
    /\ lastn 160 (data_audio data) = normalized (Sample.loud 160).
Proof.
  apply (audio_window_is_the_recent_history (Sample.created Sample.slot 0)
           (Sample.call (Sample.loud 160) 160 0 0)).
  - vm_compute. discriminate.
  - left. reflexivity.
  - split; [vm_compute; discriminate |].
    split; [vm_compute; discriminate |].
    split; [vm_compute; discriminate |].
    eexists. vm_compute. reflexivity.
  - reflexivity.
Defined.

(** A first chunk of 400 samples: two whole frames, so two zero rows of
    four channels and two zero pitch values. *)
Lemma new_frames_are_zero_placeholders_witness :
  exists data r',
    generate_input (Sample.loud 400) 160 0 0 (Sample.created Sample.slot 0)
    = (inr data, r')
    /\ lastn 2 (data_feature data) = zero_rows 2 4
    /\ (true = true ->
        exists p, data_pitchf data = Some p /\ lastn 2 p = zero_samples 2).
Proof.
  apply (new_frames_are_zero_placeholders (Sample.created Sample.slot 0)
           (Sample.call (Sample.loud 400) 160 0 0)).
  - vm_compute. discriminate.
  - left. reflexivity.
  - split; [vm_compute; discriminate |].
    split; [vm_compute; discriminate |].
    split; [vm_compute; discriminate |].
    eexists. vm_compute. reflexivity.
  - reflexivity.
Defined.

(** ** Assembly, seen from the store of pipeline objects *)

Section AssemblyFootprint.

Context `{CO : Components} `{CL : @Collaborators CO}.

(** X4. [_loadIndex] never raises. It returns the index exactly when the
    path exists, is a regular file and faiss reads it, and [None] in every
    other case; it changes nothing but the log. *)
Theorem loadIndex_is_total_and_exact (path : string) (r : RVCr2) :
  exists index r',
    _loadIndex path r = (inr index, r')
    /\ (forall i, index = Some i <->
                  path_exists path = true /\ path_isfile path = true
                  /\ read_index path = inr i)
    /\ same_but_log r r'
    /\ log_grows r r'.
Proof.
  destruct (loadIndex_spec path r) as (r' & E & _).
  eexists. exists r'. split; [exact E |]. split.
  - intros i. unfold index_missing.
    destruct (path_exists path), (path_isfile path); cbn;
      try (split; [discriminate | intros (H1 & H2 & _); discriminate]).
    destruct (read_index path) as [e | j].
    + split; [discriminate | intros (_ & _ & H); discriminate].
    + split.
      * intros H. injection H as ->. repeat split.
      * intros (_ & _ & H). injection H as ->. reflexivity.
  - split.
    + split; [apply (loadIndex_handle path _ _ _ E) |].
      split; [apply (loadIndex_session path _ _ _ E)
             | apply (loadIndex_forceTensor path _ _ _ E)].
    + apply (loadIndex_log path _ _ _ E).
Qed.


End AssemblyFootprint.


(** ** [initialize] and the methods that call it *)

Section InitializeOutcome.

Context `{CO : Components} `{CL : @Collaborators CO}.

(** The two outcomes of [initialize], on the handle and the settings. *)
Lemma initialize_swaps_or_keeps_aux (r r' : RVCr2) :
  initialize r = (inr tt, r') ->
  (pipeline r' = pipeline r /\ settings r' = settings r)
  \/ (pipeline r' = Some (length (store r))
      /\ settings r' = reset_to_defaults (settings r) (slotInfo r)).
Proof.
  intros E.
  destruct (getInferencer (modelType (slotInfo r))
              (model_path (model_dir r) (slotIndex (slotInfo r)) (modelFile (slotInfo r)))
              (settings r "gpu") (version (slotInfo r))) as [e | inferencer] eqn:Einf.
  - destruct (initialize_failure r) as (r2 & E2 & (Hp & Hst & Hset) & Hlog).
    { left. exists e. exact Einf. }
    rewrite E2 in E. injection E as <-. left. split; assumption.
  - destruct (getEmbedder (embedder (slotInfo r))
                (halfPrecisionAvailable (forceTensor r) (settings r "gpu"))
                (getDevice (forceTensor r) (settings r "gpu"))) as [e | emb] eqn:Eemb.
    + destruct (initialize_failure r) as (r2 & E2 & (Hp & Hst & Hset) & Hlog).
      { right. exists e. exact Eemb. }
      rewrite E2 in E. injection E as <-. left. split; assumption.
    + destruct (initialize_success r inferencer emb Einf Eemb)
        as (r2 & E2 & Hp & Hst & Hset).
      rewrite E2 in E. injection E as <-. right. split; assumption.
Qed.

(** X6. [initialize] never raises and never touches the buffers, the
    rates or the precision flag. Either the assembly failed, and then the
    handle, the store and every setting are as before and the failure is
    in the log; or the instance holds a new handle at a new address, the
    objects already in the store are untouched, and [tran], [indexRatio]
    and [protect] are the defaults of the model slot. *)
Theorem initialize_swaps_or_keeps (r r' : RVCr2) (outcome : exn + unit) :
  initialize r = (outcome, r') ->
  outcome = inr tt
  /\ same_session r r'
  /\ forceTensor r' = forceTensor r
  /\ ((pipeline r' = pipeline r /\ store r' = store r /\ settings r' = settings r
       /\ In create_failed (log r'))
      \/ (pipeline r' = Some (length (store r))
          /\ (exists p, store r' = store r ++ [p])
          /\ settings r' = reset_to_defaults (settings r) (slotInfo r))).
Proof.
  intros E.
  pose proof (initialize_session _ _ _ E) as Hsess.
  pose proof (initialize_forceTensor _ _ _ E) as Hforce.
  destruct (getInferencer (modelType (slotInfo r))
              (model_path (model_dir r) (slotIndex (slotInfo r)) (modelFile (slotInfo r)))
              (settings r "gpu") (version (slotInfo r))) as [e | inferencer] eqn:Einf.
  - destruct (initialize_failure r) as (r2 & E2 & (Hp & Hst & Hset) & Hlog).
    { left. exists e. exact Einf. }
    rewrite E2 in E. injection E as <- <-.
    split; [reflexivity |]. split; [exact Hsess |]. split; [exact Hforce |].
    left. repeat split; assumption.
  - destruct (getEmbedder (embedder (slotInfo r))
                (halfPrecisionAvailable (forceTensor r) (settings r "gpu"))
                (getDevice (forceTensor r) (settings r "gpu"))) as [e | emb] eqn:Eemb.
    + destruct (initialize_failure r) as (r2 & E2 & (Hp & Hst & Hset) & Hlog).
      { right. exists e. exact Eemb. }
      rewrite E2 in E. injection E as <- <-.
      split; [reflexivity |]. split; [exact Hsess |]. split; [exact Hforce |].
    left. repeat split; assumption.
    + destruct (initialize_success r inferencer emb Einf Eemb)
        as (r2 & E2 & Hp & Hst & Hset).
      rewrite E2 in E. injection E as <- <-.
      split; [reflexivity |]. split; [exact Hsess |]. split; [exact Hforce |].
      right. split; [exact Hp |]. split; [eexists; exact Hst | exact Hset].
Qed.

(** X7. After an [initialize] whose assembly succeeds, [get_model_current]
    reports the defaults of the model slot, whatever the three settings
    were before; after one whose assembly fails it reports the settings as
    they were. *)
Theorem get_model_current_after_initialize (r : RVCr2) :
  let gpu := settings r "gpu" in
  let inferencer_result :=
    getInferencer (modelType (slotInfo r))
      (model_path (model_dir r) (slotIndex (slotInfo r)) (modelFile (slotInfo r)))
      gpu (version (slotInfo r)) in
  let embedder_result :=
    getEmbedder (embedder (slotInfo r)) (halfPrecisionAvailable (forceTensor r) gpu)
      (getDevice (forceTensor r) gpu) in
  exists r' current,
    bind initialize (fun _ => get_model_current) r = (inr current, r')
    /\ (forall inferencer emb,
          inferencer_result = inr inferencer -> embedder_result = inr emb ->
          current = [("defaultTune", defaultTune (slotInfo r));
                     ("defaultIndexRatio", defaultIndexRatio (slotInfo r));
                     ("defaultProtect", defaultProtect (slotInfo r))])
    /\ ((exists e, inferencer_result = inl e) \/ (exists e, embedder_result = inl e) ->
        current = [("defaultTune", settings r "tran");
                   ("defaultIndexRatio", settings r "indexRatio");
                   ("defaultProtect", settings r "protect")]).
Proof.
  intros gpu inferencer_result embedder_result.
  destruct (initialize_returns r) as (r' & E).
  exists r'. eexists. rewrite (bind_ok _ _ _ _ _ E).
  split; [reflexivity |]. split.
  - intros inferencer emb Hi He.
    destruct (initialize_success r inferencer emb Hi He) as (r2 & E2 & _ & _ & Hset).
    rewrite E in E2. injection E2 as <-. rewrite Hset. reflexivity.
  - intros Hfail.
    destruct (initialize_failure r Hfail) as (r2 & E2 & (_ & _ & Hset) & _).
    rewrite E in E2. injection E2 as <-. rewrite Hset. reflexivity.
Qed.

End InitializeOutcome.

(** A new instance, with everything loading. *)
Lemma initialize_swaps_or_keeps_witness :
  let r := Sample.created Sample.slot 0 in
  let out := initialize (CL := SampleMore.loads) r in
  fst out = inr tt
  /\ forceTensor (snd out) = false
  /\ audio_buffer (snd out) = None.
Proof.
  intros r out.
  destruct (initialize_swaps_or_keeps (CL := SampleMore.loads) r (snd out) (fst out))
    as (Hout & (Ha & _) & Hforce & _).
  - unfold out. apply surjective_pairing.
  - split; [exact Hout |]. split; [exact Hforce | exact Ha].
Defined.

Section SettingsReadBack.

Context `{CO : Components} `{CL : @Collaborators CO} `{SC : SettingsSchema}.

Lemma reset_to_defaults_other (s : string -> pyval) (slot : RVCModelSlot) (k : string) :
  k <> "tran" -> k <> "indexRatio" -> k <> "protect" ->
  reset_to_defaults s slot k = s k.
Proof.
  intros H1 H2 H3. unfold reset_to_defaults.
  rewrite !setattr_other by assumption. reflexivity.
Qed.

(** A string key stores [str(val)], whatever happens to the handle. *)
Lemma update_str_settings (r : RVCr2) (key : string) (val : pyval) :
  key_in key intData = false ->
  key_in key floatData = false ->
  key_in key strData = true ->
  exists r',
    update_settings key val r = (inr true, r')
    /\ settings r' = setattr (settings r) key (PStr (py_str val)).
Proof.
  intros H1 H2 H3. unfold update_settings, emit.
  rewrite bind_modify. rewrite H1, H2, H3.
  rewrite bind_modify, bind_gets.
  destruct (String.eqb key "f0Detector").
  - match goal with
    | |- context [match ?o with Some _ => _ | None => _ end] => destruct o
    end.
    + unfold bind, gets, modify, ret. cbn.
      match goal with
      | |- context [match ?o with Some _ => _ | None => _ end] => destruct o
      end; eexists; split; reflexivity.
    + eexists. split; reflexivity.
  - eexists. split; reflexivity.
Qed.

(** X8. What [update_settings] stores is what a later read finds, in the
    type of the key's table: [int(val)] for a key of [intData], [float(val)]
    for a key of [floatData] that is not in [intData], and [str(val)] for a
    key of [strData] that is in neither. This holds for ["gpu"] and
    ["f0Detector"] too, whatever became of the handle. *)
Theorem update_settings_read_back (r : RVCr2) (key : string) (val : pyval) :
  (forall v, key_in key intData = true -> py_int val = inr v ->
     exists r', update_settings key val r = (inr true, r')
                /\ settings r' key = PInt v)
  /\ (forall v, key_in key intData = false -> key_in key floatData = true ->
      py_float val = inr v ->
      exists r', update_settings key val r = (inr true, r')
                 /\ settings r' key = PFloat v)
  /\ (key_in key intData = false -> key_in key floatData = false ->
      key_in key strData = true ->
      exists r', update_settings key val r = (inr true, r')
                 /\ settings r' key = PStr (py_str val)).
Proof.
  split; [| split].
  - intros v H1 Hv.
    destruct (String.eqb_spec key "gpu") as [-> | Hne].
    + destruct (update_gpu r val v H1 Hv) as (r' & E & Einit).
      exists r'. split; [exact E |].
      destruct (initialize_swaps_or_keeps_aux _ _ Einit) as [(_ & Hset) | (_ & Hset)];
        rewrite Hset.
      * cbn; first [reflexivity | apply setattr_same].
      * rewrite reset_to_defaults_other by discriminate. cbn; first [reflexivity | apply setattr_same].
    + eexists. split; [apply (update_int r key val v H1 Hne Hv) |].
      cbn; first [reflexivity | apply setattr_same].
  - intros v H1 H2 Hv.
    eexists. split; [apply (update_float r key val v H1 H2 Hv) |].
    cbn; first [reflexivity | apply setattr_same].
  - intros H1 H2 H3.
    destruct (update_str_settings r key val H1 H2 H3) as (r' & E & Hset).
    exists r'. split; [exact E |]. rewrite Hset. apply setattr_same.
Qed.

(** X9. A device change always stores the new device. When the assembly
    for it succeeds, the pitch shift, the index ratio and the protect
    ratio are set back to the defaults of the model slot and every other
    setting is kept; when it fails, every other setting is kept and the
    instance goes on with the handle it had, assembled for the old
    device. *)
Theorem device_change_and_the_settings (r : RVCr2) (val : pyval) (v : Z) :
  key_in "gpu" intData = true ->
  py_int val = inr v ->
  let inferencer_result :=
    getInferencer (modelType (slotInfo r))
      (model_path (model_dir r) (slotIndex (slotInfo r)) (modelFile (slotInfo r)))
      (PInt v) (version (slotInfo r)) in
  let embedder_result :=
    getEmbedder (embedder (slotInfo r)) (halfPrecisionAvailable false (PInt v))
      (getDevice false (PInt v)) in
  exists r',
    update_settings "gpu" val r = (inr true, r')
    /\ settings r' "gpu" = PInt v
    /\ (forall inferencer emb,
          inferencer_result = inr inferencer -> embedder_result = inr emb ->
          settings r' "tran" = defaultTune (slotInfo r)
          /\ settings r' "indexRatio" = defaultIndexRatio (slotInfo r)
          /\ settings r' "protect" = defaultProtect (slotInfo r)
          /\ forall k, k <> "gpu" -> k <> "tran" -> k <> "indexRatio" -> k <> "protect" ->
                       settings r' k = settings r k)
    /\ ((exists e, inferencer_result = inl e) \/ (exists e, embedder_result = inl e) ->
        pipeline r' = pipeline r
        /\ forall k, k <> "gpu" -> settings r' k = settings r k).
Proof.
  intros H1 Hv inferencer_result embedder_result.
  destruct (update_gpu r val v H1 Hv) as (r' & E & Einit).
  set (rg := with_forceTensor false
               (with_settings (setattr (settings r) "gpu" (PInt v))
                  (logged "gpu" val r))) in *.
  exists r'. split; [exact E |]. split.
  { destruct (initialize_swaps_or_keeps_aux _ _ Einit) as [(_ & Hset) | (_ & Hset)];
      rewrite Hset.
    - cbn; first [reflexivity | apply setattr_same].
    - rewrite reset_to_defaults_other by discriminate. cbn; first [reflexivity | apply setattr_same]. }
  split.
  - intros inferencer emb Hi He.
    destruct (initialize_success rg inferencer emb Hi He) as (r2 & E2 & _ & _ & Hset).
    rewrite Einit in E2. injection E2 as <-. rewrite Hset.
    unfold reset_to_defaults. cbn [slotInfo rg with_forceTensor with_settings logged with_log].
    split; [rewrite !setattr_other by discriminate; apply setattr_same |].
    split; [rewrite !setattr_other by discriminate; apply setattr_same |].
    split; [apply setattr_same |].
    intros k Hk1 Hk2 Hk3 Hk4. rewrite !setattr_other by assumption.
    cbn. apply setattr_other. exact Hk1.
  - intros Hfail.
    destruct (initialize_failure rg Hfail) as (r2 & E2 & (Hp & _ & Hset) & _).
    rewrite Einit in E2. injection E2 as <-.
    split; [exact Hp |].
    intros k Hk. rewrite Hset. cbn. apply setattr_other. exact Hk.
Qed.

End SettingsReadBack.

(** A pitch shift of 3, a protect ratio of 1 and the detector "crepe". *)
Lemma update_settings_read_back_witness :
  let r := Sample.ready Sample.slot 0 in
  (exists r',
     update_settings (CL := SampleMore.loads) (SC := Sample.schema) "tran" (PInt 3) r
     = (inr true, r')
     /\ settings r' "tran" = PInt 3)
  /\ (exists r',
     update_settings (CL := SampleMore.loads) (SC := Sample.schema) "protect" (PInt 1) r
     = (inr true, r')
     /\ settings r' "protect" = PFloat 1)
  /\ (exists r',
     update_settings (CL := SampleMore.loads) (SC := Sample.schema)
       "f0Detector" (PStr "crepe") r
     = (inr true, r')
     /\ settings r' "f0Detector" = PStr "crepe").
Proof.
  intros r. split; [| split].
  - apply (proj1 (update_settings_read_back (CL := SampleMore.loads)
                    (SC := Sample.schema) r "tran" (PInt 3)) 3); reflexivity.
  - apply (proj1 (proj2 (update_settings_read_back (CL := SampleMore.loads)
                           (SC := Sample.schema) r "protect" (PInt 1))) 1%float);
      reflexivity.
  - apply (proj2 (proj2 (update_settings_read_back (CL := SampleMore.loads)
                           (SC := Sample.schema) r "f0Detector" (PStr "crepe"))));
      reflexivity.
Defined.

(** The device 1, with everything loading and with an inferencer that does
    not load. *)
Lemma device_change_and_the_settings_witness :
  let r := Sample.ready Sample.slot 0 in
  (exists r',
     update_settings (CL := SampleMore.loads) (SC := Sample.schema) "gpu" (PInt 1) r
     = (inr true, r')
     /\ settings r' "gpu" = PInt 1
     /\ settings r' "tran" = PInt 0)
  /\ (exists r',
     update_settings (CL := SampleMore.fails) (SC := Sample.schema) "gpu" (PInt 1) r
     = (inr true, r')
     /\ settings r' "gpu" = PInt 1
     /\ settings r' "tran" = PInt 12
     /\ pipeline r' = Some 0%nat).
Proof.
  intros r. split.
  - destruct (device_change_and_the_settings (CL := SampleMore.loads)
                (SC := Sample.schema) r (PInt 1) 1 eq_refl eq_refl)
      as (r' & E & Hgpu & Hok & _).
    exists r'. split; [exact E |]. split; [exact Hgpu |].
    destruct (Hok "model_dir/model.pth" "hubert_base" eq_refl eq_refl) as (Ht & _).
    exact Ht.
  - destruct (device_change_and_the_settings (CL := SampleMore.fails)
                (SC := Sample.schema) r (PInt 1) 1 eq_refl eq_refl)
      as (r' & E & Hgpu & _ & Hfail).
    exists r'. split; [exact E |]. split; [exact Hgpu |].
    destruct Hfail as (Hp & Hkeys).
    { left. eexists. reflexivity. }
    split; [| exact Hp].
    rewrite Hkeys by discriminate. reflexivity.
Defined.

(** ** [export2onnx] *)

Section ExportToOnnx.

Context `{CO : Components} `{CL : @Collaborators CO} `{EX : Exporter}.

(** X10. [export2onnx] on a slot that already holds an ONNX model answers
    ["ng"] with an empty path and leaves the instance, its handle included,
    as it was but for the warning in the log. On any other slot it drops
    the handle, runs [initialize] and answers ["ok"] with the file under
    [/tmp]; it answers ["ok"] even when the assembly failed, and then the
    instance is left with no handle at all. *)
Theorem export2onnx_outcomes (r : RVCr2) :
  (isONNX (slotInfo r) = true ->
   exists r',
     export2onnx r = (inr [("status", "ng"); ("path", "")], r')
     /\ same_but_log r r'
     /\ In no_pytorch_file (log r'))
  /\ (isONNX (slotInfo r) = false ->
      let gpu := settings r "gpu" in
      let inferencer_result :=
        getInferencer (modelType (slotInfo r))
          (model_path (model_dir r) (slotIndex (slotInfo r)) (modelFile (slotInfo r)))
          gpu (version (slotInfo r)) in
      let embedder_result :=
        getEmbedder (embedder (slotInfo r)) (halfPrecisionAvailable (forceTensor r) gpu)
          (getDevice (forceTensor r) gpu) in
      let name := export2onnx_file gpu (slotInfo r) in
      exists r',
        export2onnx r
        = (inr [("status", "ok"); ("path", ("/tmp/" ++ name)%string); ("filename", name)],
           r')
        /\ same_session r r'
        /\ (forall inferencer emb,
              inferencer_result = inr inferencer -> embedder_result = inr emb ->
              pipeline r' = Some (length (store r)))
        /\ ((exists e, inferencer_result = inl e) \/ (exists e, embedder_result = inl e) ->
            pipeline r' = None /\ settings r' = settings r)).
Proof.
  split.
  - intros Honnx. unfold export2onnx. rewrite bind_gets, Honnx.
    unfold emit. rewrite bind_modify.
    eexists. split; [reflexivity |]. split.
    + unfold same_but_log, same_handle, same_session, same_forceTensor. cbn.
      repeat split.
    + cbn. apply in_or_app. right. left. reflexivity.
  - intros Honnx gpu inferencer_result embedder_result name.
    set (r0 := with_pipeline None (store r) r).
    assert (exists r1,
               (match pipeline r with
                | Some _ => modify (fun r => with_pipeline None (store r) r)
                | None => ret tt
                end) r = (inr tt, r1)
               /\ pipeline r1 = None
               /\ same_session r r1
               /\ settings r1 = settings r /\ store r1 = store r
               /\ forceTensor r1 = forceTensor r /\ slotInfo r1 = slotInfo r
               /\ model_dir r1 = model_dir r)
      as (r1 & E1 & Hp1 & Hsess1 & Hset1 & Hst1 & Hf1 & Hslot1 & Hdir1).
    { destruct (pipeline r) eqn:Ep.
      - exists r0. unfold same_session. cbn. repeat split.
      - exists r. unfold same_session. repeat split. exact Ep. }
    destruct (initialize_returns r1) as (r' & E2).
    pose proof (initialize_session _ _ _ E2) as Hsess2.
    exists r'. split; [| split; [| split]].
    + unfold export2onnx. rewrite bind_gets, Honnx. rewrite bind_gets.
      rewrite (bind_ok _ _ _ _ _ E1). rewrite (bind_ok _ _ _ _ _ E2).
      rewrite bind_gets.
      assert (settings r' "gpu" = gpu) as ->; [| reflexivity].
      destruct (initialize_swaps_or_keeps_aux _ _ E2) as [(_ & Hset) | (_ & Hset)];
        rewrite Hset.
      * rewrite Hset1. reflexivity.
      * rewrite reset_to_defaults_other by discriminate. rewrite Hset1. reflexivity.
    + etransitivity; eassumption.
    + intros inferencer emb Hi He.
      destruct (initialize_success r1 inferencer emb) as (r2 & E3 & Hp & _).
      { rewrite Hset1, Hslot1, Hdir1. exact Hi. }
      { rewrite Hset1, Hslot1, Hf1. exact He. }
      rewrite E2 in E3. injection E3 as <-. rewrite Hp, Hst1. reflexivity.
    + intros Hfail.
      destruct (initialize_failure r1) as (r2 & E3 & (Hp & _ & Hset) & _).
      { cbv zeta. rewrite Hset1, Hslot1, Hdir1, Hf1. exact Hfail. }
      rewrite E2 in E3. injection E3 as <-.
      split; [rewrite Hp; exact Hp1 | rewrite Hset; exact Hset1].
Qed.

End ExportToOnnx.

(** A slot that holds an ONNX model, and one that does not while the
    inferencer no longer loads. *)
Lemma export2onnx_outcomes_witness :
  let r := Sample.ready Sample.slot 0 in
  (exists r',
     export2onnx (CL := SampleMore.loads) (EX := SampleMore.exporter true) r
     = (inr [("status", "ng"); ("path", "")], r')
     /\ pipeline r' = Some 0%nat)
  /\ (exists r',
     export2onnx (CL := SampleMore.fails) (EX := SampleMore.exporter false) r
     = (inr [("status", "ok"); ("path", "/tmp/model.onnx"); ("filename", "model.onnx")],
        r')
     /\ pipeline r' = None).
Proof.
  intros r. split.
  - destruct (proj1 (export2onnx_outcomes (CL := SampleMore.loads)
                       (EX := SampleMore.exporter true) r) eq_refl)
      as (r' & E & ((Hp & _) & _) & _).
    exists r'. split; [exact E | exact Hp].
  - destruct (proj2 (export2onnx_outcomes (CL := SampleMore.fails)
                       (EX := SampleMore.exporter false) r) eq_refl)
      as (r' & E & _ & _ & Hfail).
    exists r'. split; [exact E |].
    apply Hfail. left. eexists. reflexivity.
Defined.

(** ** [inference] without a handle *)

Section NoHandle.

Context `{CO : Components} `{CL : @Collaborators CO} `{EX : Exporter}.

(** Without a handle [inference] raises and consumes nothing. *)
Lemma inference_needs_handle_and_rates_aux (r : RVCr2) (receivedData : list float)
    (cf sola : Z) :
  (pipeline r = None ->
   exists r',
     inference receivedData cf sola r = (inl PipelineNotInitializedException, r')
     /\ same_but_log r r'
     /\ log r' = log r ++ [not_initialized])
  /\ (forall addr, pipeline r = Some addr -> inputSampleRate r = None ->
      inference receivedData cf sola r = (inl AttributeError, r)).
Proof.
  split.
  - intros Hp. unfold inference. rewrite bind_gets, Hp.
    unfold emit. rewrite bind_modify.
    eexists. split; [reflexivity |]. split; [| reflexivity].
    unfold same_but_log, same_handle, same_session, same_forceTensor. cbn.
    repeat split.
  - intros addr Hp Hr. unfold inference. rewrite bind_gets, Hp.
    unfold bind at 1. rewrite bind_gets, Hr. reflexivity.
Qed.

(** An export whose reassembly fails returns and leaves no handle. *)
Lemma export2onnx_failed_assembly (r : RVCr2) :
  isONNX (slotInfo r) = false ->
  (exists e, getInferencer (modelType (slotInfo r))
               (model_path (model_dir r) (slotIndex (slotInfo r))
                  (modelFile (slotInfo r)))
               (settings r "gpu") (version (slotInfo r)) = inl e)
  \/ (exists e, getEmbedder (embedder (slotInfo r))
                  (halfPrecisionAvailable (forceTensor r) (settings r "gpu"))
                  (getDevice (forceTensor r) (settings r "gpu")) = inl e) ->
  exists r' res,
    export2onnx r = (inr res, r') /\ same_session r r' /\ pipeline r' = None.
Proof.
  intros Honnx Hfail.
  assert (exists r1,
             (match pipeline r with
              | Some _ => modify (fun r => with_pipeline None (store r) r)
              | None => ret tt
              end) r = (inr tt, r1)
             /\ pipeline r1 = None
             /\ same_session r r1
             /\ settings r1 = settings r
             /\ forceTensor r1 = forceTensor r /\ slotInfo r1 = slotInfo r
             /\ model_dir r1 = model_dir r)
    as (r1 & E1 & Hp1 & Hsess1 & Hset1 & Hf1 & Hslot1 & Hdir1).
  { destruct (pipeline r) eqn:Ep.
    - eexists. unfold same_session. cbn. repeat split.
    - exists r. unfold same_session. repeat split. exact Ep. }
  destruct (initialize_failure r1) as (r2 & E2 & (Hp & _ & _) & _).
  { rewrite Hset1, Hslot1, Hdir1, Hf1. exact Hfail. }
  pose proof (initialize_session _ _ _ E2) as Hsess2.
  exists r2. eexists. split; [| split].
  - unfold export2onnx. rewrite bind_gets, Honnx. rewrite bind_gets.
    rewrite (bind_ok _ _ _ _ _ E1). rewrite (bind_ok _ _ _ _ _ E2).
    rewrite bind_gets. reflexivity.
  - etransitivity; eassumption.
  - rewrite Hp. exact Hp1.
Qed.

(** X11. Without a handle [inference] raises
    [PipelineNotInitializedException] before it reads the sampling rates or
    touches a buffer: the chunk is not consumed and only the log changes.
    With a handle but before [setSamplingRate], it raises [AttributeError]
    and changes nothing at all. *)
Theorem inference_needs_handle_and_rates (r : RVCr2) (receivedData : list float)
    (cf sola : Z) :
  (pipeline r = None ->
   exists r',
     inference receivedData cf sola r = (inl PipelineNotInitializedException, r')
     /\ same_but_log r r'
     /\ log r' = log r ++ [not_initialized])
  /\ (forall addr, pipeline r = Some addr -> inputSampleRate r = None ->
      inference receivedData cf sola r = (inl AttributeError, r)).
Proof. exact (inference_needs_handle_and_rates_aux r receivedData cf sola). Qed.

(** X12. A new instance has no handle and empty buffers. If the assembly
    fails when it is initialized, it still has none: [initialize] returns
    normally and the first [inference] raises
    [PipelineNotInitializedException], with the buffers still unset. *)
Theorem new_instance_with_failed_assembly (force : bool) (lines : list string)
    (defaults : string -> pyval) (dir : string) (slot : RVCModelSlot)
    (receivedData : list float) (cf sola : Z) :
  let r := __init__ force lines defaults dir slot in
  let gpu := defaults "gpu" in
  (exists e, getInferencer (modelType slot)
               (model_path dir (slotIndex slot) (modelFile slot)) gpu (version slot)
             = inl e)
  \/ (exists e, getEmbedder (embedder slot) (halfPrecisionAvailable force gpu)
                  (getDevice force gpu) = inl e) ->
  buffers_ok r
  /\ exists r',
       bind initialize (fun _ => inference receivedData cf sola) r
       = (inl PipelineNotInitializedException, r')
       /\ pipeline r' = None
       /\ audio_buffer r' = None
       /\ In create_failed (log r').
Proof.
  intros r gpu Hfail. split; [left; reflexivity |].
  destruct (initialize_failure r Hfail) as (r1 & E1 & (Hp1 & _ & _) & Hlog1).
  pose proof (initialize_session _ _ _ E1) as (Ha1 & _).
  destruct (proj1 (inference_needs_handle_and_rates_aux r1 receivedData cf sola))
    as (r' & E2 & Hsame & Hlog2).
  { rewrite Hp1. reflexivity. }
  exists r'. rewrite (bind_ok _ _ _ _ _ E1).
  split; [exact E2 |].
  destruct Hsame as ((Hp2 & _) & (Ha2 & _) & _).
  split; [rewrite Hp2, Hp1; reflexivity |].
  split; [rewrite Ha2, Ha1; reflexivity |].
  rewrite Hlog2. apply in_or_app. left. exact Hlog1.
Qed.

(** X13. After an [export2onnx] whose reassembly fails, the instance that
    was converting can no longer convert: the export answers ["ok"] and the
    next [inference] raises [PipelineNotInitializedException]. *)
Theorem export_with_failed_assembly_disables_inference (r : RVCr2)
    (receivedData : list float) (cf sola : Z) :
  isONNX (slotInfo r) = false ->
  let gpu := settings r "gpu" in
  (exists e, getInferencer (modelType (slotInfo r))
               (model_path (model_dir r) (slotIndex (slotInfo r)) (modelFile (slotInfo r)))
               gpu (version (slotInfo r)) = inl e)
  \/ (exists e, getEmbedder (embedder (slotInfo r))
                  (halfPrecisionAvailable (forceTensor r) gpu)
                  (getDevice (forceTensor r) gpu) = inl e) ->
  exists r',
    bind export2onnx (fun _ => inference receivedData cf sola) r
    = (inl PipelineNotInitializedException, r')
    /\ same_session r r'.
Proof.
  intros Honnx gpu Hfail.
  destruct (export2onnx_failed_assembly r Honnx Hfail)
    as (r1 & res & E1 & Hsess1 & Hp1).
  destruct (proj1 (inference_needs_handle_and_rates_aux r1 receivedData cf sola) Hp1)
    as (r' & E2 & (_ & Hsess2 & _) & _).
  exists r'. rewrite (bind_ok _ _ _ _ _ E1).
  split; [exact E2 |]. etransitivity; eassumption.
Qed.

End NoHandle.

(** A new instance, and the instance with a handle before any rate is
    set. *)
Lemma inference_needs_handle_and_rates_witness :
  (exists r',
     inference (CL := SampleMore.loads) (Sample.loud 320) 160 0
       (Sample.created Sample.slot 0)
     = (inl PipelineNotInitializedException, r')
     /\ audio_buffer r' = None)
  /\ inference (CL := SampleMore.loads) (Sample.loud 320) 160 0
       (with_pipeline (Some 0%nat) [Sample.handle] (Sample.created Sample.slot 0))
     = (inl AttributeError,
        with_pipeline (Some 0%nat) [Sample.handle] (Sample.created Sample.slot 0)).
Proof.
  split.
  - destruct (proj1 (inference_needs_handle_and_rates (CL := SampleMore.loads)
                       (Sample.created Sample.slot 0) (Sample.loud 320) 160 0) eq_refl)
      as (r' & E & (_ & (Ha & _) & _) & _).
    exists r'. split; [exact E | exact Ha].
  - apply (proj2 (inference_needs_handle_and_rates (CL := SampleMore.loads)
                    (with_pipeline (Some 0%nat) [Sample.handle]
                       (Sample.created Sample.slot 0))
                    (Sample.loud 320) 160 0) 0%nat); reflexivity.
Defined.

(** A new instance for the sample slot, with an inferencer that does not
    load. *)
Lemma new_instance_with_failed_assembly_witness :
  exists r',
    bind (initialize (CL := SampleMore.fails))
         (fun _ => inference (CL := SampleMore.fails) (Sample.loud 320) 160 0)
         (__init__ false [] (Sample.settings0 0) "model_dir" Sample.slot)
    = (inl PipelineNotInitializedException, r')
    /\ pipeline r' = None.
Proof.
  destruct (new_instance_with_failed_assembly (CL := SampleMore.fails)
              false [] (Sample.settings0 0) "model_dir" Sample.slot
              (Sample.loud 320) 160 0) as (_ & r' & E & Hp & _).
  - left. eexists. reflexivity.
  - exists r'. split; [exact E | exact Hp].
Defined.

(** The instance with a handle, exporting while the inferencer does not
    load. *)
Lemma export_with_failed_assembly_disables_inference_witness :
  exists r',
    bind (export2onnx (CL := SampleMore.fails) (EX := SampleMore.exporter false))
         (fun _ => inference (CL := SampleMore.fails) (Sample.loud 320) 160 0)
         (Sample.ready Sample.slot 0)
    = (inl PipelineNotInitializedException, r').
Proof.
  destruct (export_with_failed_assembly_disables_inference (CL := SampleMore.fails)
              (EX := SampleMore.exporter false) (Sample.ready Sample.slot 0)
              (Sample.loud 320) 160 0 eq_refl) as (r' & E & _).
  - left. eexists. reflexivity.
  - exists r'. exact E.
Defined.

(** ** The alignment across [inference] *)

Section AlignmentAcrossInference.

Context `{CO : Components} `{CL : @Collaborators CO}.

Lemma bind_any_inv {A B : Type} (m : M A) (k : exn + A -> M B) (r r' : RVCr2)
    (x : exn + B) :
  bind (attempt m) k r = (x, r') ->
  exists res r1, attempt m r = (inr res, r1) /\ k res r1 = (x, r').
Proof.
  unfold bind, attempt. destruct (m r) as [res r1]. intros E.
  exists res, r1. split; [reflexivity | exact E].
Qed.

Lemma buffers_ok_same_session (r r' : RVCr2) :
  same_session r r' -> buffers_ok r -> buffers_ok r'.
Proof.
  intros (Ha & Hp & Hf & _ & _ & _ & Hs & _) [Hnone | (k & Hk & H1 & H2 & H3)].
  - left. rewrite Ha. exact Hnone.
  - right. exists k. split; [exact Hk |]. unfold holds.
    rewrite Ha, Hf, Hp, Hs. repeat split; assumption.
Qed.

(** The recovery path leaves the buffers alone. *)
Lemma recovery_same_session :
  preserves same_session
    (emit half_precision_warning ;; modify (with_forceTensor true) ;;
     initialize ;; ret (@None (list float))).
Proof.
  unfold emit.
  apply preserves_bind; [exact _ | framed | intros ?].
  apply preserves_bind; [exact _ | framed | intros ?].
  apply preserves_bind; [exact _ | apply initialize_session | intros ?].
  framed.
Qed.

(** What is left of [inference] once an outcome of the [try] block is
    known leaves the buffers alone. *)
Lemma after_try_same_session (outcome : exn + list float) :
  preserves same_session
    (match outcome with
     | inr result => ret (Some result)
     | inl DeviceCannotSupportHalfPrecisionException =>
         emit half_precision_warning ;; modify (with_forceTensor true) ;;
         initialize ;; ret None
     | inl e => raise e
     end).
Proof.
  destruct outcome as [e | result]; [| framed].
  destruct e; try (apply preserves_raise; exact _).
  apply recovery_same_session.
Qed.

(** X14. If the external pipeline returns tails as long as the windows it
    is given, every call of [inference] keeps the buffers aligned, whatever
    its outcome: a converted chunk, a silent chunk, a dropped chunk after
    the precision fallback, or an exception. A session of [inference]
    calls therefore never drifts out of the 160 to 1 alignment. *)
Theorem inference_keeps_buffers_aligned (r r' : RVCr2) (receivedData : list float)
    (cf sola : Z) (outcome : exn + option (list float)) :
  exec_keeps_lengths ->
  0 <= embChannels (slotInfo r) ->
  buffers_ok r ->
  lengths_ok r receivedData cf sola ->
  inference receivedData cf sola r = (outcome, r') ->
  buffers_ok r'.
Proof.
  intros Hexec Hemb Hok Hlen E.
  destruct (pipeline r) as [addr |] eqn:Hp.
  2: { destruct (proj1 (inference_needs_handle_and_rates_aux r receivedData cf sola) Hp)
         as (r2 & E2 & (_ & Hsess & _) & _).
       rewrite E2 in E. injection E as _ <-.
       apply (buffers_ok_same_session _ _ Hsess Hok). }
  destruct (inputSampleRate r) as [inRate |] eqn:Hr.
  2: { rewrite (proj2 (inference_needs_handle_and_rates_aux r receivedData cf sola)
                  addr Hp Hr) in E.
       injection E as _ <-. exact Hok. }
  (* the three lengths *)
  destruct (to_16k (Py.truediv cf inRate)) as [e | cf16] eqn:Hcf.
  { unfold inference in E. rewrite bind_gets, Hp in E.
    unfold bind at 1 in E. rewrite bind_gets, Hr in E. cbn [rate ret] in E.
    unfold bind at 1, lift at 1 in E. rewrite Hcf in E.
    injection E as _ <-. exact Hok. }
  destruct (to_16k (Py.truediv sola inRate)) as [e | sola16] eqn:Hsola.
  { unfold inference in E. rewrite bind_gets, Hp in E.
    unfold bind at 1 in E. rewrite bind_gets, Hr in E. cbn [rate ret] in E.
    rewrite (bind_lift_ok _ _ _ _ Hcf) in E.
    unfold bind at 1, lift at 1 in E. rewrite Hsola in E.
    injection E as _ <-. exact Hok. }
  destruct (to_16k (Setting.truediv (settings r "extraConvertSize") inRate))
    as [e | extra16] eqn:Hextra.
  { unfold inference in E. rewrite bind_gets, Hp in E.
    unfold bind at 1 in E. rewrite bind_gets, Hr in E. cbn [rate ret] in E.
    rewrite (bind_lift_ok _ _ _ _ Hcf) in E.
    rewrite (bind_lift_ok _ _ _ _ Hsola) in E.
    rewrite bind_gets in E.
    unfold bind at 1, lift at 1 in E. rewrite Hextra in E.
    injection E as _ <-. exact Hok. }
  (* the buffers after generate_input *)
  pose proof (Hlen inRate cf16 sola16 extra16 Hr Hcf Hsola Hextra) as Hcall.
  destruct (generate_input_spec r _ Hemb Hok Hcall)
    as (a & ft & o & r1 & Egen & _ & Ha1 & Hf1 & _ & Hs1 & Hok1 & _).
  cbn [c_newData c_crossfadeSize c_solaSearchFrame c_extra_frame] in Egen.
  set (data := (a, pitchf_buffer r1, ft, _, prevVol r1, o)) in Egen.
  assert (at_gate r receivedData cf sola addr inRate data r1) as Hgate.
  { split; [exact Hp |]. split; [exact Hr |].
    exists cf16, sola16, extra16. repeat split; assumption. }
  destruct (inference_at_gate _ _ _ _ _ _ _ _ Hgate) as (Hframe & Einf).
  rewrite Einf in E. clear Einf. unfold data in E.
  destruct (Setting.lt (prevVol r1) (settings r "silentThreshold")) as [e | silent].
  { unfold bind, lift in E. injection E as _ <-. exact Hok1. }
  rewrite (bind_lift_ok (inr silent) _ _ silent eq_refl) in E.
  destruct silent.
  { unfold bind, lift, ret in E.
    destruct (np.zeros _); injection E as _ <-; exact Hok1. }
  destruct (nth_error (store r) addr) as [pipe |].
  2: { unfold raise in E. injection E as _ <-. exact Hok1. }
  (* the try block *)
  apply bind_any_inv in E. destruct E as (res & rc & Etry & Erest).
  apply (buffers_ok_same_session rc r').
  { apply (after_try_same_session res _ _ _ Erest). }
  unfold attempt in Etry.
  match type of Etry with
  | (let (_, _) := ?m r1 in _) = _ => destruct (m r1) as [x rx] eqn:Em
  end.
  injection Etry as _ <-.
  destruct (extra_seconds r inRate) as [e | seconds].
  { unfold bind, lift in Em. injection Em as _ <-. exact Hok1. }
  rewrite (bind_lift_ok (inr seconds) _ _ seconds eq_refl) in Em.
  fold data in Em.
  destruct (exec pipe (exec_args r data seconds)) as [e | [[audio_out pitchf'] feature']]
    eqn:Eexec.
  { unfold bind, lift in Em. injection Em as _ <-. exact Hok1. }
  rewrite (bind_lift_ok (inr (audio_out, pitchf', feature')) _ _ _ eq_refl) in Em.
  rewrite !bind_modify in Em.
  (* the tails are committed *)
  assert (rx = with_feature_buffer (Some feature') (with_pitchf_buffer pitchf' r1)) as ->.
  { unfold bind, gets, rate, ret, raise in Em.
    destruct (outputSampleRate _); injection Em as _ <-; reflexivity. }
  destruct (Hexec _ _ _ _ _ Eexec) as (Hfl & Hpl).
  unfold data in Hfl, Hpl. cbn [exec_args a_feature a_if_f0] in Hfl, Hpl.
  destruct Hframe as (_ & _ & _ & Hslot & _).
  destruct Hok1 as [Hnone | (k & Hk & H1 & H2 & H3)].
  { rewrite Ha1 in Hnone. discriminate. }
  right. exists k. split; [exact Hk |].
  unfold holds in *. cbn. rewrite Hf1 in H2. cbn in H2. injection H2 as H2.
  split; [exact H1 |]. split; [unfold olen; cbn; f_equal; lia |].
  intros Hf0. rewrite Hs1 in Hf0. rewrite Hf0 in Hpl.
  destruct (Hpl eq_refl) as (p & -> & Hplen).
  unfold olen. cbn. f_equal. lia.
Qed.

End AlignmentAcrossInference.

(** A loud chunk of 320 samples through a pipeline that echoes its
    windows: the chunk is converted and the buffers stay aligned. *)
Lemma inference_keeps_buffers_aligned_witness :
  let out := inference (CL := SampleEcho.echo) (Sample.loud 320) 160 0
               (Sample.ready Sample.slot 0) in
  (exists result, fst out = inr (Some result))
  /\ buffers_ok (snd out).
Proof.
  cbv zeta. split; [eexists; vm_compute; reflexivity |].
  apply (inference_keeps_buffers_aligned (CL := SampleEcho.echo)
           (Sample.ready Sample.slot 0) _ (Sample.loud 320) 160 0
           (fst (inference (CL := SampleEcho.echo) (Sample.loud 320) 160 0
                   (Sample.ready Sample.slot 0)))).
  - intros pipe args audio_out pitchf' feature' E. cbn in E.
    injection E as _ <- <-. split; [reflexivity |].
    intros ->. cbn. eexists. split; [reflexivity |].
    unfold zlen. rewrite length_map. reflexivity.
  - vm_compute. discriminate.
  - left. reflexivity.
  - intros inRate cf16 sola16 extra16 Hr Hcf Hsola Hextra.
    vm_compute in Hr. injection Hr as <-.
    vm_compute in Hcf. injection Hcf as <-.
    vm_compute in Hsola. injection Hsola as <-.
    vm_compute in Hextra. injection Hextra as <-.
    split; [vm_compute; discriminate |].
    split; [vm_compute; discriminate |].
    split; [vm_compute; discriminate |].
    eexists. vm_compute. reflexivity.
  - apply surjective_pairing.
Defined.

(** * The process-wide logger *)

Section LogControl.

Import log_control.

Lemma init_vcclient (w : World) :
  logger (fst (__init__ w)) = "vcclient"
  /\ handlers (vcclient (snd (__init__ w))) = handlers (vcclient w)
  /\ opened (logging (snd (__init__ w))) = opened (logging w)
  /\ _instance (snd (__init__ w)) = _instance w.
Proof. repeat split. Qed.

Lemma get_instance_vcclient (w : World) :
  well_formed w ->
  logger (fst (get_instance w)) = "vcclient"
  /\ handlers (vcclient (snd (get_instance w))) = handlers (vcclient w)
  /\ opened (logging (snd (get_instance w))) = opened (logging w)
  /\ well_formed (snd (get_instance w)).
Proof.
  intros Hwf. unfold get_instance.
  destruct (_instance w) as [i |] eqn:Ei.
  - cbn. repeat split; [apply Hwf; exact Ei | exact Hwf].
  - cbn. repeat split. intros i Hi. cbn in Hi. injection Hi as <-. reflexivity.
Qed.

Lemma initialize_first (self : VoiceChangaerLogger) (flag : bool) (w : World) :
  logger self = "vcclient" ->
  handlers (vcclient w) = [] ->
  handlers (vcclient (initialize self flag w)) = [file_handler flag; stream_handler]
  /\ opened (logging (initialize self flag w))
     = opened (logging w) ++ [("vcclient.log", if flag then "w" else "a")]
  /\ _instance (initialize self flag w) = _instance w.
Proof.
  intros Hself Hnone. unfold initialize. rewrite Hself.
  unfold vcclient in Hnone. rewrite Hnone. cbn. rewrite Hnone.
  repeat split.
Qed.

Lemma initialize_later (self : VoiceChangaerLogger) (flag : bool) (w : World) :
  logger self = "vcclient" ->
  handlers (vcclient w) <> [] ->
  initialize self flag w = w.
Proof.
  intros Hself Hsome. unfold initialize. rewrite Hself.
  unfold vcclient in Hsome.
  destruct (handlers (loggers (logging w) "vcclient")); [contradiction | reflexivity].
Qed.

Lemma start_first (flag : bool) (w : World) :
  well_formed w ->
  handlers (vcclient w) = [] ->
  handlers (vcclient (start flag w)) = [file_handler flag; stream_handler]
  /\ opened (logging (start flag w))
     = opened (logging w) ++ [("vcclient.log", if flag then "w" else "a")]
  /\ well_formed (start flag w).
Proof.
  intros Hwf Hnone. unfold start.
  destruct (get_instance_vcclient w Hwf) as (Hi & Hh & Ho & Hwf').
  destruct (get_instance w) as [self w1]. cbn [fst snd] in *.
  rewrite Hnone in Hh.
  destruct (initialize_first self flag w1 Hi Hh) as (H1 & H2 & H3).
  split; [exact H1 |]. split; [rewrite H2, Ho; reflexivity |].
  intros i E. rewrite H3 in E. apply Hwf'. exact E.
Qed.

Lemma start_later (flag : bool) (w : World) :
  well_formed w ->
  handlers (vcclient w) <> [] ->
  handlers (vcclient (start flag w)) = handlers (vcclient w)
  /\ opened (logging (start flag w)) = opened (logging w)
  /\ well_formed (start flag w).
Proof.
  intros Hwf Hsome. unfold start.
  destruct (get_instance_vcclient w Hwf) as (Hi & Hh & Ho & Hwf').
  destruct (get_instance w) as [self w1]. cbn [fst snd] in *.
  rewrite initialize_later; [| exact Hi | rewrite Hh; exact Hsome].
  repeat split; assumption.
Qed.

Lemma starts_later (flags : list bool) (w : World) :
  well_formed w ->
  handlers (vcclient w) <> [] ->
  handlers (vcclient (starts flags w)) = handlers (vcclient w)
  /\ opened (logging (starts flags w)) = opened (logging w).
Proof.
  revert w. induction flags as [| flag rest IH]; intros w Hwf Hsome.
  - split; reflexivity.
  - cbn [starts].
    destruct (start_later flag w Hwf Hsome) as (Hh & Ho & Hwf').
    destruct (IH (start flag w) Hwf') as (Hh' & Ho').
    { rewrite Hh. exact Hsome. }
    split; [rewrite Hh', Hh | rewrite Ho', Ho]; reflexivity.
Qed.

(** X15. However many modules start the logger, and with whatever flags,
    the first start alone configures it: the logger [vcclient] ends with
    exactly two handlers, the file handler at level DEBUG in the mode the
    first flag asked for and the stream handler at level INFO, and the log
    file was opened once. A later [initialize(True)] does not truncate a
    log that was opened for appending. *)
Theorem logger_is_configured_by_the_first_start (w : World) (flag : bool)
    (later : list bool) :
  well_formed w ->
  handlers (vcclient w) = [] ->
  handlers (vcclient (starts (flag :: later) w)) = [file_handler flag; stream_handler]
  /\ opened (logging (starts (flag :: later) w))
     = opened (logging w) ++ [("vcclient.log", if flag then "w" else "a")].
Proof.
  intros Hwf Hnone. cbn [starts].
  destruct (start_first flag w Hwf Hnone) as (Hh & Ho & Hwf').
  destruct (starts_later later (start flag w) Hwf') as (Hh' & Ho').
  { rewrite Hh. discriminate. }
  split; [rewrite Hh', Hh | rewrite Ho', Ho]; reflexivity.
Qed.

(** Three modules start the logger of a new interpreter: appending,
    truncating, appending. *)
Lemma logger_is_configured_by_the_first_start_witness :
  handlers (vcclient (starts [false; true; false] fresh))
  = [file_handler false; stream_handler]
  /\ opened (logging (starts [false; true; false] fresh)) = [("vcclient.log", "a")].
Proof.
  apply (logger_is_configured_by_the_first_start fresh false [true; false]).
  - intros i E. discriminate E.
  - reflexivity.
Defined.

Lemma get_instance_twice (w : World) :
  get_instance (snd (get_instance w)) = get_instance w.
Proof.
  unfold get_instance. destruct (_instance w) as [i |] eqn:Ei.
  - cbn. rewrite Ei. reflexivity.
  - cbn. reflexivity.
Qed.

Lemma get_instances_once (n : nat) (w : World) :
  get_instances (S n) w = snd (get_instance w).
Proof.
  revert w. induction n as [| n IH]; intros w.
  - reflexivity.
  - change (get_instances (S (S n)) w)
      with (get_instances (S n) (snd (get_instance w))).
    rewrite IH, get_instance_twice. reflexivity.
Qed.

Lemma constructions_filters (name : string) (n : nat) (w : World) :
  In name silenced ->
  length (filters (loggers (logging (constructions n w)) name))
  = (length (filters (loggers (logging w) name)) + n)%nat.
Proof.
  intros Hin. revert w. induction n as [| n IH]; intros w.
  - cbn. lia.
  - cbn [constructions]. rewrite IH.
    unfold silenced in Hin. cbn [In] in Hin.
    destruct Hin as [<- | [<- | [<- | [<- | [<- | [<- | []]]]]]];
      cbn; rewrite length_app; cbn; lia.
Qed.

(** X16. [get_instance] makes the logger object once: any number of calls
    leaves the [logging] module and the class as the first call did, and
    every call returns the object of the first. Calling the constructor
    instead adds one more suppressing filter to each of the six silenced
    loggers every time. *)
Theorem get_instance_constructs_once (w : World) (n : nat) :
  get_instances (S n) w = snd (get_instance w)
  /\ fst (get_instance (get_instances (S n) w)) = fst (get_instance w)
  /\ Forall (fun name =>
               length (filters (loggers (logging (constructions n w)) name))
               = (length (filters (loggers (logging w) name)) + n)%nat) silenced.
Proof.
  split; [apply get_instances_once |].
  split; [rewrite get_instances_once, get_instance_twice; reflexivity |].
  apply Forall_forall. intros name Hin. apply constructions_filters. exact Hin.
Qed.

End LogControl.

(** * The sample downloader *)

Section Downloads.

Import SampleDownloader ModelSample.

Context `{EN : Env}.

Local Open Scope downloader_scope.

Lemma generateSampleJsons_from_spec (acc urls : list string) :
  _generateSampleJsons_from acc urls = acc ++ map basename urls.
Proof.
  revert acc. induction urls as [| u rest IH]; intros acc; cbn.
  - rewrite app_nil_r. reflexivity.
  - rewrite IH, <- app_assoc. reflexivity.
Qed.

Lemma downloadSampleJsons_from_spec (acc urls : list string) (w : World) :
  _downloadSampleJsons_from acc urls w
  = (inr (acc ++ map basename urls),
     {| downloaded := downloaded w ++ map json_download urls;
        made := made w; saved := saved w; logged := logged w |}).
Proof.
  revert acc w. induction urls as [| u rest IH]; intros acc w; cbn.
  - rewrite !app_nil_r. destruct w; reflexivity.
  - unfold bind, downloads. cbn. rewrite IH. cbn.
    rewrite <- !app_assoc. reflexivity.
Qed.

(** X17. [_downloadSampleJsons] saves each list of samples under the base
    name of its address, through [download_no_tqdm] at position 0 and in
    the order of the addresses, and returns the names [_generateSampleJsons]
    computes without downloading: [downloadSample] and [getSampleInfos]
    read the files that [downloadInitialSamples] wrote. *)
Theorem sample_jsons_are_read_where_they_were_saved (sampleJsonUrls : list string)
    (w : World) :
  let out := _downloadSampleJsons sampleJsonUrls w in
  fst out = inr (_generateSampleJsons sampleJsonUrls)
  /\ map (fun d => saveTo (snd d)) (map json_download sampleJsonUrls)
     = _generateSampleJsons sampleJsonUrls
  /\ downloaded (snd out) = downloaded w ++ map json_download sampleJsonUrls
  /\ made (snd out) = made w
  /\ saved (snd out) = saved w
  /\ logged (snd out) = logged w.
Proof.
  cbv zeta. unfold _downloadSampleJsons, _generateSampleJsons.
  rewrite downloadSampleJsons_from_spec, generateSampleJsons_from_spec. cbn.
  split; [reflexivity |]. split; [| repeat split].
  rewrite map_map. reflexivity.
Qed.

Lemma counted_nil (n : Z) : counted n [].
Proof. reflexivity. Qed.

Lemma seq_from (len a : nat) : seq a len = map (Nat.add a) (seq 0 len).
Proof.
  revert a. induction len as [| len IH]; intros a; cbn [seq map].
  - reflexivity.
  - f_equal; [lia |]. rewrite <- (seq_shift len 0), map_map, (IH (S a)).
    apply map_ext. intros k. lia.
Qed.

Lemma counted_app (n : Z) (a b : list DownloadParam) :
  counted n a -> counted (n + zlen a) b -> counted n (a ++ b).
Proof.
  unfold counted, zlen. intros Ha Hb.
  rewrite map_app, length_app, seq_app, map_app, Ha, Hb. f_equal.
  cbn [Nat.add]. rewrite (seq_from (length b) (length a)), map_map.
  apply map_ext. intros k. lia.
Qed.

Lemma counted_one (n : Z) (u t : string) :
  counted n [{| url := u; saveTo := t; position := n |}].
Proof. unfold counted. cbn [map length seq position]. repeat (apply f_equal2; [lia |]). reflexivity. Qed.

Lemma counted_two (n : Z) (u1 t1 u2 t2 : string) :
  counted n [{| url := u1; saveTo := t1; position := n |};
             {| url := u2; saveTo := t2; position := n + 1 |}].
Proof. unfold counted. cbn [map length seq position]. repeat (apply f_equal2; [lia |]). reflexivity. Qed.

Lemma counted_three (n : Z) (u1 t1 u2 t2 u3 t3 : string) :
  counted n [{| url := u1; saveTo := t1; position := n |};
             {| url := u2; saveTo := t2; position := n + 1 |};
             {| url := u3; saveTo := t3; position := n + 1 + 1 |}].
Proof. unfold counted. cbn [map length seq position]. repeat (apply f_equal2; [lia |]). reflexivity. Qed.

Lemma present_attr (a : option string) :
  present a = true -> a = Some (attr a) /\ attr a <> "".
Proof.
  destruct a as [s |]; cbn; [| discriminate].
  intros H. split; [reflexivity |]. intros ->. discriminate H.
Qed.

Lemma is_True_inv (v : ParamValue) : is_True v = true -> v = PTrue.
Proof. destruct v; cbn; intros H; [reflexivity | discriminate | discriminate]. Qed.

Ltac turn_done H :=
  cbn in H; injection H as <- <-; cbn; split; [reflexivity |].

(** One turn of the loop: the world it leaves has no new download, and
    what it hands on extends what it was given. *)
Lemma sample_turn_spec (samples : list ModelSamples) (model_dir : string)
    (slotIndex : list Z) (i : nat) (x : string * Params)
    (ps : list DownloadParam) (n : Z) (w w' : World)
    (r : exn + list DownloadParam * Z) :
  sample_turn samples model_dir slotIndex i x ps n w = (r, w') ->
  downloaded w' = downloaded w
  /\ match r with
     | inr (ps', n') =>
         exists new,
           ps' = ps ++ new /\ n' = n + zlen new /\ counted n new
           /\ Forall (planned_at samples model_dir slotIndex i x) new
     | inl _ => True
     end.
Proof.
  unfold sample_turn, bind, lift, makedirs, save_model_slot, log_line, ret.
  intros H.
  destruct (nth_error slotIndex i) as [idx |] eqn:Eidx;
    [| injection H as <- <-; split; [reflexivity | exact I]].
  destruct (find (fun sample => String.eqb (id sample) (fst x)) samples)
    as [sample |] eqn:Efind.
  2: { turn_done H. exists []. rewrite app_nil_r.
       repeat split; [unfold zlen; cbn; lia | constructor]. }
  destruct (String.eqb (voiceChangerType sample) "RVC") eqn:Ervc.
  - apply String.eqb_eq in Ervc.
    destruct (getitem (snd x) "useIndex") as [e | useIndex] eqn:Eget;
      [injection H as <- <-; split; [reflexivity | exact I] |].
    cbv beta iota in H.
    destruct (is_True useIndex && present (indexUrl sample)) eqn:Eindex;
      destruct (present (icon sample)) eqn:Eicon; turn_done H.
    + apply andb_prop in Eindex. destruct Eindex as (Ht & Hi).
      apply is_True_inv in Ht. subst useIndex.
      destruct (present_attr _ Hi) as (Hi1 & Hi2).
      destruct (present_attr _ Eicon) as (Hc1 & Hc2).
      eexists. split; [rewrite <- !app_assoc; cbn; reflexivity |].
      split; [unfold zlen; cbn; lia |]. split; [apply counted_three |].
      repeat constructor; exists idx, sample; cbn; auto 10.
    + apply andb_prop in Eindex. destruct Eindex as (Ht & Hi).
      apply is_True_inv in Ht. subst useIndex.
      destruct (present_attr _ Hi) as (Hi1 & Hi2).
      eexists. split; [rewrite <- !app_assoc; cbn; reflexivity |].
      split; [unfold zlen; cbn; lia |]. split; [apply counted_two |].
      repeat constructor; exists idx, sample; cbn; auto 10.
    + destruct (present_attr _ Eicon) as (Hc1 & Hc2).
      eexists. split; [rewrite <- !app_assoc; cbn; reflexivity |].
      split; [unfold zlen; cbn; lia |]. split; [apply counted_two |].
      repeat constructor; exists idx, sample; cbn; auto 10.
    + eexists. split; [reflexivity |].
      split; [unfold zlen; cbn; lia |]. split; [apply counted_one |].
      repeat constructor; exists idx, sample; cbn; auto 10.
  - destruct (String.eqb (voiceChangerType sample) "Diffusion-SVC") eqn:Edif.
    2: { turn_done H. exists []. rewrite app_nil_r.
         repeat split; [unfold zlen; cbn; lia | constructor]. }
    apply String.eqb_eq in Edif.
    destruct (String.prefix "darwin" platform) eqn:Edarwin.
    { turn_done H. exists []. rewrite app_nil_r.
      repeat split; [unfold zlen; cbn; lia | constructor]. }
    destruct (present (icon sample)) eqn:Eicon; turn_done H.
    + destruct (present_attr _ Eicon) as (Hc1 & Hc2).
      eexists. split; [rewrite <- !app_assoc; cbn; reflexivity |].
      split; [unfold zlen; cbn; lia |]. split; [apply counted_two |].
      repeat constructor; exists idx, sample; cbn; auto 10.
    + eexists. split; [reflexivity |].
      split; [unfold zlen; cbn; lia |]. split; [apply counted_one |].
      repeat constructor; exists idx, sample; cbn; auto 10.
Qed.

Lemma sample_turns_spec (samples : list ModelSamples) (model_dir : string)
    (slotIndex : list Z) (ids : list (string * Params)) :
  forall (i : nat) (ps : list DownloadParam) (n : Z) (w w' : World)
         (r : exn + list DownloadParam * Z),
    sample_turns samples model_dir slotIndex i ids ps n w = (r, w') ->
    downloaded w' = downloaded w
    /\ match r with
       | inr (ps', n') =>
           exists new,
             ps' = ps ++ new /\ n' = n + zlen new /\ counted n new
             /\ Forall (fun p => exists k x,
                          nth_error ids k = Some x
                          /\ planned_at samples model_dir slotIndex (i + k) x p) new
       | inl _ => True
       end.
Proof.
  induction ids as [| x rest IH]; intros i ps n w w' r H.
  - cbn in H. injection H as <- <-. split; [reflexivity |].
    exists []. rewrite app_nil_r.
    repeat split; [unfold zlen; cbn; lia | constructor].
  - cbn [sample_turns] in H. unfold bind at 1 in H.
    destruct (sample_turn samples model_dir slotIndex i x ps n w) as [r1 w1] eqn:E1.
    destruct (sample_turn_spec _ _ _ _ _ _ _ _ _ _ E1) as (Hd1 & Hr1).
    destruct r1 as [e | [ps1 n1]].
    { injection H as <- <-. split; [exact Hd1 | exact I]. }
    cbn [fst snd] in H.
    destruct (IH _ _ _ _ _ _ H) as (Hd2 & Hr2).
    split; [rewrite Hd2; exact Hd1 |].
    destruct r as [e | [ps2 n2]]; [exact I |].
    destruct Hr1 as (new1 & -> & -> & Hc1 & Hp1).
    destruct Hr2 as (new2 & -> & -> & Hc2 & Hp2).
    exists (new1 ++ new2). split; [rewrite app_assoc; reflexivity |].
    split; [unfold zlen; rewrite length_app; lia |].
    split; [apply counted_app; assumption |].
    apply Forall_app. split.
    + eapply Forall_impl; [| exact Hp1]. intros p Hp.
      exists 0%nat, x. split; [reflexivity |].
      rewrite Nat.add_0_r. exact Hp.
    + eapply Forall_impl; [| exact Hp2]. intros p (k & y & Hk & Hp).
      exists (S k), y. split; [exact Hk |].
      replace (i + S k)%nat with (S i + k)%nat by lia. exact Hp.
Qed.

Lemma metadata_turns_spec (model_dir : string) (slotIndex : list Z) :
  forall (w w' : World) (r : exn + unit),
    metadata_turns model_dir slotIndex w = (r, w') ->
    r = inr tt /\ downloaded w' = downloaded w
    /\ made w' = made w /\ logged w' = logged w.
Proof.
  induction slotIndex as [| idx rest IH]; intros w w' r H.
  - cbn in H. injection H as <- <-. repeat split.
  - cbn [metadata_turns] in H. unfold bind at 1 in H.
    destruct (metadata_turn model_dir idx w) as [r1 w1] eqn:E1.
    assert (r1 = inr tt /\ downloaded w1 = downloaded w
            /\ made w1 = made w /\ logged w1 = logged w) as (-> & Hd & Hm & Hl).
    { unfold metadata_turn, bind, ask, save_model_slot, ret in E1.
      destruct (String.eqb _ "RVC"); injection E1 as <- <-; repeat split. }
    destruct (IH _ _ _ H) as (Hr & Hd' & Hm' & Hl').
    rewrite Hd', Hm', Hl', Hd, Hm, Hl. repeat split. exact Hr.
Qed.

(** What [_downloadSamples] hands to the downloader. *)
Lemma downloadSamples_plan (samples : list ModelSamples)
    (sampleModelIds : list (string * Params)) (model_dir : string)
    (slotIndex : list Z) (withoutTqdm : bool) (w : World) :
  let out := _downloadSamples samples sampleModelIds model_dir slotIndex withoutTqdm w in
  exists ps,
    downloaded (snd out) = downloaded w ++ map (pair withoutTqdm) ps
    /\ counted 0 ps
    /\ Forall (planned samples model_dir slotIndex sampleModelIds) ps
    /\ (fst out = inr tt \/ ps = []).
Proof.
  cbv zeta.
  destruct (_downloadSamples samples sampleModelIds model_dir slotIndex withoutTqdm w)
    as [r w'] eqn:E.
  cbn [fst snd]. unfold _downloadSamples in E. unfold bind at 1 in E.
  destruct (sample_turns samples model_dir slotIndex 0 sampleModelIds [] 0 w)
    as [r1 w1] eqn:E1.
  destruct (sample_turns_spec _ _ _ _ _ _ _ _ _ _ E1) as (Hd1 & Hr1).
  destruct r1 as [e | [ps1 n1]].
  { injection E as <- <-. exists []. cbn. rewrite app_nil_r.
    split; [exact Hd1 |]. split; [apply counted_nil |].
    split; [constructor | right; reflexivity]. }
  destruct Hr1 as (new & Hps & _ & Hc & Hp). cbn in Hps. subst ps1.
  exists new.
  unfold bind, log_line, downloads in E. cbn [downloaded made saved logged fst] in E.
  destruct (metadata_turns_spec _ _ _ _ _ E) as (Hr & Hd & _ & _).
  cbn in Hd.
  split; [rewrite Hd, Hd1; reflexivity |]. split; [exact Hc |].
  split; [| left; exact Hr].
  eapply Forall_impl; [| exact Hp]. intros p (k & x & Hk & Hpl).
  exists k, x. split; assumption.
Qed.

(** X18. The downloads [_downloadSamples] hands to the thread pool carry
    the positions 0, 1, 2, ... in the order they are handed over, one
    progress line each, whatever mix of models, indexes and icons the
    samples bring and whichever ids are skipped; they are the only
    downloads it makes, and it makes none when it raises. *)
Theorem download_positions_count_up (samples : list ModelSamples)
    (sampleModelIds : list (string * Params)) (model_dir : string)
    (slotIndex : list Z) (withoutTqdm : bool) (w : World) :
  let out := _downloadSamples samples sampleModelIds model_dir slotIndex withoutTqdm w in
  exists ps,
    downloaded (snd out) = downloaded w ++ map (pair withoutTqdm) ps
    /\ map position ps = map Z.of_nat (seq 0 (length ps))
    /\ (fst out <> inr tt -> ps = []).
Proof.
  destruct (downloadSamples_plan samples sampleModelIds model_dir slotIndex
              withoutTqdm w) as (ps & Hd & Hc & _ & Hout).
  cbv zeta. exists ps. split; [exact Hd |]. split.
  - unfold counted in Hc. rewrite Hc. apply map_ext. intros k. lia.
  - intros Hne. destruct Hout as [Hok | Hnil]; [contradiction | exact Hnil].
Qed.

(** X19. [_downloadSamples] downloads nothing it was not asked for. Every
    download belongs to one of the requested ids and to the first sample
    that has this id; the sample is an RVC one, or a Diffusion-SVC one on
    a platform other than darwin; the file is the model, the icon, or the
    index of an RVC sample whose parameters hold [useIndex: True]; and it
    is saved under its base name in the directory of the slot that stands
    at the same place of [slotIndex] as the id in the request. *)
Theorem downloads_are_the_requested_ones (samples : list ModelSamples)
    (sampleModelIds : list (string * Params)) (model_dir : string)
    (slotIndex : list Z) (withoutTqdm : bool) (w : World) :
  let out := _downloadSamples samples sampleModelIds model_dir slotIndex withoutTqdm w in
  exists ps,
    downloaded (snd out) = downloaded w ++ map (pair withoutTqdm) ps
    /\ Forall (planned samples model_dir slotIndex sampleModelIds) ps.
Proof.
  destruct (downloadSamples_plan samples sampleModelIds model_dir slotIndex
              withoutTqdm w) as (ps & Hd & _ & Hp & _).
  cbv zeta. exists ps. split; assumption.
Qed.

(** X20. When [model_dir] exists, [downloadInitialSamples] still
    downloads every list of samples, logs that it skips the samples and
    does nothing else: no directory is made, no model downloaded and no
    slot saved. *)
Theorem initial_samples_are_skipped_when_model_dir_exists (mode model_dir : string)
    (w : World) :
  exists_ (snd (_downloadSampleJsons (fst (getSampleJsonAndModelIds mode)) w))
          model_dir = true ->
  downloadInitialSamples mode model_dir w
  = (inr tt,
     {| downloaded :=
          downloaded w ++ map json_download (fst (getSampleJsonAndModelIds mode));
        made := made w;
        saved := saved w;
        logged := logged w ++ [("info", skip_download)] |}).
Proof.
  unfold downloadInitialSamples, _downloadSampleJsons.
  destruct (getSampleJsonAndModelIds mode) as [urls models]. cbn [fst].
  rewrite downloadSampleJsons_from_spec. cbn [snd]. intros Hex.
  unfold bind at 1. rewrite downloadSampleJsons_from_spec.
  unfold bind at 1, ask at 1. rewrite Hex.
  reflexivity.
Qed.

Lemma generateSampleList_from_reads (files : list string) :
  forall (acc : list ModelSamples) (w : World),
    snd (_generateSampleList_from acc files w) = w.
Proof.
  induction files as [| file rest IH]; intros acc w.
  - reflexivity.
  - cbn [_generateSampleList_from]. unfold bind, read.
    destruct (json_load w file) as [e | jsonDict]; [reflexivity | apply IH].
Qed.

(** X21. [downloadSample] for an id that no list of samples holds returns
    without raising: it downloads nothing, not even the lists, makes no
    directory, and logs a warning that names the id before the two lines
    of progress. *)
Theorem unknown_sample_is_skipped (mode modelId model_dir : string) (slotIndex : Z)
    (params : Params) (w : World) (samples : list ModelSamples) :
  fst (getSampleInfos mode w) = inr samples ->
  find (fun sample => String.eqb (id sample) modelId) samples = None ->
  let out := downloadSample mode modelId model_dir slotIndex params w in
  fst out = inr tt
  /\ downloaded (snd out) = downloaded w
  /\ made (snd out) = made w
  /\ logged (snd out)
     = logged w ++ [("warn", not_found modelId);
                    ("info", "[Voice Changer] Downloading model files...");
                    ("info", "[Voice Changer] Generating metadata...")].
Proof.
  intros Hinfo Hfind. cbv zeta.
  destruct (downloadSample mode modelId model_dir slotIndex params w)
    as [r w'] eqn:E.
  cbn [fst snd]. unfold downloadSample in E. unfold getSampleInfos in Hinfo.
  destruct (getSampleJsonAndModelIds mode) as [urls models].
  unfold _generateSampleList in Hinfo, E.
  pose proof (generateSampleList_from_reads (_generateSampleJsons urls) [] w)
    as Hw.
  unfold bind at 1 in E.
  destruct (_generateSampleList_from [] (_generateSampleJsons urls) w) as [r1 w1].
  cbn [fst snd] in Hinfo, Hw. subst r1 w1.
  unfold _downloadSamples in E. cbn [sample_turns] in E.
  unfold sample_turn in E. cbn [fst snd nth_error] in E. rewrite Hfind in E.
  unfold bind, lift, log_line, downloads, ret in E.
  cbn [fst snd map downloaded made saved logged] in E.
  destruct (metadata_turns_spec _ _ _ _ _ E) as (Hr & Hd & Hm & Hl).
  cbn in Hd, Hm, Hl.
  split; [exact Hr |]. split; [rewrite Hd, app_nil_r; reflexivity |].
  split; [exact Hm |]. rewrite Hl, <- !app_assoc. reflexivity.
Qed.

(** X22. The parameters of a requested RVC sample must hold the key
    [useIndex]. When the first sample asked for is an RVC sample whose
    parameters lack it, [_downloadSamples] raises [KeyError] after it has
    made the directory of the slot: nothing is downloaded, no slot is
    saved and nothing is logged. *)
Theorem rvc_sample_without_useIndex_raises (samples : list ModelSamples)
    (targetSampleId : string) (params : Params) (rest : list (string * Params))
    (model_dir : string) (targetSlotIndex : Z) (slots : list Z)
    (withoutTqdm : bool) (sample : ModelSamples) (w : World) :
  find (fun sample => String.eqb (id sample) targetSampleId) samples = Some sample ->
  voiceChangerType sample = "RVC" ->
  find (fun kv => String.eqb (fst kv) "useIndex") params = None ->
  _downloadSamples samples ((targetSampleId, params) :: rest) model_dir
    (targetSlotIndex :: slots) withoutTqdm w
  = (inl (OtherException "KeyError"),
     {| downloaded := downloaded w;
        made := made w ++ [join [model_dir; str targetSlotIndex]];
        saved := saved w;
        logged := logged w |}).
Proof.
  intros Hfind Hrvc Hkey.
  unfold _downloadSamples. cbn [sample_turns].
  unfold sample_turn. cbn [fst snd nth_error]. rewrite Hfind, Hrvc.
  unfold getitem. rewrite Hkey.
  reflexivity.
Qed.

Lemma entries_fold (entries : list SampleParams) (acc : list ModelSamples) :
  fold_left (fun samples sampleParams => samples ++ [generateModelSample sampleParams])
            entries acc
  = acc ++ map generateModelSample entries.
Proof.
  revert acc. induction entries as [| e rest IH]; intros acc; cbn.
  - rewrite app_nil_r. reflexivity.
  - rewrite IH, <- app_assoc. reflexivity.
Qed.

Lemma samples_of_types_spec (jsonDict : list (string * list SampleParams))
    (acc : list ModelSamples) :
  samples_of_types acc jsonDict = acc ++ samples_in jsonDict.
Proof.
  unfold samples_in.
  revert acc. induction jsonDict as [| [vcType entries] rest IH]; intros acc; cbn.
  - rewrite app_nil_r. reflexivity.
  - rewrite IH, entries_fold, <- app_assoc. reflexivity.
Qed.

(** Every file can be read: the samples come in the order of the files. *)
Lemma generateSampleList_from_readable (w : World) (files : list string)
    (jsonDicts : list (list (string * list SampleParams))) :
  readable w files jsonDicts ->
  forall acc,
    _generateSampleList_from acc files w
    = (inr (acc ++ flat_map samples_in jsonDicts), w).
Proof.
  induction 1 as [| file jsonDict rest dicts Hfile _ IH]; intros acc; cbn.
  - rewrite app_nil_r. reflexivity.
  - unfold bind, read. rewrite Hfile, IH, samples_of_types_spec, <- app_assoc.
    reflexivity.
Qed.

(** The first file that cannot be read stops the loop. *)
Lemma generateSampleList_from_unreadable (w : World) (before : list string)
    (jsonDicts : list (list (string * list SampleParams)))
    (file : string) (after : list string) (e : exn) :
  readable w before jsonDicts ->
  json_load w file = inl e ->
  forall acc,
    _generateSampleList_from acc (before ++ file :: after) w = (inl e, w).
Proof.
  intros Hbefore Hfile.
  induction Hbefore as [| f jsonDict rest dicts Hf _ IH]; intros acc; cbn.
  - unfold bind, read. rewrite Hfile. reflexivity.
  - unfold bind, read. rewrite Hf. apply IH.
Qed.


(** X23. [getSampleInfos] only reads, and never downloads a list itself:
    whatever its outcome, nothing is downloaded, made, saved or logged.
    The files it reads are the base names of the addresses. When all of
    them can be read it returns the samples file after file in the order
    of the addresses, within a file type after type, within a type entry
    after entry. When one is missing or is not JSON, it raises the
    exception of the first such file. *)
Theorem getSampleInfos_lists_without_writing (mode : string) (w : World) :
  let files := map basename (fst (getSampleJsonAndModelIds mode)) in
  snd (getSampleInfos mode w) = w
  /\ (forall jsonDicts,
        readable w files jsonDicts ->
        fst (getSampleInfos mode w) = inr (flat_map samples_in jsonDicts))
  /\ (forall before jsonDicts file after e,
        files = before ++ file :: after ->
        readable w before jsonDicts ->
        json_load w file = inl e ->
        fst (getSampleInfos mode w) = inl e).
Proof.
  cbv zeta. unfold getSampleInfos.
  destruct (getSampleJsonAndModelIds mode) as [urls models]. cbn [fst].
  unfold _generateSampleList, _generateSampleJsons.
  rewrite generateSampleJsons_from_spec. cbn [app].
  split; [apply generateSampleList_from_reads |]. split.
  - intros jsonDicts Hread.
    rewrite (generateSampleList_from_readable _ _ _ Hread). reflexivity.
  - intros before jsonDicts file after e Hfiles Hbefore Hfile.
    rewrite Hfiles.
    rewrite (generateSampleList_from_unreadable _ _ _ _ _ _ Hbefore Hfile).
    reflexivity.
Qed.





End Downloads.

(** The sample environment with [model_dir] in place: one list is
    downloaded, and that is all. *)
Lemma initial_samples_are_skipped_when_model_dir_exists_witness :
  SampleDownloader.downloadInitialSamples (EN := SampleDownloads.env true)
    "production" "model_dir" SampleDownloads.nothing
  = (inr tt,
     {| SampleDownloader.downloaded :=
          [(true, {| SampleDownloader.url := "https://host/samples_0004_o.json";
                     SampleDownloader.saveTo := "samples_0004_o.json";
                     SampleDownloader.position := 0 |})];
        SampleDownloader.made := [];
        SampleDownloader.saved := [];
        SampleDownloader.logged := [("info", SampleDownloader.skip_download)] |}).
Proof.
  apply (initial_samples_are_skipped_when_model_dir_exists
           (EN := SampleDownloads.env true) "production" "model_dir"
           SampleDownloads.nothing).
  reflexivity.
Defined.

(** The list of the sample environment, once downloaded, holds no sample
    of the id [nobody]. *)
Lemma unknown_sample_is_skipped_witness :
  let out := SampleDownloader.downloadSample (EN := SampleDownloads.env false)
               "production" "nobody" "model_dir" 3 [] SampleDownloads.listed in
  fst out = inr tt
  /\ SampleDownloader.downloaded (snd out)
     = SampleDownloader.downloaded SampleDownloads.listed
  /\ SampleDownloader.made (snd out) = []
  /\ SampleDownloader.logged (snd out)
     = [] ++ [("warn", SampleDownloader.not_found "nobody");
        ("info", "[Voice Changer] Downloading model files...");
        ("info", "[Voice Changer] Generating metadata...")].
Proof.
  apply (unknown_sample_is_skipped (EN := SampleDownloads.env false)
           "production" "nobody" "model_dir" 3 [] SampleDownloads.listed
           [SampleDownloads.mahiro]).
  - reflexivity.
  - reflexivity.
Defined.

(** The sample [mahiro] asked for with no parameters. *)
Lemma rvc_sample_without_useIndex_raises_witness :
  SampleDownloader._downloadSamples (EN := SampleDownloads.env false)
    [SampleDownloads.mahiro] [("KikotoMahiro_o", [])] "model_dir" [0] true
    SampleDownloads.nothing
  = (inl (OtherException "KeyError"),
     {| SampleDownloader.downloaded := [];
        SampleDownloader.made := ["model_dir/0"];
        SampleDownloader.saved := [];
        SampleDownloader.logged := [] |}).
Proof.
  apply (rvc_sample_without_useIndex_raises (EN := SampleDownloads.env false)
           [SampleDownloads.mahiro] "KikotoMahiro_o" [] [] "model_dir" 0 [] true
           SampleDownloads.mahiro SampleDownloads.nothing); reflexivity.
Defined.


(** The sample environment: before the list was downloaded
    [getSampleInfos] raises, and after it returns the one sample. Neither
    run writes. *)
Lemma getSampleInfos_lists_without_writing_witness :
  SampleDownloader.getSampleInfos (EN := SampleDownloads.env false) "production"
    SampleDownloads.nothing
  = (inl (OtherException "FileNotFoundError"), SampleDownloads.nothing)
  /\ SampleDownloader.getSampleInfos (EN := SampleDownloads.env false) "production"
       SampleDownloads.listed
     = (inr [SampleDownloads.mahiro], SampleDownloads.listed).
Proof.
  destruct (getSampleInfos_lists_without_writing (EN := SampleDownloads.env false)
              "production" SampleDownloads.nothing) as (Hw1 & _ & Hraise).
  destruct (getSampleInfos_lists_without_writing (EN := SampleDownloads.env false)
              "production" SampleDownloads.listed) as (Hw2 & Hlist & _).
  split.
  - apply injective_projections; cbn [fst snd]; [| exact Hw1].
    apply (Hraise [] [] "samples_0004_o.json" [] (OtherException "FileNotFoundError"));
      [reflexivity | constructor | reflexivity].
  - apply injective_projections; cbn [fst snd]; [| exact Hw2].
    apply (Hlist [[("RVC", [SampleDownloads.mahiro])]]).
    repeat constructor.
Defined.
